(** * MediMate: the resilient AWS client manager (backend/utils/aws_clients.py)

    A shallow embedding of the circuit breaker, the connection pool, the
    retry decorator, the service health monitor and the client manager of
    [backend/utils/aws_clients.py], followed by the properties of the
    behavioural specification that concern them.

    Conventions.
    - Python [int] is [Z]; [datetime] values are [Z] microseconds since the
      epoch (the resolution of [datetime]); [timedelta(seconds=n)] is
      [n * 1000000].
    - Python numbers are [int]s, in [Z], or [float]s, IEEE 754 binary64
      numbers as [SpecFloat] has them, with the conversions and the errors of
      Python's arithmetic (module [Py]).
    - A [dict] keyed by service name is a [gmap string _].
    - A call that may raise returns an [Outcome]; state is passed explicitly.
    - Locks are not modelled: every method body runs atomically, one call at
      a time. *)

From Stdlib Require Import ZArith QArith Qround Qpower Lia Lqa List SpecFloat.
From stdpp Require Import base option gmap strings list.

(** ** Exceptions and outcomes *)

(** The exception classes the module distinguishes.  [BotoCoreError] stands
    for the class and its subclasses ([NoCredentialsError], ...);
    [OtherException] is any other subclass of [Exception], such as the plain
    [Exception("Connection pool exhausted")] of the pool. *)
Inductive PyException : Type :=
  | ClientError (msg : string)
  | BotoCoreError (msg : string)
  | OtherException (msg : string).

(** [str(e)] *)
Definition str (e : PyException) : string :=
  match e with
  | ClientError msg | BotoCoreError msg | OtherException msg => msg
  end.

Inductive Outcome (A : Type) : Type :=
  | Return (a : A)
  | Raise (e : PyException).
Arguments Return {A} a.
Arguments Raise {A} e.

(** ** Python numbers *)

Module Py.

(** A Python [float] is a binary64 number.  Sums, differences and products
    are those of IEEE 754, rounded to nearest, ties to even, as [SpecFloat]
    defines them; an overflow gives an infinity, not an exception. *)
Definition float : Type := spec_float.

Definition prec : Z := 53.
Definition emax : Z := 1024.

Definition fmul : float -> float -> float := SFmul prec emax.
Definition fadd : float -> float -> float := SFadd prec emax.
Definition fsub : float -> float -> float := SFsub prec emax.

(** [x < y] on floats. *)
Definition flt : float -> float -> bool := SFltb.

(** The float nearest to the integer [n], an infinity when [n] is beyond
    the largest float. *)
Definition of_Z (n : Z) : float := binary_normalize prec emax n 0 false.

(** The conversion of an [int] operand that meets a [float] operand. *)
Definition float_of_int (n : Z) : Outcome float :=
  match of_Z n with
  | S754_infinity _ => Raise (OtherException "int too large to convert to float")
  | x => Return x
  end.

(** [a / b] for two [int]s, [b] not 0: the float nearest to the quotient,
    whatever the size of [a] and [b].  Where the quotient is beyond the
    floats Python raises OverflowError and the result here is an infinity;
    that takes [|a| >= 2 ** 1023 * |b|]. *)
Definition int_true_divide (a b : Z) : float :=
  match a, b with
  | Z0, _ => S754_zero false
  | _, Z0 => S754_nan
  | _, _ =>
      let '(m, e, l) := SFdiv_core_binary prec emax (Z.abs a) 0 (Z.abs b) 0 in
      binary_round_aux prec emax (xorb (a <? 0)%Z (b <? 0)%Z) m e l
  end.

(** The literals [0.1], [0.5] and [0.8]: the floats nearest to them. *)
Definition float_0_1 : float := int_true_divide 1 10.
Definition float_0_5 : float := int_true_divide 1 2.
Definition float_0_8 : float := int_true_divide 8 10.

(** [x % 1] for a float [x]: the remainder of the C library's [fmod], which
    is exact and has the sign of [x], moved to the sign of the divisor. *)
Definition mod_1 (x : float) : float :=
  match x with
  | S754_nan | S754_infinity _ => S754_nan
  | S754_zero _ => S754_zero false
  | S754_finite s m e =>
      let r := if (0 <=? e)%Z then 0%Z else (Z.pos m mod 2 ^ (- e))%Z in
      if (r =? 0)%Z then S754_zero false
      else if s then fadd (binary_normalize prec emax (- r) e false) (of_Z 1)
      else binary_normalize prec emax r e false
  end.

(** A number: an [int] or a [float]. *)
Inductive PyNum : Type :=
  | PyInt (n : Z)
  | PyFloat (x : float).

Definition to_float (v : PyNum) : Outcome float :=
  match v with
  | PyInt n => float_of_int n
  | PyFloat x => Return x
  end.

(** [x * y]: exact on two [int]s; otherwise the [int] operand, if any, is
    converted and the floats are multiplied. *)
Definition mul (x y : PyNum) : Outcome PyNum :=
  match x, y with
  | PyInt a, PyInt b => Return (PyInt (a * b))
  | _, _ =>
      match to_float x with
      | Raise e => Raise e
      | Return a =>
          match to_float y with
          | Raise e => Raise e
          | Return b => Return (PyFloat (fmul a b))
          end
      end
  end.

(** [x * y] and [x + y] where [y] is a float. *)
Definition mul_float (x : PyNum) (y : float) : Outcome float :=
  match to_float x with
  | Raise e => Raise e
  | Return a => Return (fmul a y)
  end.

Definition add_float (x : PyNum) (y : float) : Outcome float :=
  match to_float x with
  | Raise e => Raise e
  | Return a => Return (fadd a y)
  end.

(** [x ** n] for an [int] [n] that is not negative.  The power of an [int]
    is exact.  The power of a float is computed by the C library's [pow],
    whose rounding is not the same everywhere, and raises OverflowError when
    the result is beyond the floats: it is the parameter [float_pow]. *)
Definition pow (float_pow : float -> Z -> Outcome float) (x : PyNum) (n : Z)
  : Outcome PyNum :=
  match x with
  | PyInt a => Return (PyInt (a ^ n))
  | PyFloat a =>
      match float_pow a n with
      | Raise e => Raise e
      | Return y => Return (PyFloat y)
      end
  end.

(** A [pow] that rounds to nearest, for the worlds of the examples. *)
Definition rounded_pow (x : float) (n : Z) : Outcome float :=
  if (n =? 0)%Z then Return (of_Z 1)
  else
    match x with
    | S754_finite s m e =>
        match binary_normalize prec emax ((if s then Z.neg m else Z.pos m) ^ n)
                               (e * n) false with
        | S754_infinity _ => Raise (OtherException "(34, 'Numerical result out of range')")
        | y => Return y
        end
    | _ => Return x
    end.

End Py.

(** ** class CircuitBreaker *)

Module Breaker.

Inductive CircuitBreakerState : Type := CLOSED | OPEN | HALF_OPEN.

Record CircuitBreaker : Type := mkCircuitBreaker {
  failure_threshold : Z;
  recovery_timeout : Z;               (* seconds *)
  failure_count : Z;
  last_failure_time : option Z;       (* microseconds *)
  state : CircuitBreakerState
}.

(** [CircuitBreaker.__init__] *)
Definition init (failure_threshold recovery_timeout : Z) : CircuitBreaker :=
  {| failure_threshold := failure_threshold;
     recovery_timeout := recovery_timeout;
     failure_count := 0;
     last_failure_time := None;
     state := CLOSED |}.

Definition state_eqb (a b : CircuitBreakerState) : bool :=
  match a, b with
  | CLOSED, CLOSED | OPEN, OPEN | HALF_OPEN, HALF_OPEN => true
  | _, _ => false
  end.

(** [timedelta(seconds=n)] in microseconds, for [n] in the range of
    [timedelta], which is 999999999 days either way; beyond it the
    constructor raises OverflowError. *)
Definition timedelta_seconds (n : Z) : Z := (n * 1000000)%Z.

Definition timedelta_range (n : Z) : Prop :=
  (-86399999913600 <= n <= 86399999999999)%Z.

(** [_should_attempt_reset], [now] being the value of [datetime.now()]. *)
Definition _should_attempt_reset (now : Z) (cb : CircuitBreaker) : bool :=
  match last_failure_time cb with
  | None => false
  | Some t => (now - t >=? timedelta_seconds (recovery_timeout cb))%Z
  end.

Definition _on_success (cb : CircuitBreaker) : CircuitBreaker :=
  {| failure_threshold := failure_threshold cb;
     recovery_timeout := recovery_timeout cb;
     failure_count := 0;
     last_failure_time := last_failure_time cb;
     state := CLOSED |}.

Definition _on_failure (now : Z) (cb : CircuitBreaker) : CircuitBreaker :=
  let failure_count' := (failure_count cb + 1)%Z in
  {| failure_threshold := failure_threshold cb;
     recovery_timeout := recovery_timeout cb;
     failure_count := failure_count';
     last_failure_time := Some now;
     state := if (failure_count' >=? failure_threshold cb)%Z
              then OPEN else state cb |}.

(** [n] consecutive calls of [_on_failure], at the given times. *)
Definition record_failures (times : list Z) (cb : CircuitBreaker) : CircuitBreaker :=
  fold_left (fun cb now => _on_failure now cb) times cb.

(** [self.state = CircuitBreakerState.HALF_OPEN] *)
Definition half_open (cb : CircuitBreaker) : CircuitBreaker :=
  {| failure_threshold := failure_threshold cb;
     recovery_timeout := recovery_timeout cb;
     failure_count := failure_count cb;
     last_failure_time := last_failure_time cb;
     state := HALF_OPEN |}.

(** What a [raise] carries, as far as an [except] clause can tell: an
    instance of [Exception], or an instance of a class that derives from
    [BaseException] only, such as [KeyboardInterrupt], [SystemExit] and
    [GeneratorExit]. *)
Inductive Thrown : Type :=
  | ExceptionInstance (e : PyException)
  | BaseExceptionInstance (class_name : string).

(** What a call of the wrapped function does. *)
Inductive CallResult (A : Type) : Type :=
  | Returns (a : A)
  | Throws (t : Thrown).
Arguments Returns {A} a.
Arguments Throws {A} t.


(** The [wrapper] of [CircuitBreaker.__call__], the decorator form of the
    breaker.  [expected_exception] is the attribute [__init__] sets and
    nothing changes, as the test [isinstance(e, self.expected_exception)];
    [func_name] is [func.__name__]; [datetime_now] reads the clock of the
    state [S] the wrapped function runs in. *)
Section call.
Context {S A : Type}.
Variable datetime_now : S -> Z * S.
Variable expected_exception : Thrown -> bool.
Variable func_name : string.
Variable func : S -> CallResult A * S.

Definition wrapper (cb : CircuitBreaker) (s : S)
  : CallResult A * CircuitBreaker * S :=
  let run (cb : CircuitBreaker) (s : S) :=
    let '(r, s1) := func s in
    match r with
    | Returns v => (Returns v, _on_success cb, s1)
    | Throws t =>
        if expected_exception t then
          let '(now, s2) := datetime_now s1 in
          (Throws t, _on_failure now cb, s2)
        else (Throws t, cb, s1)
    end in
  if state_eqb (state cb) OPEN then
    (* [last_failure_time and ...]: the clock is read only when a
       failure time is set *)
    let '(now, s1) := match last_failure_time cb with
                      | Some _ => datetime_now s
                      | None => (0%Z, s)
                      end in
    if _should_attempt_reset now cb then run (half_open cb) s1
    else (Throws (ExceptionInstance
                    (OtherException ("Circuit breaker OPEN for " ++ func_name))),
          cb, s1)
  else run cb s.
End call.

(** A breaker between two calls: it is not HALF_OPEN, its count is not
    negative, and when it is OPEN the count has reached the threshold and the
    time of the last failure is set. *)
Definition settled (cb : CircuitBreaker) : Prop :=
  state cb <> HALF_OPEN
  /\ (0 <= failure_count cb)%Z
  /\ (state cb = OPEN ->
      (failure_threshold cb <= failure_count cb)%Z /\ is_Some (last_failure_time cb)).

End Breaker.

(** ** class ConnectionPool *)

Module Pool.

Record ConnectionPool : Type := mkConnectionPool {
  max_connections : Z;
  connection_timeout : Z;
  read_timeout : Z;
  _active_connections : Z
}.

(** [ConnectionPool.__init__] *)
Definition init (max_connections connection_timeout read_timeout : Z) : ConnectionPool :=
  {| max_connections := max_connections;
     connection_timeout := connection_timeout;
     read_timeout := read_timeout;
     _active_connections := 0 |}.

Definition set_active (n : Z) (p : ConnectionPool) : ConnectionPool :=
  {| max_connections := max_connections p;
     connection_timeout := connection_timeout p;
     read_timeout := read_timeout p;
     _active_connections := n |}.

Definition pool_exhausted : PyException :=
  OtherException "Connection pool exhausted".

Definition acquire_connection (p : ConnectionPool) : Outcome unit * ConnectionPool :=
  if (_active_connections p >=? max_connections p)%Z
  then (Raise pool_exhausted, p)
  else (Return tt, set_active (_active_connections p + 1) p).

Definition release_connection (p : ConnectionPool) : ConnectionPool :=
  if (_active_connections p >? 0)%Z
  then set_active (_active_connections p - 1) p
  else p.

(** A sequence of calls on one pool. *)
Inductive PoolCall : Type := Acquire | Release.

Definition run_call (p : ConnectionPool) (c : PoolCall) : ConnectionPool :=
  match c with
  | Acquire => snd (acquire_connection p)
  | Release => release_connection p
  end.

Definition run_calls (cs : list PoolCall) (p : ConnectionPool) : ConnectionPool :=
  fold_left run_call cs p.

(** [0 <= activeConnections <= maxConnections] *)
Definition pool_bound (p : ConnectionPool) : Prop :=
  (0 <= _active_connections p <= max_connections p)%Z.

(** [n] calls of [acquire_connection] in a row, with what each one did. *)
Fixpoint acquire_times (n : nat) (p : ConnectionPool)
  : list (Outcome unit) * ConnectionPool :=
  match n with
  | O => ([], p)
  | S n' =>
      let '(r, p1) := acquire_connection p in
      let '(rs, p2) := acquire_times n' p1 in
      (r :: rs, p2)
  end.

End Pool.

(** ** def retry_on_failure *)

Module Retry.
Import Py.

(** *** The delay, as Python computes it *)

(** [delay * (backoff ** (retries - 1))].  [retries] is at least 1 where
    the expression is evaluated, so the exponent is not negative. *)
Definition base_wait_time (float_pow : float -> Z -> Outcome float)
    (delay backoff : PyNum) (retries : Z) : Outcome PyNum :=
  match pow float_pow backoff (retries - 1) with
  | Raise e => Raise e
  | Return p => mul delay p
  end.

(** *** The jitter, over the rationals

    The two lines that follow, read over the rationals: the values the
    float operations of the handler round. *)

(** [time.time() % 1], the fractional part of the clock reading. *)
Definition time_mod_1 (t : Q) : Q := (t - inject_Z (Qfloor t))%Q.

(** [base_wait_time * 0.1 * (0.5 - time.time() % 1)] *)
Definition jitter (base_wait_time t : Q) : Q :=
  (base_wait_time * (1 # 10) * ((1 # 2) - time_mod_1 t))%Q.

(** [base_wait_time + jitter] *)
Definition wait_time (base_wait_time t : Q) : Q :=
  (base_wait_time + jitter base_wait_time t)%Q.

(** *** The decorator *)

(** The default [exceptions=(ClientError, BotoCoreError)]. *)
Definition aws_exceptions (e : PyException) : bool :=
  match e with
  | ClientError _ | BotoCoreError _ => true
  | OtherException _ => false
  end.

(** What the wrapper hands back: the value [func] returned, the exception
    that left the wrapper, or the implicit [None] of falling off the end of
    the function body (the loop never ran and [last_exception] is
    [None]). *)
Inductive Result (A : Type) : Type :=
  | Returned (a : A)
  | Raised (e : PyException)
  | ReturnedNone.
Arguments Returned {A} a.
Arguments Raised {A} e.
Arguments ReturnedNone {A}.

(** What followed a call of [func] in an iteration of the loop: nothing
    (the call returned, or its exception was raised again); the sleep
    before the next call, with [base_wait_time] and [wait_time]; or an
    exception raised between the test of [retries] and the end of
    [time.sleep], which leaves the wrapper in place of the exception of
    [func]. *)
Inductive Handled : Type :=
  | NotHandled
  | Slept (base_wait_time : PyNum) (wait_time : float)
  | HandlerRaised (err : PyException).

(** One iteration of the [while] loop as it was observed. *)
Record Attempt (A : Type) : Type := mkAttempt {
  outcome : Outcome A;
  handled : Handled
}.
Arguments mkAttempt {A} outcome handled.
Arguments outcome {A} a.
Arguments handled {A} a.

Record Run (S A : Type) : Type := mkRun {
  result : Result A;
  attempts : list (Attempt A);
  final : S
}.
Arguments mkRun {S A} result attempts final.
Arguments result {S A} r.
Arguments attempts {S A} r.
Arguments final {S A} r.

Section wrapper.
Context {S A : Type}.
(** The C library's [pow]; [time.time()] and [time.sleep(seconds)] on the
    state [func] runs in.  [time.sleep] raises for some arguments, a negative
    one or one too large among them. *)
Variable float_pow : float -> Z -> Outcome float.
Variable time_time : S -> float * S.
Variable time_sleep : float -> S -> Outcome unit * S.
Variables (max_retries : Z) (delay backoff : PyNum).
Variable exceptions : PyException -> bool.
Variable func : S -> Outcome A * S.

Definition add_attempt (a : Attempt A) (r : Run S A) : Run S A :=
  mkRun (result r) (a :: attempts r) (final r).

(** The code after the loop. *)
Definition after_loop (last_exception : option PyException) (s : S) : Run S A :=
  match last_exception with
  | Some e => mkRun (Raised e) [] s
  | None => mkRun ReturnedNone [] s
  end.

(** The end of the [except exceptions as e] block, from the computation of
    [base_wait_time] to [time.sleep(wait_time)]:
[[
    base_wait_time = delay * (backoff ** (retries - 1))
    jitter = base_wait_time * 0.1 * (0.5 - time.time() % 1)
    wait_time = base_wait_time + jitter
    time.sleep(wait_time)
]]
    The product [base_wait_time * 0.1] is evaluated before the clock is
    read.  What is returned is [(base_wait_time, wait_time)]. *)
Definition sleep_before_retry (retries : Z) (s : S) : Outcome (PyNum * float) * S :=
  match base_wait_time float_pow delay backoff retries with
  | Raise err => (Raise err, s)
  | Return base_wait_time =>
      match mul_float base_wait_time float_0_1 with
      | Raise err => (Raise err, s)
      | Return tenth =>
          let '(t, s1) := time_time s in
          let jitter := fmul tenth (fsub float_0_5 (mod_1 t)) in
          match add_float base_wait_time jitter with
          | Raise err => (Raise err, s1)
          | Return wait_time =>
              let '(slept, s2) := time_sleep wait_time s1 in
              match slept with
              | Raise err => (Raise err, s2)
              | Return _ => (Return (base_wait_time, wait_time), s2)
              end
          end
      end
  end.

(** The [while retries < max_retries] loop.  Every iteration that does
    not leave the function increments [retries], so
    [Z.to_nat (max_retries - retries)] iterations are enough: [fuel]
    only makes the recursion structural. *)
Fixpoint loop (fuel : nat) (retries : Z) (last_exception : option PyException)
    (s : S) : Run S A :=
  match fuel with
  | O => after_loop last_exception s
  | Datatypes.S fuel' =>
      if (retries <? max_retries)%Z then
        let '(r, s1) := func s in
        match r with
        | Return v => mkRun (Returned v) [mkAttempt r NotHandled] s1
        | Raise e =>
            if exceptions e then
              let retries' := (retries + 1)%Z in
              if (retries' >=? max_retries)%Z then
                mkRun (Raised e) [mkAttempt r NotHandled] s1
              else
                let '(h, s2) := sleep_before_retry retries' s1 in
                match h with
                | Raise err => mkRun (Raised err) [mkAttempt r (HandlerRaised err)] s2
                | Return (base, wait) =>
                    add_attempt (mkAttempt r (Slept base wait))
                                (loop fuel' retries' (Some e) s2)
                end
            else
              mkRun (Raised e) [mkAttempt r NotHandled] s1
        end
      else after_loop last_exception s
  end.

(** The runs the loop can produce when it is entered with [retries] failures
    behind it: the attempts made from there on, and the result. *)
Inductive run_shape (retries : Z) : list (Attempt A) -> Result A -> Prop :=
  | shape_return (v : A) :
      run_shape retries [mkAttempt (Return v) NotHandled] (Returned v)
  | shape_unexpected (e : PyException) :
      exceptions e = false ->
      run_shape retries [mkAttempt (Raise e) NotHandled] (Raised e)
  | shape_exhausted (e : PyException) :
      exceptions e = true ->
      (max_retries <= retries + 1)%Z ->
      run_shape retries [mkAttempt (Raise e) NotHandled] (Raised e)
  | shape_handler_raised (e err : PyException) (s : S) :
      exceptions e = true ->
      (retries + 1 < max_retries)%Z ->
      fst (sleep_before_retry (retries + 1) s) = Raise err ->
      run_shape retries [mkAttempt (Raise e) (HandlerRaised err)] (Raised err)
  | shape_retry (e : PyException) (base : PyNum) (wait : float)
                (rest : list (Attempt A)) (res : Result A) :
      exceptions e = true ->
      (retries + 1 < max_retries)%Z ->
      base_wait_time float_pow delay backoff (retries + 1) = Return base ->
      run_shape (retries + 1) rest res ->
      run_shape retries (mkAttempt (Raise e) (Slept base wait) :: rest) res.

(** The decorated function, with the record of its iterations. *)
Definition wrapper_run (s : S) : Run S A :=
  loop (Z.to_nat max_retries) 0 None s.

(** The decorated function. *)
Definition wrapper (s : S) : Result A * S :=
  let r := wrapper_run s in (result r, final r).
End wrapper.

(** A function that raises [ClientError] on its first two calls and returns
    on the third, the state being the number of calls made so far, and its
    run under [retry_on_failure(max_retries=3, delay=1, backoff=2)] with a
    clock that reads a whole second and a [time.sleep] that returns. *)
Definition example_func (n : nat) : Outcome nat * nat :=
  (if (n <? 2)%nat then Raise (ClientError "throttled") else Return n, S n).

Definition example_run : Run nat nat :=
  wrapper_run rounded_pow (fun n : nat => (of_Z 100, n)) (fun _ n => (Return tt, n))
              3 (PyInt 1) (PyInt 2) aws_exceptions example_func 0%nat.



(** The sleeps of a run, in order. *)
Definition slept {A : Type} (a : Attempt A) : option (PyNum * float) :=
  match handled a with
  | Slept base wait => Some (base, wait)
  | _ => None
  end.

Definition sleeps {A : Type} (l : list (Attempt A)) : list (PyNum * float) :=
  omap slept l.


End Retry.

(** ** class ServiceHealthMonitor *)

Module Health.

(** One entry of [_service_health].  The key ['last_error'] is absent
    until the first failure: [last_error] is then [None]. *)
Record HealthRecord : Type := mkHealthRecord {
  success_count : Z;
  failure_count : Z;
  last_success : option Z;
  last_failure : option Z;
  consecutive_failures : Z;
  last_error : option string
}.

Definition fresh : HealthRecord :=
  {| success_count := 0; failure_count := 0;
     last_success := None; last_failure := None;
     consecutive_failures := 0; last_error := None |}.

(** The entry of [service_name], created when it is missing. *)
Definition entry (service_name : string) (h : gmap string HealthRecord) : HealthRecord :=
  default fresh (h !! service_name).

Definition record_success (service_name : string) (now : Z)
    (h : gmap string HealthRecord) : gmap string HealthRecord :=
  let r := entry service_name h in
  <[service_name :=
      {| success_count := success_count r + 1;
         failure_count := failure_count r;
         last_success := Some now;
         last_failure := last_failure r;
         consecutive_failures := 0;
         last_error := last_error r |}]> h.

Definition record_failure (service_name : string) (now : Z) (error : PyException)
    (h : gmap string HealthRecord) : gmap string HealthRecord :=
  let r := entry service_name h in
  <[service_name :=
      {| success_count := success_count r;
         failure_count := failure_count r + 1;
         last_success := last_success r;
         last_failure := Some now;
         consecutive_failures := consecutive_failures r + 1;
         last_error := Some (str error) |}]> h.

(** [total_calls] of [get_health_status]; 0 for a service with no entry. *)
Definition total_calls (service_name : string) (h : gmap string HealthRecord) : Z :=
  match h !! service_name with
  | Some r => success_count r + failure_count r
  | None => 0
  end.

(** The ['status'] of [get_health_status]. *)
Inductive HealthStatus : Type := Unknown | Healthy | Warning | Degraded | Critical.

(** The dictionary [get_health_status] returns: a status with a message when
    there is nothing to report, or the status with the figures. *)
Inductive HealthData : Type :=
  | NoData (message : string)
  | Data (status : HealthStatus) (success_rate : Py.float) (total_calls : Z)
         (consecutive_failures : Z) (last_success last_failure : option Z)
         (last_error : option string).

(** [health['success_count'] / total_calls], the true division of two
    [int]s, evaluated where [total_calls] is not 0. *)
Definition success_rate (r : HealthRecord) : Py.float :=
  Py.int_true_divide (success_count r) (success_count r + failure_count r).

(** The [if consecutive_failures >= 5: ... else: ...] chain, where
    [success_rate < 0.8] compares two floats. *)
Definition classify (r : HealthRecord) : HealthStatus :=
  if (consecutive_failures r >=? 5)%Z then Critical
  else if (consecutive_failures r >=? 3)%Z then Degraded
  else if Py.flt (success_rate r) Py.float_0_8 then Warning
  else Healthy.

Definition get_health_status (service_name : string) (h : gmap string HealthRecord)
  : HealthData :=
  match h !! service_name with
  | None => NoData "No health data available"
  | Some r =>
      if (success_count r + failure_count r =? 0)%Z then NoData "No calls recorded"
      else Data (classify r) (success_rate r) (success_count r + failure_count r)
                (consecutive_failures r) (last_success r) (last_failure r)
                (last_error r)
  end.

(** [get_health_status(...)['status']] *)
Definition status_of (d : HealthData) : HealthStatus :=
  match d with
  | NoData _ => Unknown
  | Data status _ _ _ _ _ _ => status
  end.

Definition status_eqb (a b : HealthStatus) : bool :=
  match a, b with
  | Unknown, Unknown | Healthy, Healthy | Warning, Warning
  | Degraded, Degraded | Critical, Critical => true
  | _, _ => false
  end.

(** A call of [record_success] or of [record_failure]. *)
Inductive Event : Type :=
  | Succeeded (now : Z)
  | Failed (now : Z) (error : PyException).

Definition record (service_name : string) (h : gmap string HealthRecord) (ev : Event)
  : gmap string HealthRecord :=
  match ev with
  | Succeeded now => record_success service_name now h
  | Failed now error => record_failure service_name now error h
  end.

Definition record_all (service_name : string) (evs : list Event)
    (h : gmap string HealthRecord) : gmap string HealthRecord :=
  fold_left (record service_name) evs h.

Definition is_failure (ev : Event) : bool :=
  match ev with Failed _ _ => true | Succeeded _ => false end.

(** What the counters of a record are when only [record_success] and
    [record_failure] wrote it: at least one call, no negative count, and no
    more failures in a row than failures. *)
Definition record_wf (r : HealthRecord) : Prop :=
  (0 <= success_count r /\ 0 <= consecutive_failures r <= failure_count r
   /\ 1 <= success_count r + failure_count r)%Z.

Definition monitor_wf (h : gmap string HealthRecord) : Prop :=
  forall (n : string) (r : HealthRecord), h !! n = Some r -> record_wf r.

(** Calls of [record_success] and [record_failure] for any services, in
    order. *)
Definition record_log (l : list (string * Event)) (h : gmap string HealthRecord)
  : gmap string HealthRecord :=
  fold_left (fun h (c : string * Event) => record (fst c) h (snd c)) l h.

End Health.

(** ** class AWSClientManager *)

Module Manager.
Import Breaker Pool.

(** A boto3 client or resource: opaque, named by a serial number. *)
Definition ClientHandle : Type := nat.

(** What the process did to the pool and to the outside, in order.  The
    journal is only ever appended to; no code reads it. *)
Inductive Call : Type :=
  | CallAcquire                           (* connection_pool.acquire_connection() *)
  | CallRelease                           (* connection_pool.release_connection() *)
  | CallConstruct (service_type : string) (* session.client / session.resource *)
  | CallSleep (seconds : Py.float).       (* time.sleep *)

(** The outside of the process: the successive values of [datetime.now()]
    and [time.time()], the successive outcomes of building a client
    ([_create_session()] followed by [session.client(service_type, ...)], or
    by [session.resource('dynamodb', ...)] and the table listing), the
    successive outcomes of [time.sleep], which raises for some arguments,
    and the [pow] of the C library, which computes the power of a float.
    Each reading or call consumes the head of its stream. *)
Record World : Type := mkWorld {
  datetime_now : nat -> Z;
  time_time : nat -> Py.float;
  boto3 : nat -> Outcome ClientHandle;
  sleep : nat -> Outcome unit;
  float_pow : Py.float -> Z -> Outcome Py.float;
  journal : list Call
}.

Definition tail {A : Type} (f : nat -> A) : nat -> A := fun n => f (S n).

(** The state of the singleton.  [services_enabled] is the ['enabled'] flag
    of each entry of [aws_config['services']], every entry being an object,
    as [_is_service_enabled] takes it to be; [_clients] may hold [None]
    under a key, which differs from the key being absent.  Region, profile,
    settings and the botocore [Config] objects only parameterise the boto3
    calls, which the world answers whatever their arguments, and are left
    out. *)
Record AWSClientManager : Type := mkManager {
  services_enabled : gmap string bool;
  _clients : gmap string (option ClientHandle);
  circuit_breakers : gmap string CircuitBreaker;
  health_monitor : gmap string Health.HealthRecord;
  connection_pool : ConnectionPool;
  world : World
}.

Definition set_clients (c : gmap string (option ClientHandle)) (m : AWSClientManager) :=
  mkManager (services_enabled m) c (circuit_breakers m) (health_monitor m)
            (connection_pool m) (world m).
Definition set_breakers (b : gmap string CircuitBreaker) (m : AWSClientManager) :=
  mkManager (services_enabled m) (_clients m) b (health_monitor m)
            (connection_pool m) (world m).
Definition set_health (h : gmap string Health.HealthRecord) (m : AWSClientManager) :=
  mkManager (services_enabled m) (_clients m) (circuit_breakers m) h
            (connection_pool m) (world m).
Definition set_pool (p : ConnectionPool) (m : AWSClientManager) :=
  mkManager (services_enabled m) (_clients m) (circuit_breakers m) (health_monitor m)
            p (world m).
Definition set_world (w : World) (m : AWSClientManager) :=
  mkManager (services_enabled m) (_clients m) (circuit_breakers m) (health_monitor m)
            (connection_pool m) w.

(** The breakers of [AWSClientManager.__init__]. *)
Definition initial_circuit_breakers : gmap string CircuitBreaker :=
  list_to_map
    [ ("bedrock", Breaker.init 5 60);
      ("dynamodb", Breaker.init 3 30);
      ("textract", Breaker.init 5 60);
      ("cognito", Breaker.init 3 30);
      ("ses", Breaker.init 5 60);
      ("sns", Breaker.init 5 60);
      ("sagemaker", Breaker.init 3 120);
      ("comprehend_medical", Breaker.init 5 60);
      ("kms", Breaker.init 3 30);
      ("transcribe", Breaker.init 5 60);
      ("polly", Breaker.init 5 60);
      ("stepfunctions", Breaker.init 3 90);
      ("s3", Breaker.init 3 30) ].

(** [AWSClientManager.__init__], from the loaded configuration: the enabled
    flags and the three numbers of ['connection_config']. *)
Definition init (services_enabled : gmap string bool)
    (max_pool_connections connect_timeout read_timeout : Z) (w : World)
  : AWSClientManager :=
  {| services_enabled := services_enabled;
     _clients := ∅;
     circuit_breakers := initial_circuit_breakers;
     health_monitor := ∅;
     connection_pool := Pool.init max_pool_connections connect_timeout read_timeout;
     world := w |}.

(** *** Reading the world *)

Definition read_datetime_now (m : AWSClientManager) : Z * AWSClientManager :=
  let w := world m in
  (datetime_now w 0%nat,
   set_world (mkWorld (tail (datetime_now w)) (time_time w) (boto3 w) (sleep w)
                      (float_pow w) (journal w)) m).

Definition read_time_time (m : AWSClientManager) : Py.float * AWSClientManager :=
  let w := world m in
  (time_time w 0%nat,
   set_world (mkWorld (datetime_now w) (tail (time_time w)) (boto3 w) (sleep w)
                      (float_pow w) (journal w)) m).

Definition record_call (c : Call) (m : AWSClientManager) : AWSClientManager :=
  let w := world m in
  set_world (mkWorld (datetime_now w) (time_time w) (boto3 w) (sleep w)
                     (float_pow w) (journal w ++ [c])) m.

(** [time.sleep(seconds)] *)
Definition time_sleep (seconds : Py.float) (m : AWSClientManager)
  : Outcome unit * AWSClientManager :=
  let m1 := record_call (CallSleep seconds) m in
  let w := world m1 in
  (sleep w 0%nat,
   set_world (mkWorld (datetime_now w) (time_time w) (boto3 w) (tail (sleep w))
                      (float_pow w) (journal w)) m1).

(** [session = self._create_session(); session.client(service_type, ...)] *)
Definition construct (service_type : string) (m : AWSClientManager)
  : Outcome ClientHandle * AWSClientManager :=
  let m1 := record_call (CallConstruct service_type) m in
  let w := world m1 in
  (boto3 w 0%nat,
   set_world (mkWorld (datetime_now w) (time_time w) (tail (boto3 w)) (sleep w)
                      (float_pow w) (journal w)) m1).

(** *** The components, on the manager's state *)

Definition acquire_connection (m : AWSClientManager) : Outcome unit * AWSClientManager :=
  let '(r, p) := Pool.acquire_connection (connection_pool m) in
  (r, set_pool p (record_call CallAcquire m)).

Definition release_connection (m : AWSClientManager) : AWSClientManager :=
  set_pool (Pool.release_connection (connection_pool m)) (record_call CallRelease m).

(** [self.health_monitor.record_success(service_name)] *)
Definition record_success (service_name : string) (m : AWSClientManager) : AWSClientManager :=
  let '(now, m1) := read_datetime_now m in
  set_health (Health.record_success service_name now (health_monitor m1)) m1.

(** [self.health_monitor.record_failure(service_name, e)] *)
Definition record_failure (service_name : string) (e : PyException)
    (m : AWSClientManager) : AWSClientManager :=
  let '(now, m1) := read_datetime_now m in
  set_health (Health.record_failure service_name now e (health_monitor m1)) m1.

(** [if circuit_breaker: circuit_breaker._on_success()], the breaker being
    the object stored under [service_name]. *)
Definition breaker_on_success (service_name : string) (m : AWSClientManager) : AWSClientManager :=
  match circuit_breakers m !! service_name with
  | Some cb => set_breakers (<[service_name := _on_success cb]> (circuit_breakers m)) m
  | None => m
  end.

(** [if circuit_breaker: circuit_breaker._on_failure()] *)
Definition breaker_on_failure (service_name : string) (m : AWSClientManager) : AWSClientManager :=
  match circuit_breakers m !! service_name with
  | Some cb =>
      let '(now, m1) := read_datetime_now m in
      set_breakers (<[service_name := _on_failure now cb]> (circuit_breakers m1)) m1
  | None => m
  end.

(** [circuit_breaker and circuit_breaker.state == CircuitBreakerState.OPEN] *)
Definition breaker_is_open (service_name : string) (m : AWSClientManager) : bool :=
  match circuit_breakers m !! service_name with
  | Some cb => state_eqb (state cb) OPEN
  | None => false
  end.

Definition _is_service_enabled (service_name : string) (m : AWSClientManager) : bool :=
  default false (services_enabled m !! service_name).

(** The [except Exception as e] block of [_create_client_with_monitoring]. *)
Definition on_exception (service_name : string) (e : PyException)
    (m : AWSClientManager) : AWSClientManager :=
  breaker_on_failure service_name (record_failure service_name e m).

Definition _create_client_with_monitoring (service_name service_type : string)
    (m : AWSClientManager) : option ClientHandle * AWSClientManager :=
  if negb (_is_service_enabled service_name m) then (None, m)
  else if breaker_is_open service_name m then (None, m)
  else
    let '(acquired, m1) := acquire_connection m in
    match acquired with
    | Raise e => (None, on_exception service_name e m1)
    | Return _ =>
        let '(built, m2) := construct service_type m1 in
        match built with
        | Return client =>
            let m3 := record_success service_name m2 in
            let m4 := breaker_on_success service_name m3 in
            (* finally *)
            (Some client, release_connection m4)
        | Raise e =>
            (* finally, then except *)
            (None, on_exception service_name e (release_connection m2))
        end
    end.

(** *** The accessors *)

(** [@retry_on_failure(max_retries=..., delay=..., backoff=...)] on a method
    of the manager, with the default [exceptions]. *)
Definition retry_on_failure {A : Type} (max_retries : Z) (delay backoff : Py.PyNum)
    (func : AWSClientManager -> Outcome A * AWSClientManager)
  : AWSClientManager -> Retry.Result A * AWSClientManager :=
  fun m =>
    Retry.wrapper (float_pow (world m)) read_time_time time_sleep
                  max_retries delay backoff Retry.aws_exceptions func m.

(** The body shared by every accessor but [get_dynamodb_resource]:
[[
    if name not in self._clients:
        self._clients[name] = self._create_client_with_monitoring(name, type)
    return self._clients[name]
]] *)
Definition get_client_body (service_name service_type : string)
    (m : AWSClientManager) : Outcome (option ClientHandle) * AWSClientManager :=
  match _clients m !! service_name with
  | Some client => (Return client, m)
  | None =>
      let '(client, m1) := _create_client_with_monitoring service_name service_type m in
      (Return client, set_clients (<[service_name := client]> (_clients m1)) m1)
  end.

(** The body of [get_dynamodb_resource]. *)
Definition get_dynamodb_resource_body (m : AWSClientManager)
  : Outcome (option ClientHandle) * AWSClientManager :=
  let cache (client : option ClientHandle) (m : AWSClientManager) :=
    set_clients (<["dynamodb" := client]> (_clients m)) m in
  match _clients m !! "dynamodb" with
  | Some client => (Return client, m)
  | None =>
      if negb (_is_service_enabled "dynamodb" m) then (Return None, m)
      else if breaker_is_open "dynamodb" m then (Return None, m)
      else
        let '(acquired, m1) := acquire_connection m in
        match acquired with
        | Raise e => (Return None, cache None (on_exception "dynamodb" e m1))
        | Return _ =>
            let '(built, m2) := construct "dynamodb" m1 in
            match built with
            | Return resource =>
                let m3 := record_success "dynamodb" m2 in
                let m4 := breaker_on_success "dynamodb" m3 in
                let m5 := cache (Some resource) m4 in
                (Return (Some resource), release_connection m5)
            | Raise e =>
                (Return None,
                 cache None (on_exception "dynamodb" e (release_connection m2)))
            end
        end
  end.

Definition Accessor : Type :=
  AWSClientManager -> Retry.Result (option ClientHandle) * AWSClientManager.

Definition get_bedrock_client : Accessor :=
  retry_on_failure 3 (Py.PyInt 1) (Py.PyInt 2)
    (get_client_body "bedrock" "bedrock-runtime").
Definition get_dynamodb_resource : Accessor :=
  retry_on_failure 3 (Py.PyFloat Py.float_0_5) (Py.PyInt 2)
    get_dynamodb_resource_body.
Definition get_textract_client : Accessor :=
  retry_on_failure 3 (Py.PyInt 1) (Py.PyInt 2)
    (get_client_body "textract" "textract").
Definition get_cognito_client : Accessor :=
  retry_on_failure 3 (Py.PyFloat Py.float_0_5) (Py.PyInt 2)
    (get_client_body "cognito" "cognito-idp").
Definition get_ses_client : Accessor :=
  retry_on_failure 3 (Py.PyInt 1) (Py.PyInt 2)
    (get_client_body "ses" "ses").
Definition get_sns_client : Accessor :=
  retry_on_failure 3 (Py.PyInt 1) (Py.PyInt 2)
    (get_client_body "sns" "sns").
Definition get_sagemaker_client : Accessor :=
  retry_on_failure 3 (Py.PyInt 2) (Py.PyInt 2)
    (get_client_body "sagemaker" "sagemaker-runtime").
Definition get_comprehend_medical_client : Accessor :=
  retry_on_failure 3 (Py.PyInt 1) (Py.PyInt 2)
    (get_client_body "comprehend_medical" "comprehendmedical").
Definition get_kms_client : Accessor :=
  retry_on_failure 3 (Py.PyFloat Py.float_0_5) (Py.PyInt 2)
    (get_client_body "kms" "kms").
Definition get_transcribe_client : Accessor :=
  retry_on_failure 3 (Py.PyInt 1) (Py.PyInt 2)
    (get_client_body "transcribe" "transcribe").
Definition get_polly_client : Accessor :=
  retry_on_failure 3 (Py.PyInt 1) (Py.PyInt 2)
    (get_client_body "polly" "polly").
Definition get_stepfunctions_client : Accessor :=
  retry_on_failure 3 (Py.PyInt 1) (Py.PyInt 2)
    (get_client_body "stepfunctions" "stepfunctions").
Definition get_s3_client : Accessor :=
  retry_on_failure 3 (Py.PyFloat Py.float_0_5) (Py.PyInt 2)
    (get_client_body "s3" "s3").

(** The [client_methods] table of [get_client_status]: the accessor of each
    service name. *)
Definition client_methods : list (string * Accessor) :=
  [ ("bedrock", get_bedrock_client);
    ("dynamodb", get_dynamodb_resource);
    ("textract", get_textract_client);
    ("cognito", get_cognito_client);
    ("ses", get_ses_client);
    ("sns", get_sns_client);
    ("sagemaker", get_sagemaker_client);
    ("comprehend_medical", get_comprehend_medical_client);
    ("kms", get_kms_client);
    ("transcribe", get_transcribe_client);
    ("polly", get_polly_client);
    ("stepfunctions", get_stepfunctions_client);
    ("s3", get_s3_client) ].

(** [client_methods[service_name]], when the key is there. *)
Fixpoint lookup_method (service_name : string) (l : list (string * Accessor))
  : option Accessor :=
  match l with
  | [] => None
  | (n, a) :: l' => if String.eqb service_name n then Some a
                    else lookup_method service_name l'
  end.

(** *** Status and health *)

Inductive ClientStatus : Type :=
  | StatusHealthy
  | StatusUnavailable
  | StatusError (error : string)
  | StatusUnknown.

Definition get_client_status (service_name : string) (m : AWSClientManager)
  : ClientStatus * AWSClientManager :=
  match lookup_method service_name client_methods with
  | None => (StatusUnknown, m)
  | Some method =>
      let '(r, m1) := method m in
      match r with
      | Retry.Returned (Some _) => (StatusHealthy, m1)
      | Retry.Returned None | Retry.ReturnedNone => (StatusUnavailable, m1)
      | Retry.Raised e => (StatusError (str e), m1)
      end
  end.

(** The [services] list of [health_check]. *)
Definition services : list string :=
  [ "bedrock"; "dynamodb"; "textract"; "cognito"; "ses"; "sns"; "sagemaker";
    "comprehend_medical"; "kms"; "transcribe"; "polly"; "stepfunctions"; "s3" ].

(** One iteration of the [for service in services] loop of [health_check]:
    the call of [get_client_status]; what follows it in the loop body only
    reads the monitor, the breaker and the configuration. *)
Definition health_check_step (acc : list (string * ClientStatus) * AWSClientManager)
    (service : string) : list (string * ClientStatus) * AWSClientManager :=
  let '(st, m1) := get_client_status service (snd acc) in
  (fst acc ++ [(service, st)], m1).

(** The [for service in services] loop of [health_check]. *)
Definition health_check_loop (m : AWSClientManager)
  : list (string * ClientStatus) * AWSClientManager :=
  fold_left health_check_step services ([], m).

(** [health_check]: the [get_client_status] of each service and the
    timestamp of the report, with the state the call leaves.  After the
    loop the pool utilisation is computed, a division by [max_connections],
    and the clock is read for the timestamp; the rest of the report is read
    from the state without changing it. *)
Definition health_check (m : AWSClientManager)
  : Outcome (list (string * ClientStatus) * Z) * AWSClientManager :=
  let '(statuses, m1) := health_check_loop m in
  if (max_connections (connection_pool m1) =? 0)%Z then
    (Raise (OtherException "division by zero"), m1)
  else
    let '(now, m2) := read_datetime_now m1 in
    (Return (statuses, now), m2).

(** *** Refresh and reset *)

Definition refresh_clients (m : AWSClientManager) : AWSClientManager :=
  set_clients ∅ m.

Definition reset (cb : CircuitBreaker) : CircuitBreaker :=
  {| failure_threshold := failure_threshold cb;
     recovery_timeout := recovery_timeout cb;
     failure_count := 0;
     last_failure_time := None;
     state := CLOSED |}.

(** [reset_circuit_breakers(service_name=None)]: a falsy name, [None] or the
    empty string, resets every breaker. *)
Definition reset_circuit_breakers (service_name : option string)
    (m : AWSClientManager) : AWSClientManager :=
  match service_name with
  | Some name =>
      if String.eqb name "" then set_breakers (reset <$> circuit_breakers m) m
      else
        match circuit_breakers m !! name with
        | Some cb => set_breakers (<[name := reset cb]> (circuit_breakers m)) m
        | None => m
        end
  | None => set_breakers (reset <$> circuit_breakers m) m
  end.

Definition force_refresh_client (service_name : string) (m : AWSClientManager)
  : AWSClientManager :=
  match _clients m !! service_name with
  | Some _ =>
      let m1 := set_clients (delete service_name (_clients m)) m in
      match circuit_breakers m1 !! service_name with
      | Some _ => reset_circuit_breakers (Some service_name) m1
      | None => m1
      end
  | None => m
  end.

(** *** The manager as a state machine *)

(** The calls a consumer can make on the manager. *)
Inductive Op : Type :=
  | OpGetClient (service_name : string)
  | OpGetClientStatus (service_name : string)
  | OpHealthCheck
  | OpRefreshClients
  | OpForceRefreshClient (service_name : string)
  | OpResetCircuitBreakers (service_name : option string).

Definition run_op (op : Op) (m : AWSClientManager) : AWSClientManager :=
  match op with
  | OpGetClient name =>
      match lookup_method name client_methods with
      | Some method => snd (method m)
      | None => m
      end
  | OpGetClientStatus name => snd (get_client_status name m)
  | OpHealthCheck => snd (health_check m)
  | OpRefreshClients => refresh_clients m
  | OpForceRefreshClient name => force_refresh_client name m
  | OpResetCircuitBreakers name => reset_circuit_breakers name m
  end.

Definition run_ops (ops : list Op) (m : AWSClientManager) : AWSClientManager :=
  fold_left (fun m op => run_op op m) ops m.

(** The states the singleton can be in: those a sequence of calls leads to
    from a freshly initialised manager. *)
Definition reachable (m : AWSClientManager) : Prop :=
  exists enabled max_pool connect_timeout read_timeout w ops,
    m = run_ops ops (init enabled max_pool connect_timeout read_timeout w).

(** How many clients were built so far. *)
(** The breakers after the [except] block read the clock at [now]. *)
Definition breakers_after_failure (service_name : string) (now : Z)
    (m : AWSClientManager) : gmap string CircuitBreaker :=
  match circuit_breakers m !! service_name with
  | Some cb => <[service_name := _on_failure now cb]> (circuit_breakers m)
  | None => circuit_breakers m
  end.

Definition breakers_after_success (service_name : string)
    (m : AWSClientManager) : gmap string CircuitBreaker :=
  match circuit_breakers m !! service_name with
  | Some cb => <[service_name := _on_success cb]> (circuit_breakers m)
  | None => circuit_breakers m
  end.

(** What the accessor returns for an outcome of the construction. *)
Definition handle_of (o : Outcome ClientHandle) : option ClientHandle :=
  match o with
  | Return client => Some client
  | Raise _ => None
  end.

(** The state [m'] after a call of an accessor of [service_name] that went
    as far as building the client in state [m], the construction ending in
    [o]: one slot acquired and released, one construction, the outcome
    recorded by the monitor and by the breaker, and the value returned,
    [None] for a failure, stored under the service's key. *)
Definition attempted (service_name service_type : string)
    (o : Outcome ClientHandle) (m m' : AWSClientManager) : Prop :=
  services_enabled m' = services_enabled m
  /\ _clients m' = <[service_name := handle_of o]> (_clients m)
  /\ ((0 <= _active_connections (connection_pool m))%Z ->
      connection_pool m' = connection_pool m)
  /\ journal (world m')
     = journal (world m) ++ [CallAcquire; CallConstruct service_type; CallRelease]
  /\ boto3 (world m') = tail (boto3 (world m))
  /\ health_monitor m'
     = match o with
       | Return _ => Health.record_success service_name (datetime_now (world m) 0%nat)
                       (health_monitor m)
       | Raise e => Health.record_failure service_name (datetime_now (world m) 0%nat)
                      e (health_monitor m)
       end
  /\ circuit_breakers m'
     = match o with
       | Return _ => breakers_after_success service_name m
       | Raise _ => breakers_after_failure service_name (datetime_now (world m) 1%nat) m
       end.

(** What a call made for [service_name] leaves alone: the configuration,
    the cache entry, breaker and health record of every other service, the
    pool counter, the journal written so far, and an entry already cached
    for the service; and a handle appears in the cache only for an enabled
    service. *)
Definition frame_of (service_name : string) (m m' : AWSClientManager) : Prop :=
  services_enabled m' = services_enabled m
  /\ (forall n : string, n <> service_name ->
        _clients m' !! n = _clients m !! n
        /\ circuit_breakers m' !! n = circuit_breakers m !! n
        /\ health_monitor m' !! n = health_monitor m !! n)
  /\ ((0 <= _active_connections (connection_pool m))%Z ->
      connection_pool m' = connection_pool m)
  /\ (exists l : list Call, journal (world m') = journal (world m) ++ l)
  /\ (forall c : option ClientHandle,
        _clients m !! service_name = Some c -> _clients m' !! service_name = Some c)
  /\ (forall h : ClientHandle,
        _clients m' !! service_name = Some (Some h) ->
        _clients m !! service_name = Some (Some h)
        \/ _is_service_enabled service_name m = true).


(** The calls that reset a breaker by hand. *)
Definition resets_breakers (op : Op) : bool :=
  match op with
  | OpForceRefreshClient _ | OpResetCircuitBreakers _ => true
  | _ => false
  end.

(** A handle is cached only for an enabled service. *)
Definition cache_sound (m : AWSClientManager) : Prop :=
  forall (n : string) (h : ClientHandle),
    _clients m !! n = Some (Some h) -> _is_service_enabled n m = true.

(** *** Concrete states *)

(** A world whose first construction times out and whose later ones
    succeed; the clock advances by one second at each reading, from 100 s. *)
Definition flaky_world : World :=
  {| datetime_now := fun n => ((100 + Z.of_nat n) * 1000000)%Z;
     time_time := fun n => Py.of_Z (100 + Z.of_nat n);
     boto3 := fun n => match n with
                       | O => Raise (ClientError "Connect timeout on endpoint URL")
                       | S k => Return k
                       end;
     sleep := fun _ => Return tt;
     float_pow := Py.rounded_pow;
     journal := [] |}.

(** A configuration with bedrock and dynamodb enabled and s3 disabled. *)
Definition example_config : gmap string bool :=
  list_to_map [("bedrock", true); ("dynamodb", true); ("s3", false)].

Definition fresh_manager : AWSClientManager :=
  init example_config 50 10 30 flaky_world.

(** The same manager with the breaker of bedrock (threshold 5, recovery
    timeout 60 s) open since time 0, that is 100 s before the first reading
    of the clock, and [None] cached for bedrock. *)
Definition tripped_manager : AWSClientManager :=
  set_clients {["bedrock" := None]}
    (set_breakers
       (<["bedrock" := mkCircuitBreaker 5 60 5 (Some 0%Z) OPEN]> initial_circuit_breakers)
       fresh_manager).

(** A world in which every construction fails; the clock advances by 100 s
    at each reading, from 100 s. *)
Definition down_world : World :=
  {| datetime_now := fun n => (100 * (1 + Z.of_nat n) * 1000000)%Z;
     time_time := fun n => Py.of_Z (100 * (1 + Z.of_nat n));
     boto3 := fun _ => Raise (ClientError "Could not connect to the endpoint URL");
     sleep := fun _ => Return tt;
     float_pow := Py.rounded_pow;
     journal := [] |}.

(** Three failed constructions of the dynamodb resource, the cache being
    cleared after each: the breaker of dynamodb (threshold 3, recovery
    timeout 30 s) is open since the reading of 600 s, nothing is cached, and
    the next reading of the clock is 700 s. *)
Definition dynamodb_down : AWSClientManager :=
  run_ops [ OpGetClient "dynamodb"; OpRefreshClients;
            OpGetClient "dynamodb"; OpRefreshClients;
            OpGetClient "dynamodb"; OpRefreshClients ]
          (init example_config 50 10 30 down_world).

(** A breaker of one of the services: it has the threshold and the recovery
    timeout [__init__] gave to that service's breaker. *)
Definition service_breaker (cb : CircuitBreaker) : Prop :=
  exists (name : string) (cb0 : CircuitBreaker),
    initial_circuit_breakers !! name = Some cb0
    /\ failure_threshold cb = failure_threshold cb0
    /\ recovery_timeout cb = recovery_timeout cb0.

Definition is_construct (c : Call) : bool :=
  match c with CallConstruct _ => true | _ => false end.

Definition constructions (m : AWSClientManager) : nat :=
  length (List.filter is_construct (journal (world m))).

(** *** Invariants of the reachable states *)

(** Every breaker is settled and has the threshold and the recovery timeout
    [__init__] gave to the breaker of its service, and the services that
    have a breaker are those of [__init__]. *)
Definition breakers_ok (m : AWSClientManager) : Prop :=
  forall n : string,
    match circuit_breakers m !! n, initial_circuit_breakers !! n with
    | Some cb, Some cb0 =>
        failure_threshold cb = failure_threshold cb0
        /\ recovery_timeout cb = recovery_timeout cb0
        /\ settled cb
    | None, None => True
    | _, _ => False
    end.

(** The monitor has consistent counters, and records only for enabled
    services. *)
Definition monitor_ok (m : AWSClientManager) : Prop :=
  Health.monitor_wf (health_monitor m)
  /\ (forall (n : string) (r : Health.HealthRecord),
        health_monitor m !! n = Some r -> _is_service_enabled n m = true).

(** The states that differ at most by the readings of the clocks. *)
Definition same_but_clocks (m m' : AWSClientManager) : Prop :=
  services_enabled m' = services_enabled m
  /\ _clients m' = _clients m
  /\ circuit_breakers m' = circuit_breakers m
  /\ health_monitor m' = health_monitor m
  /\ connection_pool m' = connection_pool m
  /\ journal (world m') = journal (world m)
  /\ boto3 (world m') = boto3 (world m).

(** The outside is down: every construction fails. *)
Definition always_fails (m : AWSClientManager) : Prop :=
  forall n : nat, exists e : PyException, boto3 (world m) n = Raise e.

(** [k] times over: a call of the accessor of the service, then the cache
    cleared by [refresh_clients]. *)
Definition failing_rounds (service_name : string) (k : nat) : list Op :=
  concat (replicate k [OpGetClient service_name; OpRefreshClients]).

(** *** The report of [health_check] *)

(** What the loop of [health_check] accumulates besides the state: the
    status each service ends with in the report, the enabled services, and
    the two counts.  [service_status.update(health_data)] overwrites the
    status [get_client_status] gave with that of the monitor, since
    [get_health_status] always returns one. *)
Record Report : Type := mkReport {
  service_statuses : list (string * Health.HealthStatus);
  enabled_services : list string;
  healthy_services : Z;
  critical_services : Z
}.

Definition empty_report : Report := mkReport [] [] 0 0.

Definition report_step (acc : Report * AWSClientManager) (service : string)
  : Report * AWSClientManager :=
  let '(rep, m) := acc in
  let '(_, m1) := get_client_status service m in
  let status := Health.status_of (Health.get_health_status service (health_monitor m1)) in
  let statuses := service_statuses rep ++ [(service, status)] in
  if _is_service_enabled service m1 then
    (mkReport statuses (enabled_services rep ++ [service])
       (if Health.status_eqb status Health.Healthy
        then healthy_services rep + 1 else healthy_services rep)
       (if Health.status_eqb status Health.Healthy then critical_services rep
        else if Health.status_eqb status Health.Critical
             then critical_services rep + 1 else critical_services rep),
     m1)
  else (mkReport statuses (enabled_services rep) (healthy_services rep)
                 (critical_services rep), m1).

Definition report_loop (l : list string) (acc : Report * AWSClientManager)
  : Report * AWSClientManager :=
  fold_left report_step l acc.

(** ['overall_status'] of the summary. *)
Inductive OverallStatus : Type :=
  | OverallUnknown | OverallCritical | OverallDegraded | OverallHealthy | OverallWarning.

(** The [if enabled_count == 0: ... else: ...] chain;
    [healthy_services < enabled_count * 0.8] is compared exactly. *)
Definition overall_status (enabled_count healthy critical : Z) : OverallStatus :=
  if (enabled_count =? 0)%Z then OverallUnknown
  else if (critical >? 0)%Z then OverallCritical
  else if negb (Qle_bool (inject_Z enabled_count * (8 # 10)) (inject_Z healthy))
       then OverallDegraded
  else if (healthy =? enabled_count)%Z then OverallHealthy
  else OverallWarning.

(** The report of [health_check], as far as the figures of its summary go,
    with the state after the loop. *)
Definition health_report (m : AWSClientManager) : Report * OverallStatus * AWSClientManager :=
  let '(rep, m1) := report_loop services (empty_report, m) in
  (rep,
   overall_status (Z.of_nat (length (enabled_services rep)))
                  (healthy_services rep) (critical_services rep),
   m1).

(** Whether an entry of the report counts as [status] in the summary. *)
Definition counts_as (m : AWSClientManager) (status : Health.HealthStatus)
    (c : string * Health.HealthStatus) : bool :=
  _is_service_enabled (fst c) m && Health.status_eqb (snd c) status.

(** What the loop of the report keeps true of what it accumulates, [m] being
    the state the report started from. *)
Definition report_inv (m : AWSClientManager) (acc : Report * AWSClientManager) : Prop :=
  services_enabled (snd acc) = services_enabled m
  /\ enabled_services (fst acc)
     = List.filter (fun s => _is_service_enabled s m) (map fst (service_statuses (fst acc)))
  /\ healthy_services (fst acc)
     = Z.of_nat (length (List.filter (counts_as m Health.Healthy)
                                     (service_statuses (fst acc))))
  /\ critical_services (fst acc)
     = Z.of_nat (length (List.filter (counts_as m Health.Critical)
                                     (service_statuses (fst acc)))).

(** Nothing is enabled and no handle is cached; journal, constructions to
    come, pool and monitor are the given ones. *)
Definition all_disabled (j : list Call) (b : nat -> Outcome ClientHandle)
    (p : ConnectionPool) (h : gmap string Health.HealthRecord)
    (m : AWSClientManager) : Prop :=
  (forall n : string, _is_service_enabled n m = false)
  /\ (forall (n : string) (c : ClientHandle), _clients m !! n <> Some (Some c))
  /\ journal (world m) = j
  /\ boto3 (world m) = b
  /\ connection_pool m = p
  /\ health_monitor m = h.

(** *** Loading the configuration *)

(** What reading [aws/config.json] gives: one of the errors
    [load_aws_config] catches, or the parsed file with its ['aws'] section,
    if it has one. *)
Record AwsSection : Type := mkAwsSection {
  section_services : gmap string bool;       (* name -> ['enabled'] *)
  max_pool_connections : option Z;
  connect_timeout : option Z;
  section_read_timeout : option Z
}.

Inductive ConfigFile : Type :=
  | FileNotFoundError
  | JSONDecodeError
  | OtherReadError
  | Json (aws : option AwsSection).

Definition empty_section : AwsSection := mkAwsSection ∅ None None None.

(** [load_aws_config]: [{}] on every error and when the file has no ['aws']
    key. *)
Definition load_aws_config (f : ConfigFile) : AwsSection :=
  match f with
  | Json (Some aws) => aws
  | _ => empty_section
  end.

(** [AWSClientManager()], from the file. *)
Definition new_manager (f : ConfigFile) (w : World) : AWSClientManager :=
  let aws_config := load_aws_config f in
  init (section_services aws_config)
       (default 50%Z (max_pool_connections aws_config))
       (default 10%Z (connect_timeout aws_config))
       (default 30%Z (section_read_timeout aws_config))
       w.

End Manager.

(** * Properties *)

(** ** The connection pool *)

Section pool_facts.
Import Pool.
Local Open Scope Z_scope.

Lemma acquire_at_capacity (p : ConnectionPool) :
  max_connections p <= _active_connections p ->
  acquire_connection p = (Raise pool_exhausted, p).
Proof.
  intros Hfull. unfold acquire_connection.
  destruct (Z.geb_spec (_active_connections p) (max_connections p)) as [_|Hlt];
    [reflexivity | lia].
Qed.

Lemma acquire_below_capacity (p : ConnectionPool) :
  _active_connections p < max_connections p ->
  acquire_connection p = (Return tt, set_active (_active_connections p + 1) p).
Proof.
  intros Hfree. unfold acquire_connection.
  destruct (Z.geb_spec (_active_connections p) (max_connections p)) as [Hge|_];
    [lia | reflexivity].
Qed.

Lemma release_after_acquire (p : ConnectionPool) :
  0 <= _active_connections p ->
  release_connection (set_active (_active_connections p + 1) p) = p.
Proof.
  intros Hnn. unfold release_connection. cbn.
  destruct (Z.gtb_spec (_active_connections p + 1) 0) as [_|Hle]; [|lia].
  unfold set_active; cbn. replace (_active_connections p + 1 - 1) with (_active_connections p) by lia.
  destruct p; reflexivity.
Qed.

Lemma run_call_bound (p : ConnectionPool) (c : PoolCall) :
  pool_bound p -> pool_bound (run_call p c).
Proof.
  unfold pool_bound. intros Hb. destruct c; cbn.
  - unfold acquire_connection.
    destruct (Z.geb_spec (_active_connections p) (max_connections p)); cbn; lia.
  - unfold release_connection.
    destruct (Z.gtb_spec (_active_connections p) 0); cbn; lia.
Qed.

Lemma release_nonnegative (p : ConnectionPool) :
  0 <= _active_connections p -> 0 <= _active_connections (release_connection p).
Proof.
  intros Hnn. unfold release_connection.
  destruct (Z.gtb_spec (_active_connections p) 0); cbn; lia.
Qed.

(** C6. The bound [0 <= _active_connections <= max_connections] survives
    every sequence of [acquire_connection] and [release_connection] calls;
    [acquire_connection] on a full pool raises "Connection pool exhausted"
    and leaves the pool as it was; [release_connection] does not take a
    non-negative counter below zero. *)
Theorem pool_bound_preserved (p : ConnectionPool) (cs : list PoolCall) :
  pool_bound p ->
  pool_bound (run_calls cs p)
  /\ (forall q : ConnectionPool,
        _active_connections q = max_connections q ->
        acquire_connection q = (Raise pool_exhausted, q))
  /\ (forall q : ConnectionPool,
        0 <= _active_connections q ->
        0 <= _active_connections (release_connection q)).
Proof.
  intros Hb. split; [|split].
  - unfold run_calls. revert p Hb.
    induction cs as [|c cs IH]; intros p Hb; cbn; [exact Hb|].
    apply IH, run_call_bound, Hb.
  - intros q Hq. apply acquire_at_capacity. lia.
  - apply release_nonnegative.
Qed.

Lemma pool_bound_preserved_witness :
  pool_bound (run_calls [Acquire; Acquire; Acquire; Release] (Pool.init 2 10 30))
  /\ _active_connections (run_calls [Acquire; Acquire; Acquire; Release] (Pool.init 2 10 30)) = 1.
Proof.
  split; [|reflexivity].
  apply (pool_bound_preserved (Pool.init 2 10 30) [Acquire; Acquire; Acquire; Release]).
  unfold pool_bound; cbn; lia.
Defined.

End pool_facts.

(** ** The circuit breaker *)

Section breaker_facts.
Import Breaker.
Local Open Scope Z_scope.

Lemma record_failures_snoc (times : list Z) (now : Z) (cb : CircuitBreaker) :
  record_failures (times ++ [now]) cb = _on_failure now (record_failures times cb).
Proof. unfold record_failures. rewrite fold_left_app. reflexivity. Qed.

Lemma record_failures_count (times : list Z) (cb : CircuitBreaker) :
  failure_count (record_failures times cb) = failure_count cb + Z.of_nat (length times)
  /\ failure_threshold (record_failures times cb) = failure_threshold cb.
Proof.
  induction times as [|now times IH] using rev_ind.
  - cbn. lia.
  - rewrite record_failures_snoc, length_app. cbn. lia.
Qed.

(** Once the count reaches the threshold on a failure, the breaker is open,
    whatever its state was. *)
Lemma failures_reach_threshold (times : list Z) (cb : CircuitBreaker) :
  times <> [] ->
  failure_threshold cb <= failure_count cb + Z.of_nat (length times) ->
  state (record_failures times cb) = OPEN.
Proof.
  destruct times as [|now times _] using rev_ind; [congruence|].
  intros _. rewrite record_failures_snoc, length_app. cbn. intros Hge.
  destruct (record_failures_count times cb) as [Hc Ht]. rewrite Hc, Ht.
  destruct (Z.geb_spec (failure_count cb + Z.of_nat (length times) + 1)
                       (failure_threshold cb)); [reflexivity | lia].
Qed.

Lemma threshold_failures_open (times : list Z) (cb : CircuitBreaker) :
  0 < failure_threshold cb ->
  failure_count cb = 0 ->
  length times = Z.to_nat (failure_threshold cb) ->
  state (record_failures times cb) = OPEN.
Proof.
  intros Hpos Hzero Hlen. apply failures_reach_threshold.
  - intros ->. cbn in Hlen. lia.
  - rewrite Hlen. lia.
Qed.

Lemma service_threshold_positive (cb : CircuitBreaker) :
  Manager.service_breaker cb -> 0 < failure_threshold cb.
Proof.
  intros (name & cb0 & Hin & Hthr & _). rewrite Hthr. clear Hthr cb.
  unfold Manager.initial_circuit_breakers in Hin.
  apply elem_of_list_to_map_2 in Hin.
  repeat (apply elem_of_cons in Hin as [Hin|Hin];
          [injection Hin as _ ->; cbn; lia|]).
  inversion Hin.
Qed.

(** C7. A service's breaker that is CLOSED with [failure_count = 0] is OPEN
    after [failure_threshold] calls of [_on_failure] in a row, and
    [_on_success] leaves any breaker, a HALF_OPEN one included, CLOSED with
    [failure_count = 0]. *)
Theorem breaker_opens_at_threshold (cb : CircuitBreaker) (times : list Z) :
  Manager.service_breaker cb ->
  state cb = CLOSED ->
  failure_count cb = 0 ->
  length times = Z.to_nat (failure_threshold cb) ->
  state (record_failures times cb) = OPEN
  /\ (forall cb' : CircuitBreaker,
        state (_on_success cb') = CLOSED /\ failure_count (_on_success cb') = 0).
Proof.
  intros Hsvc _ Hzero Hlen. split.
  - apply threshold_failures_open; auto using service_threshold_positive.
  - intros cb'. split; reflexivity.
Qed.

Lemma breaker_opens_at_threshold_witness :
  state (record_failures [10; 20; 30] (Breaker.init 3 30)) = OPEN
  /\ state (_on_success (mkCircuitBreaker 3 30 3 (Some 30) HALF_OPEN)) = CLOSED.
Proof.
  assert (Hsvc : Manager.service_breaker (Breaker.init 3 30)).
  { exists "dynamodb", (Breaker.init 3 30). repeat split. }
  destruct (breaker_opens_at_threshold (Breaker.init 3 30) [10; 20; 30]
              Hsvc eq_refl eq_refl eq_refl) as [Hopen Hclose].
  split; [exact Hopen | apply Hclose].
Defined.

End breaker_facts.

(** ** The retry decorator *)

Section retry_facts.
Import Py Retry.
Context {St A : Type}.
Variable float_pow : float -> Z -> Outcome float.
Variable time_time : St -> float * St.
Variable time_sleep : float -> St -> Outcome unit * St.
Variables (max_retries : Z) (delay backoff : PyNum).
Variable exceptions : PyException -> bool.
Variable func : St -> Outcome A * St.

Local Abbreviation loop :=
  (Retry.loop float_pow time_time time_sleep max_retries delay backoff exceptions func).
Local Abbreviation run_shape :=
  (Retry.run_shape float_pow time_time time_sleep max_retries delay backoff exceptions).
Local Abbreviation sleep_before_retry :=
  (Retry.sleep_before_retry float_pow time_time time_sleep delay backoff).

(** A sleep that took place was computed from [base_wait_time]. *)
Lemma sleep_before_retry_base (retries : Z) (s s' : St) (base : PyNum) (wait : float) :
  sleep_before_retry retries s = (Return (base, wait), s') ->
  base_wait_time float_pow delay backoff retries = Return base.
Proof.
  unfold Retry.sleep_before_retry.
  destruct (base_wait_time float_pow delay backoff retries) as [b|err]; [|discriminate].
  destruct (mul_float b float_0_1) as [tenth|err]; [|discriminate].
  destruct (time_time s) as [t s1].
  destruct (add_float b _) as [w|err]; [|discriminate].
  destruct (time_sleep w s1) as [[[]|err] s2]; [|discriminate].
  intros [= <- _ _]. reflexivity.
Qed.


(** The loop, entered below the bound with the fuel the bound leaves, runs
    to one of the shapes: the fuel never runs out before the loop is left. *)
Lemma loop_shape (fuel : nat) (retries : Z) (last_exception : option PyException) (s : St) :
  (retries < max_retries)%Z ->
  fuel = Z.to_nat (max_retries - retries) ->
  run_shape retries (attempts (loop fuel retries last_exception s))
                    (result (loop fuel retries last_exception s)).
Proof.
  revert retries last_exception s.
  induction fuel as [|fuel IH]; intros retries last_exception s Hlt Hfuel; [lia|].
  cbn [Retry.loop].
  destruct (Z.ltb_spec retries max_retries) as [_|Hge]; [|lia].
  destruct (func s) as [[v|e] s1]; [apply shape_return|].
  destruct (exceptions e) eqn:Hexc; [|apply shape_unexpected; exact Hexc].
  destruct (Z.geb_spec (retries + 1) max_retries) as [Hlast|Hmore].
  - apply shape_exhausted; [exact Hexc | lia].
  - destruct (sleep_before_retry (retries + 1) s1) as [[[base wait]|err] s2] eqn:Hsleep.
    + cbn. apply shape_retry; [exact Hexc | lia | |].
      * exact (sleep_before_retry_base _ _ _ _ _ Hsleep).
      * apply IH; lia.
    + cbn. apply (shape_handler_raised _ _ _ _ _ _ _ _ e err s1); [exact Hexc | lia |].
      rewrite Hsleep. reflexivity.
Qed.

Lemma shape_length (retries : Z) (l : list (Attempt A)) (res : Result A) :
  run_shape retries l res ->
  (retries < max_retries)%Z ->
  (1 <= Z.of_nat (length l) <= max_retries - retries)%Z.
Proof.
  induction 1 as [r v|r e He|r e He Hmax|r e err s He Hlt Hs
                 |r e base wait rest res He Hlt Hbase Hrest IH];
    intros Hbelow; cbn [length]; lia.
Qed.










End retry_facts.



(** ** The jitter *)

Section jitter_facts.
Import Retry.
Local Open Scope Q_scope.

Lemma time_mod_1_range (t : Q) : 0 <= time_mod_1 t /\ time_mod_1 t < 1.
Proof.
  unfold time_mod_1.
  pose proof (Qfloor_le t) as Hle. pose proof (Qlt_floor t) as Hlt.
  rewrite inject_Z_plus in Hlt. change (inject_Z 1) with 1 in Hlt.
  split; lra.
Qed.



(** The largest sleep, reached when the clock reads a whole second. *)
Lemma jitter_maximum : wait_time 1 0 == 105 # 100.
Proof. reflexivity. Qed.

(** The sleeps of the example run, where the clock reads a whole second:
    the floats nearest to 1.05 and to 2.1. *)
Lemma example_run_sleeps :
  map snd (sleeps (attempts example_run))
  = [Py.int_true_divide 105 100; Py.int_true_divide 21 10].
Proof. vm_compute. reflexivity. Qed.

(** Neither end of the interval [0.9, 1.1] is ever slept. *)
Lemma jitter_never_ten_percent (base t : Q) :
  0 < base ->
  ~ wait_time base t == (11 # 10) * base /\ ~ wait_time base t == (9 # 10) * base.
Proof.
  intros Hbase. unfold wait_time, jitter.
  destruct (time_mod_1_range t) as [Hfrac0 Hfrac1].
  set (frac := time_mod_1 t) in *.
  split; intros Heq; nra.
Qed.

End jitter_facts.

(** ** The client manager *)

Section manager_facts.
Import Breaker Pool Manager.

(** *** The accessors never retry *)

(** A body that returns is called once: the decorator hands its value back
    without a sleep and without a second call. *)
Lemma retry_on_failure_returns {A : Type} (delay backoff : Py.PyNum)
    (func : AWSClientManager -> Outcome A * AWSClientManager)
    (m m' : AWSClientManager) (v : A) :
  func m = (Return v, m') ->
  Retry.wrapper_run (float_pow (world m)) read_time_time time_sleep 3 delay backoff
                    Retry.aws_exceptions func m
  = Retry.mkRun (Retry.Returned v) [Retry.mkAttempt (Return v) Retry.NotHandled] m'.
Proof.
  intros Hfunc. unfold Retry.wrapper_run.
  change (Z.to_nat 3) with 3%nat. cbn [Retry.loop].
  change (0 <? 3)%Z with true. cbn match. rewrite Hfunc. reflexivity.
Qed.

Lemma retry_on_failure_id {A : Type} (delay backoff : Py.PyNum)
    (func : AWSClientManager -> Outcome A * AWSClientManager)
    (m m' : AWSClientManager) (v : A) :
  func m = (Return v, m') ->
  retry_on_failure 3 delay backoff func m = (Retry.Returned v, m').
Proof.
  intros Hfunc. unfold retry_on_failure, Retry.wrapper.
  rewrite (retry_on_failure_returns delay backoff func m m' v Hfunc). reflexivity.
Qed.

(** The two kinds of accessor in [client_methods], with the boto3 service
    type each one asks for. *)
Lemma method_spec (service_name : string) (method : Accessor) :
  lookup_method service_name client_methods = Some method ->
  exists (delay : Py.PyNum) (service_type : string),
    (method = retry_on_failure 3 delay (Py.PyInt 2)
                (get_client_body service_name service_type)
     /\ service_name <> "dynamodb")
    \/ (method = retry_on_failure 3 delay (Py.PyInt 2) get_dynamodb_resource_body
        /\ service_name = "dynamodb" /\ service_type = "dynamodb").
Proof.
  unfold client_methods; cbn [lookup_method].
  repeat (match goal with
          | |- context [String.eqb service_name ?n] =>
              destruct (String.eqb_spec service_name n) as [->|?]
          end;
          [ intros [= <-]; eexists _, _;
            first [ left; split; [reflexivity | discriminate]
                  | right; split; [reflexivity | split; reflexivity] ] | ]).
  discriminate.
Qed.


(** *** One call of [_create_client_with_monitoring], case by case *)

Local Open Scope Z_scope.

Lemma create_refused (service_name service_type : string) (m : AWSClientManager) :
  _is_service_enabled service_name m = false \/ breaker_is_open service_name m = true ->
  _create_client_with_monitoring service_name service_type m = (None, m).
Proof.
  unfold _create_client_with_monitoring. intros [-> | ->]; [reflexivity|].
  destruct (_is_service_enabled service_name m); reflexivity.
Qed.

Ltac unfold_manager :=
  unfold on_exception, breaker_on_failure, breaker_on_success, record_failure,
    record_success, Manager.release_connection, Manager.acquire_connection,
    construct, time_sleep, record_call, read_datetime_now,
    breakers_after_failure, breakers_after_success.

Lemma create_exhausted (service_name service_type : string) (m : AWSClientManager) :
  _is_service_enabled service_name m = true ->
  breaker_is_open service_name m = false ->
  max_connections (connection_pool m) <= _active_connections (connection_pool m) ->
  exists m' : AWSClientManager,
    _create_client_with_monitoring service_name service_type m = (None, m')
    /\ services_enabled m' = services_enabled m
    /\ _clients m' = _clients m
    /\ connection_pool m' = connection_pool m
    /\ journal (world m') = journal (world m) ++ [CallAcquire]
    /\ boto3 (world m') = boto3 (world m)
    /\ health_monitor m'
       = Health.record_failure service_name (datetime_now (world m) 0%nat)
           pool_exhausted (health_monitor m)
    /\ circuit_breakers m'
       = breakers_after_failure service_name (datetime_now (world m) 1%nat) m.
Proof.
  intros Hen Hopen Hfull. unfold _create_client_with_monitoring.
  rewrite Hen, Hopen. cbn [negb]. unfold Manager.acquire_connection at 1.
  rewrite (acquire_at_capacity _ Hfull).
  eexists. split; [reflexivity|].
  unfold_manager. cbn.
  destruct (circuit_breakers m !! service_name); cbn; split_and!; reflexivity.
Qed.

Lemma create_failed (service_name service_type : string) (m : AWSClientManager)
    (e : PyException) :
  _is_service_enabled service_name m = true ->
  breaker_is_open service_name m = false ->
  _active_connections (connection_pool m) < max_connections (connection_pool m) ->
  boto3 (world m) 0%nat = Raise e ->
  exists m' : AWSClientManager,
    _create_client_with_monitoring service_name service_type m = (None, m')
    /\ services_enabled m' = services_enabled m
    /\ _clients m' = _clients m
    /\ (0 <= _active_connections (connection_pool m) ->
        connection_pool m' = connection_pool m)
    /\ journal (world m')
       = journal (world m) ++ [CallAcquire; CallConstruct service_type; CallRelease]
    /\ boto3 (world m') = tail (boto3 (world m))
    /\ health_monitor m'
       = Health.record_failure service_name (datetime_now (world m) 0%nat)
           e (health_monitor m)
    /\ circuit_breakers m'
       = breakers_after_failure service_name (datetime_now (world m) 1%nat) m.
Proof.
  intros Hen Hopen Hfree Hboto. unfold _create_client_with_monitoring.
  rewrite Hen, Hopen. cbn [negb]. unfold Manager.acquire_connection at 1.
  rewrite (acquire_below_capacity _ Hfree).
  unfold construct at 1. cbn -[Pool.release_connection]. rewrite Hboto.
  eexists. split; [reflexivity|].
  unfold_manager. cbn -[Pool.release_connection].
  destruct (circuit_breakers m !! service_name); cbn -[Pool.release_connection];
    rewrite <- !app_assoc;
    split_and!; try reflexivity; apply release_after_acquire.
Qed.

Lemma create_built (service_name service_type : string) (m : AWSClientManager)
    (client : ClientHandle) :
  _is_service_enabled service_name m = true ->
  breaker_is_open service_name m = false ->
  _active_connections (connection_pool m) < max_connections (connection_pool m) ->
  boto3 (world m) 0%nat = Return client ->
  exists m' : AWSClientManager,
    _create_client_with_monitoring service_name service_type m = (Some client, m')
    /\ services_enabled m' = services_enabled m
    /\ _clients m' = _clients m
    /\ (0 <= _active_connections (connection_pool m) ->
        connection_pool m' = connection_pool m)
    /\ journal (world m')
       = journal (world m) ++ [CallAcquire; CallConstruct service_type; CallRelease]
    /\ boto3 (world m') = tail (boto3 (world m))
    /\ health_monitor m'
       = Health.record_success service_name (datetime_now (world m) 0%nat)
           (health_monitor m)
    /\ circuit_breakers m' = breakers_after_success service_name m.
Proof.
  intros Hen Hopen Hfree Hboto. unfold _create_client_with_monitoring.
  rewrite Hen, Hopen. cbn [negb]. unfold Manager.acquire_connection at 1.
  rewrite (acquire_below_capacity _ Hfree).
  unfold construct at 1. cbn -[Pool.release_connection]. rewrite Hboto.
  eexists. split; [reflexivity|].
  unfold_manager. cbn -[Pool.release_connection].
  destruct (circuit_breakers m !! service_name); cbn -[Pool.release_connection];
    rewrite <- !app_assoc;
    split_and!; try reflexivity; apply release_after_acquire.
Qed.

(** *** One call of an accessor, case by case *)

(** Enabled, breaker not open, nothing cached: [get_dynamodb_resource] does
    what the other accessors do. *)
Lemma dynamodb_body_as_generic (m : AWSClientManager) :
  _clients m !! "dynamodb" = None ->
  _is_service_enabled "dynamodb" m = true ->
  breaker_is_open "dynamodb" m = false ->
  get_dynamodb_resource_body m = get_client_body "dynamodb" "dynamodb" m.
Proof.
  intros Hc Hen Hopen.
  unfold get_dynamodb_resource_body, get_client_body, _create_client_with_monitoring.
  rewrite Hc, Hen, Hopen. cbn [negb].
  destruct (Manager.acquire_connection m) as [[[]|e] m1].
  - destruct (construct "dynamodb" m1) as [[client|e] m2]; unfold_manager; cbn;
      destruct (circuit_breakers m2 !! "dynamodb"); reflexivity.
  - unfold_manager; cbn. destruct (circuit_breakers m1 !! "dynamodb"); reflexivity.
Qed.

Lemma accessor_cached (service_name : string) (method : Accessor)
    (m : AWSClientManager) (c : option ClientHandle) :
  lookup_method service_name client_methods = Some method ->
  _clients m !! service_name = Some c ->
  method m = (Retry.Returned c, m).
Proof.
  intros Hm Hc.
  destruct (method_spec _ _ Hm) as (d & ty & [[-> _] | (-> & -> & _)]);
    apply retry_on_failure_id;
    unfold get_client_body, get_dynamodb_resource_body; rewrite Hc; reflexivity.
Qed.

Lemma accessor_refused (service_name : string) (method : Accessor)
    (m : AWSClientManager) :
  lookup_method service_name client_methods = Some method ->
  _clients m !! service_name = None ->
  _is_service_enabled service_name m = false \/ breaker_is_open service_name m = true ->
  exists m' : AWSClientManager,
    method m = (Retry.Returned None, m')
    /\ (m' = m \/ m' = set_clients (<[service_name := None]> (_clients m)) m).
Proof.
  intros Hm Hc Href.
  destruct (method_spec _ _ Hm) as (d & ty & [[-> _] | (-> & -> & _)]).
  - eexists. split; [|right; reflexivity].
    apply retry_on_failure_id. unfold get_client_body.
    rewrite Hc, (create_refused _ ty _ Href). reflexivity.
  - exists m. split; [|left; reflexivity].
    apply retry_on_failure_id. unfold get_dynamodb_resource_body. rewrite Hc.
    destruct Href as [-> | ->]; [reflexivity|].
    destruct (_is_service_enabled "dynamodb" m); reflexivity.
Qed.

Lemma accessor_as_generic (service_name : string) (method : Accessor)
    (m : AWSClientManager) :
  lookup_method service_name client_methods = Some method ->
  _clients m !! service_name = None ->
  _is_service_enabled service_name m = true ->
  breaker_is_open service_name m = false ->
  exists service_type : string,
    forall (c : option ClientHandle) (m1 : AWSClientManager),
      _create_client_with_monitoring service_name service_type m = (c, m1) ->
      method m = (Retry.Returned c,
                  set_clients (<[service_name := c]> (_clients m1)) m1).
Proof.
  intros Hm Hc Hen Hopen.
  destruct (method_spec _ _ Hm) as (d & ty & [[-> _] | (-> & -> & _)]).
  - exists ty. intros c m1 Hcreate. apply retry_on_failure_id.
    unfold get_client_body. rewrite Hc, Hcreate. reflexivity.
  - exists "dynamodb". intros c m1 Hcreate. apply retry_on_failure_id.
    rewrite (dynamodb_body_as_generic m Hc Hen Hopen).
    unfold get_client_body. rewrite Hc, Hcreate. reflexivity.
Qed.

Lemma accessor_exhausted (service_name : string) (method : Accessor)
    (m : AWSClientManager) :
  lookup_method service_name client_methods = Some method ->
  _clients m !! service_name = None ->
  _is_service_enabled service_name m = true ->
  breaker_is_open service_name m = false ->
  max_connections (connection_pool m) <= _active_connections (connection_pool m) ->
  exists m' : AWSClientManager,
    method m = (Retry.Returned None, m')
    /\ services_enabled m' = services_enabled m
    /\ _clients m' = <[service_name := None]> (_clients m)
    /\ connection_pool m' = connection_pool m
    /\ journal (world m') = journal (world m) ++ [CallAcquire]
    /\ health_monitor m'
       = Health.record_failure service_name (datetime_now (world m) 0%nat)
           pool_exhausted (health_monitor m)
    /\ circuit_breakers m'
       = breakers_after_failure service_name (datetime_now (world m) 1%nat) m.
Proof.
  intros Hm Hc Hen Hopen Hfull.
  destruct (accessor_as_generic _ _ _ Hm Hc Hen Hopen) as (ty & Hgen).
  destruct (create_exhausted service_name ty m Hen Hopen Hfull)
    as (m1 & Hcreate & He & Hcl & Hp & Hj & _ & Hh & Hb).
  eexists. split; [apply Hgen, Hcreate|]. cbn. rewrite Hcl. split_and!; assumption || reflexivity.
Qed.

(** The call that builds a client, whatever the construction answers. *)
Lemma accessor_attempt (service_name : string) (method : Accessor)
    (m : AWSClientManager) :
  lookup_method service_name client_methods = Some method ->
  _clients m !! service_name = None ->
  _is_service_enabled service_name m = true ->
  breaker_is_open service_name m = false ->
  _active_connections (connection_pool m) < max_connections (connection_pool m) ->
  exists (service_type : string) (m' : AWSClientManager),
    method m = (Retry.Returned (handle_of (boto3 (world m) 0%nat)), m')
    /\ attempted service_name service_type (boto3 (world m) 0%nat) m m'.
Proof.
  intros Hm Hc Hen Hopen Hfree.
  destruct (accessor_as_generic _ _ _ Hm Hc Hen Hopen) as (ty & Hgen).
  exists ty. unfold attempted.
  destruct (boto3 (world m) 0%nat) as [client|e] eqn:Hboto.
  - destruct (create_built service_name ty m client Hen Hopen Hfree Hboto)
      as (m1 & Hcreate & He & Hcl & Hp & Hj & Hbo & Hh & Hb).
    eexists. split; [apply Hgen, Hcreate|]. cbn. rewrite Hcl.
    split_and!; assumption || reflexivity.
  - destruct (create_failed service_name ty m e Hen Hopen Hfree Hboto)
      as (m1 & Hcreate & He & Hcl & Hp & Hj & Hbo & Hh & Hb).
    eexists. split; [apply Hgen, Hcreate|]. cbn. rewrite Hcl.
    split_and!; assumption || reflexivity.
Qed.

(** *** What a call leaves alone *)

Lemma breakers_after_failure_other (service_name n : string) (now : Z)
    (m : AWSClientManager) :
  n <> service_name ->
  breakers_after_failure service_name now m !! n = circuit_breakers m !! n.
Proof.
  intros Hne. unfold breakers_after_failure.
  destruct (circuit_breakers m !! service_name); [|reflexivity].
  apply lookup_insert_ne. congruence.
Qed.

Lemma breakers_after_success_other (service_name n : string) (m : AWSClientManager) :
  n <> service_name ->
  breakers_after_success service_name m !! n = circuit_breakers m !! n.
Proof.
  intros Hne. unfold breakers_after_success.
  destruct (circuit_breakers m !! service_name); [|reflexivity].
  apply lookup_insert_ne. congruence.
Qed.

Lemma record_failure_other (service_name n : string) (now : Z) (e : PyException)
    (h : gmap string Health.HealthRecord) :
  n <> service_name ->
  Health.record_failure service_name now e h !! n = h !! n.
Proof. intros Hne. apply lookup_insert_ne. congruence. Qed.

Lemma record_success_other (service_name n : string) (now : Z)
    (h : gmap string Health.HealthRecord) :
  n <> service_name ->
  Health.record_success service_name now h !! n = h !! n.
Proof. intros Hne. apply lookup_insert_ne. congruence. Qed.

Lemma frame_of_refl (service_name : string) (m : AWSClientManager) :
  frame_of service_name m m.
Proof.
  unfold frame_of. split_and!; auto.
  exists []. symmetry. apply app_nil_r.
Qed.

Lemma frame_of_cache_none (service_name : string) (m : AWSClientManager) :
  _clients m !! service_name = None ->
  frame_of service_name m (set_clients (<[service_name := None]> (_clients m)) m).
Proof.
  intros Hc. unfold frame_of. cbn. split_and!; auto.
  - intros n Hne. split_and!; auto. apply lookup_insert_ne. congruence.
  - exists []. symmetry. apply app_nil_r.
  - intros c Hc'. congruence.
  - intros h. rewrite lookup_insert_eq. discriminate.
Qed.

Lemma attempted_frame (service_name service_type : string)
    (o : Outcome ClientHandle) (m m' : AWSClientManager) :
  attempted service_name service_type o m m' ->
  _clients m !! service_name = None ->
  _is_service_enabled service_name m = true ->
  frame_of service_name m m'.
Proof.
  intros (He & Hcl & Hp & Hj & _ & Hh & Hb) Hc Hen. unfold frame_of.
  rewrite He, Hcl, Hj, Hh, Hb. split_and!; auto.
  - intros n Hne. split_and!.
    + apply lookup_insert_ne. congruence.
    + destruct o; auto using breakers_after_success_other, breakers_after_failure_other.
    + destruct o; auto using record_success_other, record_failure_other.
  - eexists. reflexivity.
  - intros c Hc'. congruence.
Qed.

(** Every call of an accessor returns, and leaves alone what [frame_of]
    lists. *)
Lemma accessor_frame (service_name : string) (method : Accessor)
    (m : AWSClientManager) :
  lookup_method service_name client_methods = Some method ->
  exists (r : option ClientHandle) (m' : AWSClientManager),
    method m = (Retry.Returned r, m') /\ frame_of service_name m m'.
Proof.
  intros Hm.
  destruct (_clients m !! service_name) as [c|] eqn:Hc.
  { exists c, m. split; [apply (accessor_cached _ _ _ _ Hm Hc) | apply frame_of_refl]. }
  destruct (_is_service_enabled service_name m) eqn:Hen; cycle 1.
  { destruct (accessor_refused _ _ _ Hm Hc (or_introl Hen)) as (m' & Hcall & [-> | ->]);
      eexists _, _; (split; [exact Hcall|]);
      auto using frame_of_refl, frame_of_cache_none. }
  destruct (breaker_is_open service_name m) eqn:Hopen.
  { destruct (accessor_refused _ _ _ Hm Hc (or_intror Hopen)) as (m' & Hcall & [-> | ->]);
      eexists _, _; (split; [exact Hcall|]);
      auto using frame_of_refl, frame_of_cache_none. }
  destruct (Z_lt_le_dec (_active_connections (connection_pool m))
                        (max_connections (connection_pool m))) as [Hfree|Hfull].
  - destruct (accessor_attempt _ _ _ Hm Hc Hen Hopen Hfree) as (ty & m' & Hcall & Hatt).
    eexists _, _. split; [exact Hcall|]. eapply attempted_frame; eassumption.
  - destruct (accessor_exhausted _ _ _ Hm Hc Hen Hopen Hfull)
      as (m' & Hcall & He & Hcl & Hp & Hj & Hh & Hb).
    eexists _, _. split; [exact Hcall|]. unfold frame_of.
    rewrite He, Hcl, Hp, Hj, Hh, Hb. split_and!; auto.
    + intros n Hne. split_and!;
        auto using breakers_after_failure_other, record_failure_other.
      apply lookup_insert_ne. congruence.
    + eexists. reflexivity.
    + intros c Hc'. congruence.
Qed.

(** *** An open breaker *)

(** The decorator form of the breaker, which no accessor uses, does probe:
    an OPEN breaker whose recovery timeout has elapsed lets the call through,
    and a success closes it. *)
Lemma breaker_wrapper_probes {St A : Type} (clock : St -> Z * St)
    (expected_exception : Thrown -> bool) (func_name : string)
    (func : St -> CallResult A * St) (cb : CircuitBreaker)
    (s s1 s2 : St) (t now : Z) (v : A) :
  state cb = OPEN ->
  timedelta_range (recovery_timeout cb) ->
  last_failure_time cb = Some t ->
  clock s = (now, s1) ->
  timedelta_seconds (recovery_timeout cb) <= now - t ->
  func s1 = (Returns v, s2) ->
  exists cb' : CircuitBreaker,
    Breaker.wrapper clock expected_exception func_name func cb s = (Returns v, cb', s2)
    /\ state cb' = CLOSED /\ failure_count cb' = 0.
Proof.
  intros Hopen _ Hlast Hclock Helapsed Hfunc. unfold Breaker.wrapper.
  rewrite Hopen, Hlast, Hclock. cbn [state_eqb].
  unfold _should_attempt_reset. rewrite Hlast.
  destruct (Z.geb_spec (now - t) (timedelta_seconds (recovery_timeout cb))); [|lia].
  rewrite Hfunc. eexists. split_and!; reflexivity.
Qed.

Lemma accessor_open_keeps_breakers (service_name : string) (method : Accessor)
    (m : AWSClientManager) :
  lookup_method service_name client_methods = Some method ->
  breaker_is_open service_name m = true ->
  circuit_breakers (snd (method m)) = circuit_breakers m.
Proof.
  intros Hm Hopen.
  destruct (_clients m !! service_name) as [c|] eqn:Hc.
  - rewrite (accessor_cached _ _ _ _ Hm Hc). reflexivity.
  - destruct (accessor_refused _ _ _ Hm Hc (or_intror Hopen)) as (m' & -> & [-> | ->]);
      reflexivity.
Qed.

(** C1 (as the code has it). A call of the accessor of a service whose
    breaker is OPEN returns without reading the clock, without moving the
    breaker to HALF_OPEN and without building a client, however long ago the
    last failure was: breakers, monitor, pool and world are as before, and
    the result is [None] unless a value is cached. *)
Theorem open_breaker_never_probed (service_name : string) (method : Accessor)
    (m : AWSClientManager) (cb : CircuitBreaker) :
  lookup_method service_name client_methods = Some method ->
  circuit_breakers m !! service_name = Some cb ->
  state cb = OPEN ->
  exists (r : option ClientHandle) (m' : AWSClientManager),
    method m = (Retry.Returned r, m')
    /\ circuit_breakers m' = circuit_breakers m
    /\ world m' = world m
    /\ health_monitor m' = health_monitor m
    /\ connection_pool m' = connection_pool m
    /\ (_clients m !! service_name = None -> r = None).
Proof.
  intros Hm Hcb Hstate.
  assert (Hopen : breaker_is_open service_name m = true).
  { unfold breaker_is_open. rewrite Hcb, Hstate. reflexivity. }
  destruct (_clients m !! service_name) as [c|] eqn:Hc.
  - exists c, m. split; [apply (accessor_cached _ _ _ _ Hm Hc)|].
    split_and!; auto. discriminate.
  - destruct (accessor_refused _ _ _ Hm Hc (or_intror Hopen)) as (m' & Hcall & [-> | ->]);
      exists None; eexists; (split; [exact Hcall|]); split_and!; reflexivity.
Qed.

Lemma open_breaker_never_probed_witness :
  circuit_breakers dynamodb_down !! "dynamodb"
  = Some (mkCircuitBreaker 3 30 3 (Some 600000000) OPEN)
  /\ datetime_now (world dynamodb_down) 0%nat = 700000000
  /\ _should_attempt_reset 700000000 (mkCircuitBreaker 3 30 3 (Some 600000000) OPEN)
     = true
  /\ exists m' : AWSClientManager,
       get_dynamodb_resource dynamodb_down = (Retry.Returned None, m')
       /\ circuit_breakers m' = circuit_breakers dynamodb_down
       /\ world m' = world dynamodb_down.
Proof.
  assert (Hcb : circuit_breakers dynamodb_down !! "dynamodb"
                = Some (mkCircuitBreaker 3 30 3 (Some 600000000) OPEN)).
  { vm_compute. reflexivity. }
  assert (Hc : _clients dynamodb_down !! "dynamodb" = None).
  { vm_compute. reflexivity. }
  split_and!; [exact Hcb | vm_compute; reflexivity | reflexivity |].
  destruct (open_breaker_never_probed "dynamodb" get_dynamodb_resource
              dynamodb_down (mkCircuitBreaker 3 30 3 (Some 600000000) OPEN)
              eq_refl Hcb eq_refl)
    as (r & m' & Hcall & Hb & Hw & _ & _ & Hr).
  exists m'. rewrite Hcall, (Hr Hc). split_and!; [reflexivity | exact Hb | exact Hw].
Defined.

(** *** A failed construction *)

Lemma constructions_after_attempt (service_type : string) (m m' : AWSClientManager) :
  journal (world m')
  = journal (world m) ++ [CallAcquire; CallConstruct service_type; CallRelease] ->
  constructions m' = S (constructions m).
Proof.
  intros Hj. unfold constructions. rewrite Hj, List.filter_app, length_app. cbn. lia.
Qed.

Lemma failure_count_after_failure (service_name : string) (now : Z) (e : PyException)
    (h : gmap string Health.HealthRecord) :
  Health.failure_count (Health.entry service_name
                          (Health.record_failure service_name now e h))
  = Health.failure_count (Health.entry service_name h) + 1.
Proof.
  unfold Health.entry at 1, Health.record_failure.
  rewrite lookup_insert_eq. reflexivity.
Qed.

(** C2 (as the code has it). When the construction raises, be it a
    retryable [ClientError], the accessor builds the client once and only
    once: [_create_client_with_monitoring] catches the exception, so the
    retry decorator sees a normal return, and the failure is recorded by the
    monitor and by the breaker after that single attempt.  No sleep and no
    second construction appear in the journal. *)
Theorem construction_failure_not_retried (service_name : string) (method : Accessor)
    (m : AWSClientManager) (e : PyException) :
  lookup_method service_name client_methods = Some method ->
  _clients m !! service_name = None ->
  _is_service_enabled service_name m = true ->
  breaker_is_open service_name m = false ->
  _active_connections (connection_pool m) < max_connections (connection_pool m) ->
  boto3 (world m) 0%nat = Raise e ->
  exists (service_type : string) (m' : AWSClientManager),
    method m = (Retry.Returned None, m')
    /\ journal (world m')
       = journal (world m) ++ [CallAcquire; CallConstruct service_type; CallRelease]
    /\ constructions m' = S (constructions m)
    /\ Health.failure_count (Health.entry service_name (health_monitor m'))
       = Health.failure_count (Health.entry service_name (health_monitor m)) + 1
    /\ circuit_breakers m'
       = breakers_after_failure service_name (datetime_now (world m) 1%nat) m.
Proof.
  intros Hm Hc Hen Hopen Hfree Hboto.
  destruct (accessor_attempt _ _ _ Hm Hc Hen Hopen Hfree) as (ty & m' & Hcall & Hatt).
  rewrite Hboto in Hcall, Hatt.
  destruct Hatt as (_ & _ & _ & Hj & _ & Hh & Hb).
  exists ty, m'. split_and!; try assumption.
  - eapply constructions_after_attempt, Hj.
  - rewrite Hh. apply failure_count_after_failure.
Qed.

Lemma construction_failure_not_retried_witness :
  exists m' : AWSClientManager,
    get_bedrock_client fresh_manager = (Retry.Returned None, m')
    /\ constructions m' = 1%nat
    /\ boto3 (world m') 0%nat = Return 0%nat.
Proof.
  destruct (construction_failure_not_retried "bedrock" get_bedrock_client
              fresh_manager (ClientError "Connect timeout on endpoint URL")
              eq_refl eq_refl eq_refl eq_refl eq_refl eq_refl)
    as (ty & m' & Hcall & _ & Hn & _).
  exists m'. split; [exact Hcall|]. split; [exact Hn|].
  apply (f_equal snd) in Hcall. cbn [snd] in Hcall. rewrite <- Hcall.
  vm_compute. reflexivity.
Defined.

(** *** Status, health check and the cache *)

Lemma status_state (service_name : string) (method : Accessor) (m : AWSClientManager) :
  lookup_method service_name client_methods = Some method ->
  snd (get_client_status service_name m) = snd (method m).
Proof.
  intros Hm. unfold get_client_status. rewrite Hm.
  destruct (method m) as [[[c|]|e|] m1]; reflexivity.
Qed.

Lemma status_frame (service_name : string) (m : AWSClientManager) :
  frame_of service_name m (snd (get_client_status service_name m)).
Proof.
  destruct (lookup_method service_name client_methods) as [method|] eqn:Hm.
  - rewrite (status_state _ _ _ Hm).
    destruct (accessor_frame _ _ m Hm) as (r & m' & -> & Hframe). exact Hframe.
  - unfold get_client_status. rewrite Hm. apply frame_of_refl.
Qed.

(** A property every [get_client_status] of the loop keeps is kept by the
    loop. *)
Lemma health_steps_ind (P : AWSClientManager -> Prop) (l : list string) :
  (forall (s : string) (m : AWSClientManager),
      s ∈ l -> P m -> P (snd (get_client_status s m))) ->
  forall (acc : list (string * ClientStatus) * AWSClientManager),
    P (snd acc) -> P (snd (fold_left health_check_step l acc)).
Proof.
  induction l as [|s l IH]; intros Hstep acc Hacc; [exact Hacc|].
  cbn [fold_left]. apply IH.
  - intros s' m' Hin. apply Hstep. right. exact Hin.
  - unfold health_check_step.
    destruct (get_client_status s (snd acc)) as [st m1] eqn:Hst. cbn [snd].
    change m1 with (snd (st, m1)). rewrite <- Hst. apply Hstep; [left|exact Hacc].
Qed.

(** After its loop, [health_check] at most reads the clock. *)
Lemma health_check_after_loop (m : AWSClientManager) :
  services_enabled (snd (health_check m)) = services_enabled (snd (health_check_loop m))
  /\ _clients (snd (health_check m)) = _clients (snd (health_check_loop m))
  /\ circuit_breakers (snd (health_check m)) = circuit_breakers (snd (health_check_loop m))
  /\ health_monitor (snd (health_check m)) = health_monitor (snd (health_check_loop m))
  /\ connection_pool (snd (health_check m)) = connection_pool (snd (health_check_loop m))
  /\ journal (world (snd (health_check m)))
     = journal (world (snd (health_check_loop m)))
  /\ boto3 (world (snd (health_check m))) = boto3 (world (snd (health_check_loop m))).
Proof.
  unfold health_check. destruct (health_check_loop m) as [statuses m1]. cbn [snd].
  destruct (max_connections (connection_pool m1) =? 0)%Z; split_and!; reflexivity.
Qed.

Lemma frame_keeps_entry (s service_name : string) (m m' : AWSClientManager)
    (c : option ClientHandle) :
  frame_of s m m' ->
  _clients m !! service_name = Some c -> _clients m' !! service_name = Some c.
Proof.
  intros (_ & Hother & _ & _ & Hsame & _) Hc.
  destruct (decide (service_name = s)) as [->|Hne]; [auto|].
  destruct (Hother service_name Hne) as (-> & _). exact Hc.
Qed.

Lemma frame_cache_sound (s : string) (m m' : AWSClientManager) :
  frame_of s m m' -> cache_sound m -> cache_sound m'.
Proof.
  intros (He & Hother & _ & _ & _ & Hnew) Hsound n h Hn.
  unfold _is_service_enabled in *. rewrite He.
  destruct (decide (n = s)) as [->|Hne].
  - destruct (Hnew h Hn) as [Hold|Hen]; [eapply Hsound, Hold | exact Hen].
  - destruct (Hother n Hne) as (Hcl & _). rewrite Hcl in Hn. eapply Hsound, Hn.
Qed.

Lemma force_refresh_clients (service_name : string) (m : AWSClientManager) :
  _clients (force_refresh_client service_name m)
  = match _clients m !! service_name with
    | Some _ => delete service_name (_clients m)
    | None => _clients m
    end
  /\ services_enabled (force_refresh_client service_name m) = services_enabled m.
Proof.
  unfold force_refresh_client, reset_circuit_breakers.
  destruct (_clients m !! service_name); [|split; reflexivity]. cbn.
  destruct (circuit_breakers m !! service_name); [|split; reflexivity].
  destruct (String.eqb service_name ""); split; reflexivity.
Qed.

Lemma reset_clients (service_name : option string) (m : AWSClientManager) :
  _clients (reset_circuit_breakers service_name m) = _clients m
  /\ services_enabled (reset_circuit_breakers service_name m) = services_enabled m.
Proof.
  unfold reset_circuit_breakers.
  destruct service_name as [n|]; [|split; reflexivity].
  destruct (String.eqb n ""); [split; reflexivity|].
  destruct (circuit_breakers m !! n); split; reflexivity.
Qed.

(** Only the two refresh calls take an entry out of the cache. *)
Lemma run_op_keeps_entry (op : Op) (service_name : string) (m : AWSClientManager)
    (c : option ClientHandle) :
  op <> OpRefreshClients ->
  op <> OpForceRefreshClient service_name ->
  _clients m !! service_name = Some c ->
  _clients (run_op op m) !! service_name = Some c.
Proof.
  intros Hnot_all Hnot_one Hc. destruct op as [s|s| | |s|s]; cbn [run_op].
  - destruct (lookup_method s client_methods) as [method|] eqn:Hm; [|exact Hc].
    rewrite <- (status_state _ _ _ Hm).
    eapply frame_keeps_entry; [apply status_frame | exact Hc].
  - eapply frame_keeps_entry; [apply status_frame | exact Hc].
  - destruct (health_check_after_loop m) as (_ & -> & _).
    unfold health_check_loop.
    apply (health_steps_ind (fun m' => _clients m' !! service_name = Some c));
      [|exact Hc].
    intros s m' _ Hc'. eapply frame_keeps_entry; [apply status_frame | exact Hc'].
  - congruence.
  - destruct (force_refresh_clients s m) as [-> _].
    destruct (_clients m !! s); [|exact Hc].
    rewrite lookup_delete_ne; [exact Hc | congruence].
  - destruct (reset_clients s m) as [-> _]. exact Hc.
Qed.

(** An open breaker stays as it is, failure time included, through every
    sequence of accessor calls, status calls, health checks and cache
    clearings: only a reset by hand closes it. *)
Lemma status_keeps_open (s service_name : string) (m : AWSClientManager)
    (cb : CircuitBreaker) :
  circuit_breakers m !! service_name = Some cb ->
  state cb = OPEN ->
  circuit_breakers (snd (get_client_status s m)) !! service_name = Some cb.
Proof.
  intros Hcb Hstate. destruct (decide (s = service_name)) as [->|Hne].
  - destruct (lookup_method service_name client_methods) as [method|] eqn:Hm.
    + rewrite (status_state _ _ _ Hm), (accessor_open_keeps_breakers _ _ _ Hm);
        [exact Hcb|].
      unfold breaker_is_open. rewrite Hcb, Hstate. reflexivity.
    + unfold get_client_status. rewrite Hm. exact Hcb.
  - destruct (status_frame s m) as (_ & Hother & _).
    destruct (Hother service_name (not_eq_sym Hne)) as (_ & -> & _). exact Hcb.
Qed.

Lemma open_breaker_stays_open (ops : list Op) (service_name : string)
    (m : AWSClientManager) (cb : CircuitBreaker) :
  Forall (fun op => resets_breakers op = false) ops ->
  circuit_breakers m !! service_name = Some cb ->
  state cb = OPEN ->
  circuit_breakers (run_ops ops m) !! service_name = Some cb.
Proof.
  intros Hops Hcb Hstate. revert m Hcb.
  induction Hops as [|op ops Hop _ IH]; intros m Hcb; [exact Hcb|].
  cbn. apply IH. destruct op as [s|s| | |s|s]; try discriminate; cbn [run_op].
  - destruct (lookup_method s client_methods) as [method|] eqn:Hm; [|exact Hcb].
    rewrite <- (status_state _ _ _ Hm). apply status_keeps_open; assumption.
  - apply status_keeps_open; assumption.
  - destruct (health_check_after_loop m) as (_ & _ & -> & _).
    unfold health_check_loop.
    apply (health_steps_ind (fun m' => circuit_breakers m' !! service_name = Some cb));
      [|exact Hcb].
    intros s m' _ Hcb'. apply status_keeps_open; assumption.
  - exact Hcb.
Qed.

(** What a refused call leaves in the cache: the accessors that go through
    [_create_client_with_monitoring] store the [None] it returns;
    [get_dynamodb_resource] returns before it stores anything. *)
Lemma accessor_refused_cache (service_name : string) (method : Accessor)
    (m : AWSClientManager) :
  lookup_method service_name client_methods = Some method ->
  _clients m !! service_name = None ->
  _is_service_enabled service_name m = false \/ breaker_is_open service_name m = true ->
  (service_name <> "dynamodb" ->
   method m = (Retry.Returned None,
               set_clients (<[service_name := None]> (_clients m)) m))
  /\ (service_name = "dynamodb" -> method m = (Retry.Returned None, m)).
Proof.
  intros Hm Hc Href.
  destruct (method_spec _ _ Hm) as (d & ty & [[-> Hne] | (-> & -> & _)]).
  - split; [intros _ | intros Heq; contradiction].
    apply retry_on_failure_id. unfold get_client_body.
    rewrite Hc, (create_refused _ ty _ Href). reflexivity.
  - split; [intros Hne; contradiction | intros _].
    apply retry_on_failure_id. unfold get_dynamodb_resource_body. rewrite Hc.
    destruct Href as [-> | ->]; [reflexivity|].
    destruct (_is_service_enabled "dynamodb" m); reflexivity.
Qed.

(** C3 (amended). The cache keeps the result of every call that went as far
    as the pool, [None] included: after a call whose construction fails,
    the cache holds [None] under the service's key, and the next call
    returns it without building anything, the state being unchanged; more
    generally a call for an enabled service whose breaker is not open
    stores what it returns.  A call refused because the service is disabled
    or its breaker is open returns [None]; the accessors other than
    [get_dynamodb_resource] store that [None] too, while
    [get_dynamodb_resource] leaves the state as it was, with no entry.  An
    entry, once there, is what every later call returns, and no call other
    than [refresh_clients] and [force_refresh_client] of that service
    removes or changes it. *)
Theorem cache_keeps_first_result (service_name : string) (method : Accessor)
    (m : AWSClientManager) :
  lookup_method service_name client_methods = Some method ->
  (forall e : PyException,
      _clients m !! service_name = None ->
      _is_service_enabled service_name m = true ->
      breaker_is_open service_name m = false ->
      _active_connections (connection_pool m) < max_connections (connection_pool m) ->
      boto3 (world m) 0%nat = Raise e ->
      exists m' : AWSClientManager,
        method m = (Retry.Returned None, m')
        /\ _clients m' !! service_name = Some None
        /\ method m' = (Retry.Returned None, m'))
  /\ (_clients m !! service_name = None ->
      _is_service_enabled service_name m = true ->
      breaker_is_open service_name m = false ->
      exists (r : option ClientHandle) (m' : AWSClientManager),
        method m = (Retry.Returned r, m')
        /\ _clients m' !! service_name = Some r)
  /\ (_clients m !! service_name = None ->
      _is_service_enabled service_name m = false \/ breaker_is_open service_name m = true ->
      (service_name <> "dynamodb" ->
       method m = (Retry.Returned None,
                   set_clients (<[service_name := None]> (_clients m)) m))
      /\ (service_name = "dynamodb" -> method m = (Retry.Returned None, m)))
  /\ (forall c : option ClientHandle,
        _clients m !! service_name = Some c ->
        method m = (Retry.Returned c, m))
  /\ (forall (op : Op) (c : option ClientHandle),
        op <> OpRefreshClients ->
        op <> OpForceRefreshClient service_name ->
        _clients m !! service_name = Some c ->
        _clients (run_op op m) !! service_name = Some c).
Proof.
  intros Hm. split_and!.
  - intros e Hc Hen Hopen Hfree Hboto.
    destruct (accessor_attempt _ _ _ Hm Hc Hen Hopen Hfree) as (ty & m' & Hcall & Hatt).
    rewrite Hboto in Hcall, Hatt. destruct Hatt as (_ & Hcl & _).
    assert (Hcached : _clients m' !! service_name = Some None).
    { rewrite Hcl. apply lookup_insert_eq. }
    exists m'. split_and!; [exact Hcall | exact Hcached |].
    apply (accessor_cached _ _ _ _ Hm Hcached).
  - intros Hc Hen Hopen.
    destruct (Z_lt_le_dec (_active_connections (connection_pool m))
                          (max_connections (connection_pool m))) as [Hfree|Hfull].
    + destruct (accessor_attempt _ _ _ Hm Hc Hen Hopen Hfree)
        as (ty & m' & Hcall & _ & Hcl & _).
      eexists _, m'. split; [exact Hcall|]. rewrite Hcl. apply lookup_insert_eq.
    + destruct (accessor_exhausted _ _ _ Hm Hc Hen Hopen Hfull)
        as (m' & Hcall & _ & Hcl & _).
      exists None, m'. split; [exact Hcall|]. rewrite Hcl. apply lookup_insert_eq.
  - intros Hc Href. apply (accessor_refused_cache _ _ _ Hm Hc Href).
  - intros c. apply (accessor_cached _ _ _ _ Hm).
  - intros op c. apply run_op_keeps_entry.
Qed.

Lemma cache_keeps_first_result_witness :
  _clients (snd (get_bedrock_client fresh_manager)) !! "bedrock" = Some None
  /\ get_bedrock_client (snd (get_bedrock_client fresh_manager))
     = (Retry.Returned None, snd (get_bedrock_client fresh_manager)).
Proof.
  destruct (cache_keeps_first_result "bedrock" get_bedrock_client fresh_manager eq_refl)
    as (Hfail & _).
  destruct (Hfail (ClientError "Connect timeout on endpoint URL")
              eq_refl eq_refl eq_refl eq_refl eq_refl)
    as (m' & Hcall & Hcached & Hagain).
  rewrite Hcall. cbn [snd]. split; assumption.
Defined.

(** The two kinds of refusal, on a fresh manager where s3 is disabled and on
    one where dynamodb is: the call for s3 leaves [None] in the cache, the
    call for dynamodb leaves no entry. *)
Lemma refusal_cached_or_not :
  _clients (snd (get_s3_client fresh_manager)) !! "s3" = Some None
  /\ _clients (snd (get_dynamodb_resource
                      (init (<["dynamodb" := false]> example_config) 50 10 30
                            flaky_world))) !! "dynamodb" = None.
Proof. vm_compute. split; reflexivity. Qed.

(** C3 as stated fails: the first call of [get_bedrock_client] on a fresh
    manager, whose construction times out, returns [None] and leaves [None]
    in the cache; the second call returns [None] again and builds nothing,
    although the world would have answered it with a client. *)
Lemma failed_construction_is_cached :
  fst (get_bedrock_client fresh_manager) = Retry.Returned None
  /\ _clients (snd (get_bedrock_client fresh_manager)) !! "bedrock" = Some None
  /\ boto3 (world (snd (get_bedrock_client fresh_manager))) 0%nat = Return 0%nat
  /\ fst (get_bedrock_client (snd (get_bedrock_client fresh_manager)))
     = Retry.Returned None
  /\ constructions (snd (get_bedrock_client fresh_manager)) = 1%nat
  /\ constructions (snd (get_bedrock_client (snd (get_bedrock_client fresh_manager))))
     = 1%nat.
Proof. vm_compute. split_and!; reflexivity. Qed.

(** *** Forced refresh *)

(** C9 (amended). For a service with an entry in the cache,
    [force_refresh_client] removes the entry and resets the breaker of the
    service to CLOSED with [failure_count = 0] and no [last_failure_time],
    an OPEN breaker included; for a service with no entry in the cache it
    changes nothing, and the breaker is not reset. *)
Theorem force_refresh_resets_cached (service_name : string) (m : AWSClientManager) :
  (is_Some (_clients m !! service_name) ->
   _clients (force_refresh_client service_name m) !! service_name = None
   /\ circuit_breakers (force_refresh_client service_name m) !! service_name
      = reset <$> circuit_breakers m !! service_name
   /\ (forall cb : CircuitBreaker,
         circuit_breakers (force_refresh_client service_name m) !! service_name = Some cb ->
         state cb = CLOSED /\ failure_count cb = 0 /\ last_failure_time cb = None))
  /\ (_clients m !! service_name = None ->
      force_refresh_client service_name m = m).
Proof.
  split.
  - intros [c Hc].
    assert (Hb : circuit_breakers (force_refresh_client service_name m) !! service_name
                 = reset <$> circuit_breakers m !! service_name).
    { unfold force_refresh_client, reset_circuit_breakers. rewrite Hc. cbn.
      destruct (circuit_breakers m !! service_name) as [cb|] eqn:Hcb; cbn.
      - destruct (String.eqb service_name ""); cbn.
        + rewrite lookup_fmap, Hcb. reflexivity.
        + apply lookup_insert_eq.
      - exact Hcb. }
    split_and!.
    + destruct (force_refresh_clients service_name m) as [-> _]. rewrite Hc.
      apply lookup_delete_eq.
    + exact Hb.
    + intros cb. rewrite Hb.
      destruct (circuit_breakers m !! service_name); cbn; [|discriminate].
      intros [= <-]. split_and!; reflexivity.
  - intros Hc. unfold force_refresh_client. rewrite Hc. reflexivity.
Qed.

Lemma force_refresh_resets_cached_witness :
  _clients (force_refresh_client "bedrock" tripped_manager) !! "bedrock" = None
  /\ circuit_breakers (force_refresh_client "bedrock" tripped_manager) !! "bedrock"
     = Some (mkCircuitBreaker 5 60 0 None CLOSED).
Proof.
  destruct (force_refresh_resets_cached "bedrock" tripped_manager) as [Hcached _].
  destruct Hcached as (Hgone & Hreset & _).
  { exists None. reflexivity. }
  split; [exact Hgone|]. rewrite Hreset. reflexivity.
Defined.

(** C9 as stated fails: with dynamodb down and nothing cached, the breaker
    of dynamodb is OPEN, and [force_refresh_client] leaves it OPEN. *)
Lemma force_refresh_skips_uncached :
  _clients dynamodb_down !! "dynamodb" = None
  /\ (state <$> circuit_breakers dynamodb_down !! "dynamodb") = Some OPEN
  /\ (state <$> circuit_breakers (force_refresh_client "dynamodb" dynamodb_down)
                 !! "dynamodb") = Some OPEN
  /\ (failure_count <$> circuit_breakers (force_refresh_client "dynamodb" dynamodb_down)
                         !! "dynamodb") = Some 3.
Proof. vm_compute. split_and!; reflexivity. Qed.

(** *** Disabled services *)

Lemma cache_sound_ext (m m' : AWSClientManager) :
  services_enabled m' = services_enabled m ->
  _clients m' = _clients m ->
  cache_sound m -> cache_sound m'.
Proof.
  intros He Hcl Hsound n h. unfold _is_service_enabled. rewrite He, Hcl.
  apply Hsound.
Qed.

Lemma run_op_cache_sound (op : Op) (m : AWSClientManager) :
  cache_sound m -> cache_sound (run_op op m).
Proof.
  intros Hsound. destruct op as [s|s| | |s|s]; cbn [run_op].
  - destruct (lookup_method s client_methods) as [method|] eqn:Hm; [|exact Hsound].
    rewrite <- (status_state _ _ _ Hm).
    eapply frame_cache_sound; [apply status_frame | exact Hsound].
  - eapply frame_cache_sound; [apply status_frame | exact Hsound].
  - destruct (health_check_after_loop m) as (He & Hcl & _).
    assert (Hloop : cache_sound (snd (health_check_loop m))).
    { unfold health_check_loop. apply (health_steps_ind cache_sound); [|exact Hsound].
      intros s m' _ Hm'. eapply frame_cache_sound; [apply status_frame | exact Hm']. }
    exact (cache_sound_ext _ _ He Hcl Hloop).
  - intros n h. cbn. rewrite lookup_empty. discriminate.
  - intros n h. unfold _is_service_enabled.
    destruct (force_refresh_clients s m) as [-> ->].
    destruct (_clients m !! s); [|apply Hsound].
    intros [_ Hn]%lookup_delete_Some. eapply Hsound, Hn.
  - intros n h. unfold _is_service_enabled.
    destruct (reset_clients s m) as [-> ->]. apply Hsound.
Qed.

Lemma run_ops_cache_sound (ops : list Op) (m : AWSClientManager) :
  cache_sound m -> cache_sound (run_ops ops m).
Proof.
  revert m. induction ops as [|op ops IH]; intros m Hsound; [exact Hsound|].
  apply IH, run_op_cache_sound, Hsound.
Qed.

Lemma reachable_cache_sound (m : AWSClientManager) :
  reachable m -> cache_sound m.
Proof.
  intros (en & mp & ct & rt & w & ops & ->). apply run_ops_cache_sound.
  intros n h. cbn. rewrite lookup_empty. discriminate.
Qed.

(** C8. In every state the manager can reach, a call of the accessor of a
    disabled service returns [None] and leaves every breaker, every health
    record, the pool and the world as they were. *)
Theorem disabled_service_untouched (service_name : string) (method : Accessor)
    (m : AWSClientManager) :
  reachable m ->
  lookup_method service_name client_methods = Some method ->
  _is_service_enabled service_name m = false ->
  exists m' : AWSClientManager,
    method m = (Retry.Returned None, m')
    /\ circuit_breakers m' = circuit_breakers m
    /\ health_monitor m' = health_monitor m
    /\ connection_pool m' = connection_pool m
    /\ world m' = world m.
Proof.
  intros Hreach Hm Hoff.
  destruct (_clients m !! service_name) as [[h|]|] eqn:Hc.
  - pose proof (reachable_cache_sound m Hreach service_name h Hc). congruence.
  - exists m. split; [apply (accessor_cached _ _ _ _ Hm Hc)|]. split_and!; reflexivity.
  - destruct (accessor_refused _ _ _ Hm Hc (or_introl Hoff)) as (m' & Hcall & [-> | ->]);
      eexists; (split; [exact Hcall|]); split_and!; reflexivity.
Qed.

Lemma disabled_service_untouched_witness :
  exists m' : AWSClientManager,
    get_s3_client (run_ops [OpHealthCheck] fresh_manager) = (Retry.Returned None, m')
    /\ circuit_breakers m' = circuit_breakers (run_ops [OpHealthCheck] fresh_manager)
    /\ connection_pool m' = connection_pool (run_ops [OpHealthCheck] fresh_manager).
Proof.
  assert (Hreach : reachable (run_ops [OpHealthCheck] fresh_manager)).
  { exists example_config, 50, 10, 30, flaky_world, [OpHealthCheck]. reflexivity. }
  assert (Hoff : _is_service_enabled "s3" (run_ops [OpHealthCheck] fresh_manager) = false).
  { vm_compute. reflexivity. }
  destruct (disabled_service_untouched "s3" get_s3_client _ Hreach eq_refl Hoff)
    as (m' & Hcall & Hb & _ & Hp & _).
  exists m'. split_and!; assumption.
Defined.

(** *** The health check *)





Lemma total_calls_entry (service_name : string) (h : gmap string Health.HealthRecord) :
  Health.total_calls service_name h
  = Health.success_count (Health.entry service_name h)
    + Health.failure_count (Health.entry service_name h).
Proof.
  unfold Health.total_calls, Health.entry.
  destruct (h !! service_name); reflexivity.
Qed.






(** On that manager the check builds two clients: the construction for
    bedrock fails, and [None] is cached; the one for dynamodb succeeds. *)
Lemma health_check_example :
  constructions (snd (health_check fresh_manager)) = 2%nat
  /\ _clients (snd (health_check fresh_manager)) !! "bedrock" = Some None
  /\ _clients (snd (health_check fresh_manager)) !! "dynamodb" = Some (Some 0%nat)
  /\ _clients fresh_manager = ∅.
Proof. vm_compute. split_and!; reflexivity. Qed.

End manager_facts.

(** * Further properties *)

(** ** The health monitor *)

Section health_facts.
Import Health.
Local Open Scope Z_scope.

Lemma record_lookup (service_name : string) (h : gmap string HealthRecord) (ev : Event) :
  record service_name h ev !! service_name
  = Some (let r := entry service_name h in
          match ev with
          | Succeeded now =>
              mkHealthRecord (success_count r + 1) (failure_count r) (Some now)
                             (last_failure r) 0 (last_error r)
          | Failed now e =>
              mkHealthRecord (success_count r) (failure_count r + 1) (last_success r)
                             (Some now) (consecutive_failures r + 1) (Some (str e))
          end).
Proof.
  destruct ev; cbn [record]; unfold record_success, record_failure;
    apply lookup_insert_eq.
Qed.

Lemma record_other (service_name n : string) (h : gmap string HealthRecord) (ev : Event) :
  n <> service_name -> record service_name h ev !! n = h !! n.
Proof.
  intros Hne. destruct ev; cbn [record]; unfold record_success, record_failure;
    apply lookup_insert_ne; congruence.
Qed.

Lemma entry_wf (service_name : string) (h : gmap string HealthRecord) :
  monitor_wf h ->
  0 <= success_count (entry service_name h)
  /\ 0 <= consecutive_failures (entry service_name h) <= failure_count (entry service_name h).
Proof.
  intros Hwf. unfold entry.
  destruct (h !! service_name) as [r|] eqn:Hr; cbn; [|lia].
  destruct (Hwf _ _ Hr) as (? & ? & ?). lia.
Qed.

Lemma record_wf_kept (service_name : string) (h : gmap string HealthRecord) (ev : Event) :
  monitor_wf h -> monitor_wf (record service_name h ev).
Proof.
  intros Hwf n r. destruct (decide (n = service_name)) as [->|Hne].
  - rewrite record_lookup. intros [= <-].
    pose proof (entry_wf service_name h Hwf). unfold record_wf.
    destruct ev; cbn; lia.
  - rewrite record_other by exact Hne. apply Hwf.
Qed.

Lemma record_all_snoc (service_name : string) (evs : list Event) (ev : Event)
    (h : gmap string HealthRecord) :
  record_all service_name (evs ++ [ev]) h
  = record service_name (record_all service_name evs h) ev.
Proof. unfold record_all. rewrite fold_left_app. reflexivity. Qed.

Lemma record_all_wf (service_name : string) (evs : list Event)
    (h : gmap string HealthRecord) :
  monitor_wf h -> monitor_wf (record_all service_name evs h).
Proof.
  intros Hwf. induction evs as [|ev evs IH] using rev_ind; [exact Hwf|].
  rewrite record_all_snoc. apply record_wf_kept, IH.
Qed.

Lemma entry_record (service_name : string) (h : gmap string HealthRecord) (ev : Event) :
  entry service_name (record service_name h ev)
  = let r := entry service_name h in
    match ev with
    | Succeeded now =>
        mkHealthRecord (success_count r + 1) (failure_count r) (Some now)
                       (last_failure r) 0 (last_error r)
    | Failed now e =>
        mkHealthRecord (success_count r) (failure_count r + 1) (last_success r)
                       (Some now) (consecutive_failures r + 1) (Some (str e))
    end.
Proof. unfold entry at 1. rewrite record_lookup. reflexivity. Qed.

(** After failures only, the run of failures is that much longer. *)
Lemma failures_in_a_row (service_name : string) (evs : list Event)
    (h : gmap string HealthRecord) :
  Forall (fun ev => is_failure ev = true) evs ->
  consecutive_failures (entry service_name (record_all service_name evs h))
  = consecutive_failures (entry service_name h) + Z.of_nat (length evs).
Proof.
  induction evs as [|ev evs IH] using rev_ind; intros Hall; [cbn; lia|].
  apply Forall_app in Hall as [Hevs Hev]. apply Forall_cons in Hev as [Hev _].
  rewrite record_all_snoc, entry_record, length_app.
  destruct ev; [discriminate|]. cbn. rewrite (IH Hevs). lia.
Qed.

Lemma status_of_entry (service_name : string) (h : gmap string HealthRecord) :
  monitor_wf h ->
  is_Some (h !! service_name) ->
  status_of (get_health_status service_name h) = classify (entry service_name h).
Proof.
  intros Hwf [r Hr]. unfold get_health_status, entry. rewrite Hr. cbn.
  destruct (Hwf _ _ Hr) as (_ & _ & Htotal).
  destruct (Z.eqb_spec (success_count r + failure_count r) 0); [lia | reflexivity].
Qed.

Lemma record_all_is_Some (service_name : string) (evs : list Event)
    (h : gmap string HealthRecord) :
  evs <> [] -> is_Some (record_all service_name evs h !! service_name).
Proof.
  destruct evs as [|ev evs _] using rev_ind; [congruence|]. intros _.
  rewrite record_all_snoc, record_lookup. eexists. reflexivity.
Qed.

(** X1. Whatever was recorded before, three failures in a row and no
    success since leave the service degraded or critical, and five leave it
    critical. *)
Theorem failures_in_a_row_status (service_name : string) (evs : list Event)
    (h : gmap string HealthRecord) :
  monitor_wf h ->
  Forall (fun ev => is_failure ev = true) evs ->
  (3 <= length evs)%nat ->
  let status := status_of (get_health_status service_name
                             (record_all service_name evs h)) in
  (status = Degraded \/ status = Critical)
  /\ ((5 <= length evs)%nat -> status = Critical).
Proof.
  intros Hwf Hall Hlen status. unfold status.
  rewrite status_of_entry;
    [|apply record_all_wf, Hwf | apply record_all_is_Some; intros ->; cbn in Hlen; lia].
  unfold classify. rewrite (failures_in_a_row service_name evs h Hall).
  pose proof (entry_wf service_name h Hwf) as (_ & Hcf & _).
  set (cf := consecutive_failures (entry service_name h)) in *.
  destruct (Z.geb_spec (cf + Z.of_nat (length evs)) 5) as [H5|H5].
  - split; [right; reflexivity | reflexivity].
  - destruct (Z.geb_spec (cf + Z.of_nat (length evs)) 3) as [H3|H3]; [|lia].
    split; [left; reflexivity | lia].
Qed.

Lemma failures_in_a_row_status_witness :
  status_of (get_health_status "bedrock"
               (record_all "bedrock"
                  [Failed 1 (ClientError "a"); Failed 2 (ClientError "b");
                   Failed 3 (ClientError "c"); Failed 4 (ClientError "d");
                   Failed 5 (ClientError "e")] ∅)) = Critical.
Proof.
  apply (failures_in_a_row_status "bedrock"
           [Failed 1 (ClientError "a"); Failed 2 (ClientError "b");
            Failed 3 (ClientError "c"); Failed 4 (ClientError "d");
            Failed 5 (ClientError "e")] ∅).
  - intros n r. rewrite lookup_empty. discriminate.
  - repeat constructor.
  - cbn. lia.
  - cbn. lia.
Defined.

(** X2. A success ends a run of failures at once: right after
    [record_success] the monitor reports the service with no failure in a
    row, the time of this success and one more call, and with a status that
    is "healthy" or "warning", whatever was recorded before: it is
    "warning" when the success rate, the float nearest to the quotient of
    the two counts, is below the float 0.8, and "healthy" otherwise. *)
Theorem status_after_success (service_name : string) (now : Z)
    (h : gmap string HealthRecord) :
  monitor_wf h ->
  exists (status : HealthStatus) (rate : Py.float),
    get_health_status service_name (record_success service_name now h)
    = Data status rate (total_calls service_name h + 1) 0 (Some now)
           (last_failure (entry service_name h)) (last_error (entry service_name h))
    /\ rate = Py.int_true_divide (success_count (entry service_name h) + 1)
                                 (total_calls service_name h + 1)
    /\ status = (if Py.flt rate Py.float_0_8 then Warning else Healthy)
    /\ (status = Healthy \/ status = Warning).
Proof.
  intros Hwf.
  pose proof (entry_wf service_name h Hwf) as (Hs & Hcf & Hf).
  assert (Htotal : total_calls service_name h
                   = success_count (entry service_name h)
                     + failure_count (entry service_name h)).
  { unfold total_calls, entry. destruct (h !! service_name); reflexivity. }
  unfold get_health_status, record_success. rewrite lookup_insert_eq.
  set (r := entry service_name h) in *.
  assert (Heq : success_count r + 1 + failure_count r = total_calls service_name h + 1)
    by lia.
  unfold classify, success_rate. cbn. rewrite !Heq.
  destruct (Z.eqb_spec (total_calls service_name h + 1) 0) as [Hzero|_]; [lia|].
  eexists _, _. split_and!; try reflexivity.
  destruct (Py.flt _ _); [right | left]; reflexivity.
Qed.

Lemma status_after_success_witness :
  status_of (get_health_status "s3"
               (record_success "s3" 9
                  (record_all "s3" [Failed 1 (ClientError "a"); Failed 2 (ClientError "b");
                                    Failed 3 (ClientError "c")] ∅)))
  = Warning.
Proof.
  destruct (status_after_success "s3" 9
              (record_all "s3" [Failed 1 (ClientError "a"); Failed 2 (ClientError "b");
                                Failed 3 (ClientError "c")] ∅))
    as (status & rate & Hdata & Hrate & Hstatus & _).
  { apply record_all_wf. intros n r. rewrite lookup_empty. discriminate. }
  rewrite Hdata. cbn [status_of]. rewrite Hstatus, Hrate. vm_compute. reflexivity.
Defined.

(** X3. The monitor answers "unknown" exactly for the services it has no
    record of: once a call was recorded for a service, its status is one of
    the four others. *)
Theorem status_unknown_iff_unrecorded (service_name : string)
    (h : gmap string HealthRecord) :
  monitor_wf h ->
  (status_of (get_health_status service_name h) = Unknown
   <-> h !! service_name = None).
Proof.
  intros Hwf. split.
  - destruct (h !! service_name) as [r|] eqn:Hr; [|reflexivity].
    rewrite status_of_entry by (exact Hwf || eauto).
    unfold classify.
    destruct (_ >=? 5); [discriminate|]. destruct (_ >=? 3); [discriminate|].
    destruct (Py.flt _ _); discriminate.
  - intros Hr. unfold get_health_status. rewrite Hr. reflexivity.
Qed.

Lemma status_unknown_iff_unrecorded_witness :
  status_of (get_health_status "kms" (record_success "s3" 1 ∅)) = Unknown.
Proof.
  apply (status_unknown_iff_unrecorded "kms" (record_success "s3" 1 ∅)).
  - change (record_success "s3" 1 ∅) with (record "s3" ∅ (Succeeded 1)).
    apply record_wf_kept. intros n r. rewrite lookup_empty. discriminate.
  - reflexivity.
Defined.

Lemma record_all_other (service_name n : string) (evs : list Event)
    (h : gmap string HealthRecord) :
  n <> service_name -> record_all service_name evs h !! n = h !! n.
Proof.
  intros Hne. induction evs as [|ev evs IH] using rev_ind; [reflexivity|].
  rewrite record_all_snoc, record_other by exact Hne. exact IH.
Qed.

Lemma counts_after (service_name : string) (evs : list Event)
    (h : gmap string HealthRecord) :
  success_count (entry service_name (record_all service_name evs h))
  = success_count (entry service_name h)
    + Z.of_nat (length (List.filter (fun ev => negb (is_failure ev)) evs))
  /\ failure_count (entry service_name (record_all service_name evs h))
     = failure_count (entry service_name h)
       + Z.of_nat (length (List.filter is_failure evs)).
Proof.
  induction evs as [|ev evs [IHs IHf]] using rev_ind; [cbn; lia|].
  rewrite record_all_snoc, entry_record, !List.filter_app, !length_app.
  destruct ev; cbn; lia.
Qed.

(** X4. The counters of a service count its calls: after any sequence of
    recorded outcomes the success and failure counts have grown by the
    number of successes and of failures in it, the total by its length, and
    what the monitor says of every other service is unchanged. *)
Theorem monitor_counts_calls (service_name : string) (evs : list Event)
    (h : gmap string HealthRecord) :
  success_count (entry service_name (record_all service_name evs h))
  = success_count (entry service_name h)
    + Z.of_nat (length (List.filter (fun ev => negb (is_failure ev)) evs))
  /\ failure_count (entry service_name (record_all service_name evs h))
     = failure_count (entry service_name h)
       + Z.of_nat (length (List.filter is_failure evs))
  /\ total_calls service_name (record_all service_name evs h)
     = total_calls service_name h + Z.of_nat (length evs)
  /\ (forall n : string, n <> service_name ->
        get_health_status n (record_all service_name evs h) = get_health_status n h).
Proof.
  destruct (counts_after service_name evs h) as [Hs Hf].
  split_and!; [exact Hs | exact Hf | |].
  - rewrite !total_calls_entry, Hs, Hf.
    assert (Hsplit : (length (List.filter (fun ev => negb (is_failure ev)) evs)
                      + length (List.filter is_failure evs))%nat = length evs).
    { clear. induction evs as [|[|] evs IH]; cbn; lia. }
    lia.
  - intros n Hne. unfold get_health_status.
    rewrite record_all_other by exact Hne. reflexivity.
Qed.

Lemma record_log_snoc (l : list (string * Event)) (c : string * Event)
    (h : gmap string HealthRecord) :
  record_log (l ++ [c]) h = record (fst c) (record_log l h) (snd c).
Proof. unfold record_log. rewrite fold_left_app. reflexivity. Qed.

(** X5. Whatever is recorded, for whatever services and in whatever order,
    starting from the empty monitor, every record has at least one call, no
    negative counter, and no more failures in a row than failures. *)
Theorem monitor_counters_consistent (l : list (string * Event)) :
  monitor_wf (record_log l ∅).
Proof.
  induction l as [|c l IH] using rev_ind.
  - intros n r. cbn. rewrite lookup_empty. discriminate.
  - rewrite record_log_snoc. apply record_wf_kept, IH.
Qed.

End health_facts.

(** ** The connection pool, further *)

Section pool_more_facts.
Import Pool.
Local Open Scope Z_scope.

Lemma set_active_same (p : ConnectionPool) :
  set_active (_active_connections p) p = p.
Proof. destruct p; reflexivity. Qed.

Lemma acquire_times_spec (n : nat) (p : ConnectionPool) :
  _active_connections p <= max_connections p ->
  exists k : nat,
    Z.of_nat k = Z.min (Z.of_nat n) (max_connections p - _active_connections p)
    /\ acquire_times n p
       = (replicate k (Return tt) ++ replicate (n - k) (Raise pool_exhausted),
          set_active (_active_connections p + Z.of_nat k) p).
Proof.
  revert p. induction n as [|n IH]; intros p Hle.
  - exists 0%nat. split; [lia|]. cbn. rewrite Z.add_0_r, set_active_same. reflexivity.
  - cbn [acquire_times].
    destruct (Z_lt_le_dec (_active_connections p) (max_connections p)) as [Hfree|Hfull].
    + rewrite (acquire_below_capacity p Hfree).
      destruct (IH (set_active (_active_connections p + 1) p)) as (k & Hk & ->);
        [cbn; lia|].
      cbn in Hk. exists (S k). split; [lia|]. cbn.
      f_equal. unfold set_active; cbn. f_equal. lia.
    + rewrite (acquire_at_capacity p Hfull).
      destruct (IH p Hle) as (k & Hk & ->).
      assert (k = 0%nat) as -> by lia.
      exists 0%nat. split; [lia|]. cbn. rewrite Nat.sub_0_r. reflexivity.
Qed.

(** X6. Of [n] calls of [acquire_connection] in a row on a pool within its
    bound, the first [min(n, max_connections - active)] succeed and every
    later one raises "Connection pool exhausted"; the counter ends at
    [min(active + n, max_connections)]. *)
Theorem acquire_until_exhausted (n : nat) (p : ConnectionPool) :
  pool_bound p ->
  exists k : nat,
    Z.of_nat k = Z.min (Z.of_nat n) (max_connections p - _active_connections p)
    /\ fst (acquire_times n p)
       = replicate k (Return tt) ++ replicate (n - k) (Raise pool_exhausted)
    /\ _active_connections (snd (acquire_times n p))
       = Z.min (_active_connections p + Z.of_nat n) (max_connections p)
    /\ max_connections (snd (acquire_times n p)) = max_connections p.
Proof.
  intros [Hnn Hle].
  destruct (acquire_times_spec n p Hle) as (k & Hk & ->).
  exists k. cbn. split_and!; [exact Hk | reflexivity | lia | reflexivity].
Qed.

Lemma acquire_until_exhausted_witness :
  fst (acquire_times 3 (Pool.init 2 10 30))
  = [Return tt; Return tt; Raise pool_exhausted].
Proof.
  destruct (acquire_until_exhausted 3 (Pool.init 2 10 30)) as (k & Hk & Hrs & _).
  { unfold pool_bound; cbn; lia. }
  reflexivity.
Defined.

Lemma release_times (k : nat) (p : ConnectionPool) :
  Z.of_nat k <= _active_connections p ->
  run_calls (replicate k Release) p
  = set_active (_active_connections p - Z.of_nat k) p.
Proof.
  revert p. induction k as [|k IH]; intros p Hk.
  - cbn. rewrite Z.sub_0_r, set_active_same. reflexivity.
  - cbn [replicate run_calls fold_left run_call]. fold (run_calls (replicate k Release)).
    unfold release_connection.
    destruct (Z.gtb_spec (_active_connections p) 0) as [_|Hle]; [|lia].
    rewrite IH by (cbn; lia). cbn. unfold set_active; cbn. f_equal. lia.
Qed.

(** X7. Releasing gives back what was acquired and no more: after [n]
    calls of [acquire_connection] on a pool within its bound, releasing
    once for every call that succeeded restores the pool; and
    [release_connection] on a pool with no active connection changes
    nothing. *)
Theorem release_restores (n : nat) (p : ConnectionPool) :
  pool_bound p ->
  run_calls
    (replicate (Z.to_nat (Z.min (Z.of_nat n) (max_connections p - _active_connections p)))
               Release)
    (snd (acquire_times n p)) = p
  /\ (forall q : ConnectionPool,
        _active_connections q <= 0 -> release_connection q = q).
Proof.
  intros [Hnn Hle]. split.
  - destruct (acquire_times_spec n p Hle) as (k & Hk & ->). cbn [snd].
    rewrite <- Hk, Nat2Z.id, release_times by (cbn; lia).
    cbn. unfold set_active; cbn.
    replace (_active_connections p + Z.of_nat k - Z.of_nat k)
      with (_active_connections p) by lia.
    destruct p; reflexivity.
  - intros q Hq. unfold release_connection.
    destruct (Z.gtb_spec (_active_connections q) 0); [lia | reflexivity].
Qed.

Lemma release_restores_witness :
  run_calls [Release; Release] (snd (acquire_times 3 (Pool.init 2 10 30)))
  = Pool.init 2 10 30.
Proof.
  apply (release_restores 3 (Pool.init 2 10 30)).
  unfold pool_bound; cbn; lia.
Defined.

End pool_more_facts.

(** ** The breaker as a decorator *)

Section breaker_call_facts.
Import Breaker.
Local Open Scope Z_scope.
Context {St A : Type}.
Variable clock : St -> Z * St.
Variable expected_exception : Thrown -> bool.
Variable func_name : string.
Variable func : St -> CallResult A * St.

Lemma on_failure_settled (now : Z) (cb : CircuitBreaker) :
  0 <= failure_count cb ->
  state cb <> HALF_OPEN \/ failure_threshold cb <= failure_count cb + 1 ->
  (state cb = OPEN -> failure_threshold cb <= failure_count cb) ->
  settled (_on_failure now cb).
Proof.
  intros Hnn Hhalf Hopen. unfold settled, _on_failure. cbn.
  destruct (Z.geb_spec (failure_count cb + 1) (failure_threshold cb)) as [Hge|Hlt].
  - split_and!; [discriminate | lia | intros _; split; [lia | eauto]].
  - split_and!; [destruct Hhalf; [assumption | lia] | lia |].
    intros Hstate. specialize (Hopen Hstate). lia.
Qed.

Lemma on_success_settled (cb : CircuitBreaker) : settled (_on_success cb).
Proof. unfold settled, _on_success. cbn. split_and!; [discriminate | lia | discriminate]. Qed.




End breaker_call_facts.



(** ** The retry decorator, further *)

Section retry_more_facts.
Import Py Retry.
Context {St A : Type}.
Variable float_pow : float -> Z -> Outcome float.
Variable time_time : St -> float * St.
Variable time_sleep : float -> St -> Outcome unit * St.
Variables (max_retries : Z) (delay backoff : PyNum).
Variable exceptions : PyException -> bool.
Variable func : St -> Outcome A * St.

(** X10. [max_retries] below 1 turns the decorated function into one that
    does nothing: it returns [None] without calling the function and without
    touching the state.  The function is called at all only when
    [max_retries] is at least 1. *)
Theorem no_call_without_retries (s : St) :
  ((max_retries <= 0)%Z ->
   wrapper_run float_pow time_time time_sleep max_retries delay backoff exceptions
               func s
   = mkRun ReturnedNone [] s)
  /\ (attempts (wrapper_run float_pow time_time time_sleep max_retries delay backoff
                            exceptions func s) = []
      <-> (max_retries <= 0)%Z).
Proof.
  assert (Hnone : (max_retries <= 0)%Z ->
                  wrapper_run float_pow time_time time_sleep max_retries delay backoff
                              exceptions func s
                  = mkRun ReturnedNone [] s).
  { intros Hle. unfold wrapper_run.
    replace (Z.to_nat max_retries) with 0%nat by lia. reflexivity. }
  split; [exact Hnone|]. split.
  - intros Hempty. destruct (Z_le_gt_dec max_retries 0) as [Hle|Hgt]; [exact Hle|].
    pose proof (loop_shape float_pow time_time time_sleep max_retries delay backoff
                  exceptions func (Z.to_nat max_retries) 0 None s
                  ltac:(lia) ltac:(f_equal; lia)) as Hshape.
    pose proof (shape_length _ _ _ _ _ _ _ _ _ _ Hshape ltac:(lia)) as Hlen.
    unfold wrapper_run in Hempty. rewrite Hempty in Hlen. cbn in Hlen. lia.
  - intros Hle. rewrite (Hnone Hle). reflexivity.
Qed.

End retry_more_facts.

(** ** The client manager, further *)

Section manager_more_facts.
Import Breaker Pool Manager.
Local Open Scope Z_scope.

(** *** What one call of an accessor can do *)

Lemma breaker_not_open (service_name : string) (m : AWSClientManager)
    (cb : CircuitBreaker) :
  breaker_is_open service_name m = false ->
  circuit_breakers m !! service_name = Some cb ->
  state cb <> OPEN.
Proof.
  unfold breaker_is_open. intros Hopen Hcb. rewrite Hcb in Hopen.
  intros Hstate. rewrite Hstate in Hopen. discriminate.
Qed.

(** The result is the handle the cache holds afterwards; the breakers, the
    monitor and the journal change in one of a few ways. *)
Lemma accessor_effects (service_name : string) (method : Accessor)
    (m : AWSClientManager) :
  lookup_method service_name client_methods = Some method ->
  exists (r : option ClientHandle) (m' : AWSClientManager),
    method m = (Retry.Returned r, m')
    /\ (forall h : ClientHandle,
          r = Some h <-> _clients m' !! service_name = Some (Some h))
    /\ (circuit_breakers m' = circuit_breakers m
        \/ (breaker_is_open service_name m = false
            /\ (circuit_breakers m' = breakers_after_success service_name m
                \/ exists now : Z,
                     circuit_breakers m' = breakers_after_failure service_name now m)))
    /\ (health_monitor m' = health_monitor m
        \/ (_is_service_enabled service_name m = true
            /\ exists ev : Health.Event,
                 health_monitor m' = Health.record service_name (health_monitor m) ev))
    /\ (exists service_type : string,
          journal (world m') = journal (world m)
          \/ journal (world m') = journal (world m) ++ [CallAcquire]
          \/ journal (world m')
             = journal (world m) ++ [CallAcquire; CallConstruct service_type; CallRelease]).
Proof.
  intros Hm.
  destruct (_clients m !! service_name) as [c|] eqn:Hc.
  { exists c, m. split; [apply (accessor_cached _ _ _ _ Hm Hc)|].
    split_and!; auto.
    - intros h. rewrite Hc. split; congruence.
    - exists "". auto. }
  assert (Hrefused :
            _is_service_enabled service_name m = false
            \/ breaker_is_open service_name m = true ->
            exists (r : option ClientHandle) (m' : AWSClientManager),
              method m = (Retry.Returned r, m')
              /\ (forall h : ClientHandle,
                     r = Some h <-> _clients m' !! service_name = Some (Some h))
              /\ circuit_breakers m' = circuit_breakers m
              /\ health_monitor m' = health_monitor m
              /\ journal (world m') = journal (world m)).
  { intros Href.
    destruct (accessor_refused _ _ _ Hm Hc Href) as (m' & Hcall & [-> | ->]);
      exists None; eexists; (split; [exact Hcall|]); split_and!; try reflexivity.
    - intros h. rewrite Hc. split; discriminate.
    - intros h. cbn. rewrite lookup_insert_eq. split; discriminate. }
  destruct (_is_service_enabled service_name m) eqn:Hen; cycle 1.
  { destruct (Hrefused (or_introl eq_refl)) as (r & m' & Hcall & Hr & Hb & Hh & Hj).
    exists r, m'. split_and!; auto. exists "". auto. }
  destruct (breaker_is_open service_name m) eqn:Hopen.
  { destruct (Hrefused (or_intror eq_refl)) as (r & m' & Hcall & Hr & Hb & Hh & Hj).
    exists r, m'. split_and!; auto. exists "". auto. }
  clear Hrefused.
  destruct (Z_lt_le_dec (_active_connections (connection_pool m))
                        (max_connections (connection_pool m))) as [Hfree|Hfull].
  - destruct (accessor_attempt _ _ _ Hm Hc Hen Hopen Hfree)
      as (ty & m' & Hcall & _ & Hcl & _ & Hj & _ & Hh & Hb).
    eexists _, m'. split; [exact Hcall|]. split_and!.
    + intros h. rewrite Hcl, lookup_insert_eq. split; congruence.
    + right. split; [reflexivity|]. rewrite Hb.
      destruct (boto3 (world m) 0%nat); eauto.
    + right. split; [reflexivity|]. rewrite Hh.
      destruct (boto3 (world m) 0%nat) as [client|e];
        [exists (Health.Succeeded (datetime_now (world m) 0%nat))
        |exists (Health.Failed (datetime_now (world m) 0%nat) e)]; reflexivity.
    + exists ty. auto.
  - destruct (accessor_exhausted _ _ _ Hm Hc Hen Hopen Hfull)
      as (m' & Hcall & _ & Hcl & _ & Hj & Hh & Hb).
    exists None, m'. split; [exact Hcall|]. split_and!.
    + intros h. rewrite Hcl, lookup_insert_eq. split; discriminate.
    + right. split; [reflexivity|]. eauto.
    + right. split; [reflexivity|]. rewrite Hh.
      exists (Health.Failed (datetime_now (world m) 0%nat) pool_exhausted). reflexivity.
    + exists "". auto.
Qed.

(** *** How a property of the state is shown to hold in every reachable
    state *)

Lemma status_preserves (P : AWSClientManager -> Prop) :
  (forall (s : string) (method : Accessor) (m : AWSClientManager),
      lookup_method s client_methods = Some method -> P m -> P (snd (method m))) ->
  forall (s : string) (m : AWSClientManager),
    P m -> P (snd (get_client_status s m)).
Proof.
  intros Hacc s m Hm.
  destruct (lookup_method s client_methods) as [method|] eqn:Hs.
  - rewrite (status_state _ _ _ Hs). apply (Hacc s method m Hs Hm).
  - unfold get_client_status. rewrite Hs. exact Hm.
Qed.

Lemma health_check_same_but_clocks (m : AWSClientManager) :
  same_but_clocks (snd (health_check_loop m)) (snd (health_check m)).
Proof. exact (health_check_after_loop m). Qed.

Lemma run_op_preserves (P : AWSClientManager -> Prop) :
  (forall (s : string) (method : Accessor) (m : AWSClientManager),
      lookup_method s client_methods = Some method -> P m -> P (snd (method m))) ->
  (forall m m' : AWSClientManager, same_but_clocks m m' -> P m -> P m') ->
  (forall m : AWSClientManager, P m -> P (refresh_clients m)) ->
  (forall (s : string) (m : AWSClientManager), P m -> P (force_refresh_client s m)) ->
  (forall (s : option string) (m : AWSClientManager),
      P m -> P (reset_circuit_breakers s m)) ->
  forall (op : Op) (m : AWSClientManager), P m -> P (run_op op m).
Proof.
  intros Hacc Hclock Hrefresh Hforce Hreset op m Hm.
  destruct op as [s|s| | |s|s]; cbn [run_op]; auto.
  - destruct (lookup_method s client_methods) as [method|] eqn:Hs;
      [apply (Hacc s method m Hs Hm) | exact Hm].
  - apply status_preserves; auto.
  - apply (Hclock _ _ (health_check_same_but_clocks m)).
    unfold health_check_loop. apply (health_steps_ind P); [|exact Hm].
    intros s m' _. apply status_preserves; auto.
Qed.

Lemma reachable_preserves (P : AWSClientManager -> Prop) :
  (forall (en : gmap string bool) (mp ct rt : Z) (w : World), P (init en mp ct rt w)) ->
  (forall (op : Op) (m : AWSClientManager), P m -> P (run_op op m)) ->
  forall m : AWSClientManager, reachable m -> P m.
Proof.
  intros Hinit Hstep m (en & mp & ct & rt & w & ops & ->).
  generalize (init en mp ct rt w) (Hinit en mp ct rt w). clear Hinit.
  induction ops as [|op ops IH]; intros m0 Hm0; [exact Hm0|].
  cbn. apply IH, Hstep, Hm0.
Qed.

(** *** What refresh and reset leave alone *)

Lemma reset_keeps (s : option string) (m : AWSClientManager) :
  services_enabled (reset_circuit_breakers s m) = services_enabled m
  /\ _clients (reset_circuit_breakers s m) = _clients m
  /\ health_monitor (reset_circuit_breakers s m) = health_monitor m
  /\ connection_pool (reset_circuit_breakers s m) = connection_pool m
  /\ world (reset_circuit_breakers s m) = world m.
Proof.
  unfold reset_circuit_breakers.
  destruct s as [n|]; [|split_and!; reflexivity].
  destruct (String.eqb n ""); [split_and!; reflexivity|].
  destruct (circuit_breakers m !! n); split_and!; reflexivity.
Qed.

Lemma force_refresh_keeps (s : string) (m : AWSClientManager) :
  services_enabled (force_refresh_client s m) = services_enabled m
  /\ health_monitor (force_refresh_client s m) = health_monitor m
  /\ connection_pool (force_refresh_client s m) = connection_pool m
  /\ world (force_refresh_client s m) = world m.
Proof.
  unfold force_refresh_client.
  destruct (_clients m !! s); [|split_and!; reflexivity].
  destruct (circuit_breakers _ !! s); [|split_and!; reflexivity].
  destruct (reset_keeps (Some s) (set_clients (delete s (_clients m)) m))
    as (-> & _ & -> & -> & ->).
  split_and!; reflexivity.
Qed.

(** The breakers after a reset: those the call names are reset, the others
    are as they were. *)
Lemma reset_breakers_lookup (s : option string) (m : AWSClientManager) (n : string) :
  circuit_breakers (reset_circuit_breakers s m) !! n
  = if match s with
       | None => true
       | Some name => String.eqb name "" || String.eqb name n
       end
    then reset <$> circuit_breakers m !! n
    else circuit_breakers m !! n.
Proof.
  unfold reset_circuit_breakers.
  destruct s as [name|]; [|cbn; apply lookup_fmap].
  destruct (String.eqb name "") eqn:Hempty; cbn [orb]; [cbn; apply lookup_fmap|].
  destruct (String.eqb_spec name n) as [->|Hne].
  - destruct (circuit_breakers m !! n) as [cb|] eqn:Hcb; cbn.
    + apply lookup_insert_eq.
    + exact Hcb.
  - destruct (circuit_breakers m !! name) as [cb|] eqn:Hcb; cbn; [|reflexivity].
    apply lookup_insert_ne. congruence.
Qed.

Lemma force_refresh_breakers_lookup (s : string) (m : AWSClientManager) (n : string) :
  circuit_breakers (force_refresh_client s m) !! n = circuit_breakers m !! n
  \/ circuit_breakers (force_refresh_client s m) !! n = reset <$> circuit_breakers m !! n.
Proof.
  unfold force_refresh_client.
  destruct (_clients m !! s); [|left; reflexivity].
  destruct (circuit_breakers _ !! s); [|left; reflexivity].
  rewrite reset_breakers_lookup. cbn.
  destruct (_ || _); [right | left]; reflexivity.
Qed.

(** *** The pool never leaks *)

(** X12. Between two calls on the manager no connection is held: in every
    reachable state the counter of the pool is 0, every acquired slot having
    been released on the way out, exception or not. *)
Theorem pool_never_leaks (m : AWSClientManager) :
  reachable m -> _active_connections (connection_pool m) = 0.
Proof.
  apply (reachable_preserves
           (fun m => _active_connections (connection_pool m) = 0));
    [reflexivity|].
  apply run_op_preserves.
  - intros s method m0 Hs H0.
    destruct (accessor_frame s method m0 Hs) as (r & m' & -> & _ & _ & Hp & _).
    cbn [snd]. rewrite Hp by lia. exact H0.
  - intros m0 m' (_ & _ & _ & _ & -> & _) H0. exact H0.
  - intros m0 H0. exact H0.
  - intros s m0 H0. destruct (force_refresh_keeps s m0) as (_ & _ & -> & _). exact H0.
  - intros s m0 H0. destruct (reset_keeps s m0) as (_ & _ & _ & -> & _). exact H0.
Qed.

Lemma pool_never_leaks_witness :
  _active_connections (connection_pool (run_ops [OpHealthCheck] fresh_manager)) = 0.
Proof.
  apply (pool_never_leaks (run_ops [OpHealthCheck] fresh_manager)).
  exists example_config, 50, 10, 30, flaky_world, [OpHealthCheck]. reflexivity.
Defined.

(** *** The breakers of the reachable states *)

Lemma reset_settled (cb : CircuitBreaker) : settled (reset cb).
Proof. unfold settled, reset; cbn. split_and!; [discriminate | lia | discriminate]. Qed.

Lemma breakers_ok_map (m m' : AWSClientManager) :
  (forall n : string,
      circuit_breakers m' !! n = circuit_breakers m !! n
      \/ exists cb cb' : CircuitBreaker,
           circuit_breakers m !! n = Some cb /\ circuit_breakers m' !! n = Some cb'
           /\ failure_threshold cb' = failure_threshold cb
           /\ recovery_timeout cb' = recovery_timeout cb
           /\ (settled cb -> settled cb')) ->
  breakers_ok m -> breakers_ok m'.
Proof.
  intros Hstep Hok n. specialize (Hok n).
  destruct (Hstep n) as [-> | (cb & cb' & Hcb & -> & Hthr & Hrt & Hset)]; [exact Hok|].
  rewrite Hcb in Hok.
  destruct (initial_circuit_breakers !! n) as [cb0|]; [|exact Hok].
  destruct Hok as (Hthr0 & Hrt0 & Hset0).
  split_and!; [congruence | congruence | auto].
Qed.

Lemma accessor_breakers_ok (s : string) (method : Accessor) (m : AWSClientManager) :
  lookup_method s client_methods = Some method ->
  breakers_ok m -> breakers_ok (snd (method m)).
Proof.
  intros Hs Hok.
  destruct (accessor_effects s method m Hs) as (r & m' & -> & _ & Hb & _).
  cbn [snd]. apply (breakers_ok_map m m'); [|exact Hok].
  intros n. destruct Hb as [-> | (Hopen & [-> | (now & ->)])]; [left; reflexivity| |].
  - destruct (decide (n = s)) as [->|Hne];
      [|left; apply breakers_after_success_other, Hne].
    unfold breakers_after_success.
    destruct (circuit_breakers m !! s) as [cb|] eqn:Hcb; [|left; exact Hcb].
    right. exists cb, (_on_success cb). rewrite lookup_insert_eq.
    split_and!; auto using on_success_settled.
  - destruct (decide (n = s)) as [->|Hne];
      [|left; apply breakers_after_failure_other, Hne].
    unfold breakers_after_failure.
    destruct (circuit_breakers m !! s) as [cb|] eqn:Hcb; [|left; exact Hcb].
    right. exists cb, (_on_failure now cb). rewrite lookup_insert_eq.
    split_and!; auto.
    intros (Hhalf & Hnn & Hthr). apply on_failure_settled; auto.
    intros Hstate. destruct (breaker_not_open _ _ _ Hopen Hcb Hstate).
Qed.

Lemma reset_lookup_ok (m m' : AWSClientManager) :
  (forall n : string,
      circuit_breakers m' !! n = circuit_breakers m !! n
      \/ circuit_breakers m' !! n = reset <$> circuit_breakers m !! n) ->
  breakers_ok m -> breakers_ok m'.
Proof.
  intros Hstep. apply (breakers_ok_map m m').
  intros n. destruct (Hstep n) as [Hn | Hn]; [left; exact Hn|].
  destruct (circuit_breakers m !! n) as [cb|] eqn:Hcb; [|left; exact Hn].
  right. exists cb, (reset cb). split_and!; auto using reset_settled.
Qed.

Lemma reachable_breakers_ok (m : AWSClientManager) :
  reachable m -> breakers_ok m.
Proof.
  apply (reachable_preserves breakers_ok).
  - intros en mp ct rt w n.
    change (circuit_breakers (init en mp ct rt w)) with initial_circuit_breakers.
    destruct (initial_circuit_breakers !! n) as [cb0|] eqn:Hn; [|exact I].
    split_and!; [reflexivity | reflexivity |].
    unfold initial_circuit_breakers in Hn. apply elem_of_list_to_map_2 in Hn.
    repeat (apply elem_of_cons in Hn as [Hn|Hn];
            [injection Hn as _ ->; unfold settled; cbn;
             split_and!; [discriminate | lia | discriminate]|]).
    inversion Hn.
  - apply run_op_preserves.
    + apply accessor_breakers_ok.
    + intros m0 m' (_ & _ & Hb & _) Hok n. rewrite Hb. apply Hok.
    + intros m0 Hok. exact Hok.
    + intros s m0. apply reset_lookup_ok. apply force_refresh_breakers_lookup.
    + intros s m0. apply reset_lookup_ok. intros n. rewrite reset_breakers_lookup.
      destruct (match s with Some _ => _ | None => _ end); [right | left]; reflexivity.
Qed.

(** X13. In every reachable state each of the thirteen services has a
    breaker, the breaker stored under a service's name has the threshold
    and the recovery timeout [__init__] gave to the breaker of that very
    service, and it is settled: the manager never leaves a breaker
    HALF_OPEN, and an OPEN breaker has its count at or above the threshold
    and the time of its last failure set. *)
Theorem reachable_breakers (m : AWSClientManager) (service_name : string) :
  reachable m ->
  (service_name ∈ services -> is_Some (circuit_breakers m !! service_name))
  /\ (forall cb : CircuitBreaker,
        circuit_breakers m !! service_name = Some cb ->
        (exists cb0 : CircuitBreaker,
            initial_circuit_breakers !! service_name = Some cb0
            /\ failure_threshold cb = failure_threshold cb0
            /\ recovery_timeout cb = recovery_timeout cb0)
        /\ settled cb).
Proof.
  intros Hreach. pose proof (reachable_breakers_ok m Hreach service_name) as Hok.
  split.
  - intros Hin.
    assert (Hinit : is_Some (initial_circuit_breakers !! service_name)).
    { unfold services in Hin.
      repeat (apply elem_of_cons in Hin as [->|Hin]; [eexists; reflexivity|]).
      inversion Hin. }
    destruct Hinit as [cb0 Hcb0]. rewrite Hcb0 in Hok.
    destruct (circuit_breakers m !! service_name); [eauto | contradiction].
  - intros cb Hcb. rewrite Hcb in Hok.
    destruct (initial_circuit_breakers !! service_name) as [cb0|] eqn:Hcb0;
      [|contradiction].
    destruct Hok as (Hthr & Hrt & Hset). split; [|exact Hset].
    exists cb0. auto.
Qed.

Lemma reachable_breakers_witness :
  exists cb : CircuitBreaker,
    circuit_breakers dynamodb_down !! "dynamodb" = Some cb
    /\ state cb = OPEN /\ settled cb
    /\ failure_threshold cb = 3 /\ recovery_timeout cb = 30.
Proof.
  assert (Hreach : reachable dynamodb_down).
  { exists example_config, 50, 10, 30, down_world,
      [ OpGetClient "dynamodb"; OpRefreshClients;
        OpGetClient "dynamodb"; OpRefreshClients;
        OpGetClient "dynamodb"; OpRefreshClients ]. reflexivity. }
  destruct (reachable_breakers dynamodb_down "dynamodb" Hreach) as [_ Hcb].
  exists (mkCircuitBreaker 3 30 3 (Some 600000000) OPEN).
  assert (Hlook : circuit_breakers dynamodb_down !! "dynamodb"
                  = Some (mkCircuitBreaker 3 30 3 (Some 600000000) OPEN)).
  { vm_compute. reflexivity. }
  destruct (Hcb _ Hlook) as ((cb0 & Hcb0 & Hthr & Hrt) & Hset).
  injection Hcb0 as <-.
  split_and!; [exact Hlook | reflexivity | exact Hset | exact Hthr | exact Hrt].
Defined.

(** *** The monitor of the reachable states *)

Lemma accessor_monitor_ok (s : string) (method : Accessor) (m : AWSClientManager) :
  lookup_method s client_methods = Some method ->
  monitor_ok m -> monitor_ok (snd (method m)).
Proof.
  intros Hs [Hwf Hen].
  destruct (accessor_frame s method m Hs) as (r0 & m0 & Hcall0 & He & _).
  destruct (accessor_effects s method m Hs) as (r & m' & Hcall & _ & _ & Hh & _).
  rewrite Hcall in Hcall0. injection Hcall0 as _ <-. rewrite Hcall. cbn [snd].
  unfold monitor_ok, _is_service_enabled in *. rewrite He.
  destruct Hh as [-> | (Hs_en & ev & ->)]; [split; assumption|].
  split; [apply record_wf_kept, Hwf|].
  intros n r'. destruct (decide (n = s)) as [->|Hne]; [intros _; exact Hs_en|].
  rewrite record_other by exact Hne. apply Hen.
Qed.

Lemma reachable_monitor_ok (m : AWSClientManager) :
  reachable m -> monitor_ok m.
Proof.
  apply (reachable_preserves monitor_ok).
  - intros en mp ct rt w. split; intros n r; cbn; rewrite lookup_empty; discriminate.
  - apply run_op_preserves.
    + apply accessor_monitor_ok.
    + intros m0 m' (He & _ & _ & Hh & _). unfold monitor_ok, _is_service_enabled.
      rewrite He, Hh. auto.
    + intros m0 Hok. exact Hok.
    + intros s m0. unfold monitor_ok, _is_service_enabled.
      destruct (force_refresh_keeps s m0) as (-> & -> & _). auto.
    + intros s m0. unfold monitor_ok, _is_service_enabled.
      destruct (reset_keeps s m0) as (-> & _ & -> & _). auto.
Qed.

(** X14. In every reachable state the counters of the monitor are
    consistent, and the monitor has nothing on a disabled service:
    [get_health_status] answers "unknown, no health data available" for
    it. *)
Theorem reachable_monitor (m : AWSClientManager) (service_name : string) :
  reachable m ->
  Health.monitor_wf (health_monitor m)
  /\ (_is_service_enabled service_name m = false ->
      Health.get_health_status service_name (health_monitor m)
      = Health.NoData "No health data available").
Proof.
  intros Hreach. destruct (reachable_monitor_ok m Hreach) as [Hwf Hen].
  split; [exact Hwf|]. intros Hoff. unfold Health.get_health_status.
  destruct (health_monitor m !! service_name) as [r|] eqn:Hr; [|reflexivity].
  rewrite (Hen _ _ Hr) in Hoff. discriminate.
Qed.

Lemma reachable_monitor_witness :
  Health.get_health_status "s3" (health_monitor (run_ops [OpHealthCheck] fresh_manager))
  = Health.NoData "No health data available".
Proof.
  apply (reachable_monitor (run_ops [OpHealthCheck] fresh_manager) "s3").
  - exists example_config, 50, 10, 30, flaky_world, [OpHealthCheck]. reflexivity.
  - vm_compute. reflexivity.
Defined.

(** *** The status of a client *)

(** X15. [get_client_status] answers "unknown" exactly for a name that has
    no accessor, and then changes nothing; for a service it answers
    "healthy" exactly when, after the call, the cache holds a client for the
    service. *)
Theorem status_is_what_is_cached (service_name : string) (m : AWSClientManager) :
  (fst (get_client_status service_name m) = StatusUnknown
   <-> lookup_method service_name client_methods = None)
  /\ (lookup_method service_name client_methods = None ->
      get_client_status service_name m = (StatusUnknown, m))
  /\ (is_Some (lookup_method service_name client_methods) ->
      (fst (get_client_status service_name m) = StatusHealthy
       <-> exists h : ClientHandle,
             _clients (snd (get_client_status service_name m)) !! service_name
             = Some (Some h))).
Proof.
  assert (Hlisted : forall method : Accessor,
             lookup_method service_name client_methods = Some method ->
             fst (get_client_status service_name m) <> StatusUnknown
             /\ (fst (get_client_status service_name m) = StatusHealthy
                 <-> exists h : ClientHandle,
                       _clients (snd (get_client_status service_name m)) !! service_name
                       = Some (Some h))).
  { intros method Hs. unfold get_client_status. rewrite Hs.
    destruct (accessor_effects service_name method m Hs) as (r & m' & -> & Hr & _).
    destruct r as [h|]; cbn [fst snd].
    - split; [discriminate|]. split; [|reflexivity].
      intros _. exists h. apply Hr. reflexivity.
    - split; [discriminate|]. split; [discriminate|].
      intros [h Hh]. apply Hr in Hh. discriminate. }
  split_and!.
  - split.
    + destruct (lookup_method service_name client_methods) as [method|] eqn:Hs;
        [|reflexivity].
      intros Hunknown. destruct (Hlisted method eq_refl) as [Hne _]. contradiction.
    + intros Hnone. unfold get_client_status. rewrite Hnone. reflexivity.
  - intros Hnone. unfold get_client_status. rewrite Hnone. reflexivity.
  - intros [method Hs]. apply (Hlisted method Hs).
Qed.

Lemma status_is_what_is_cached_witness :
  get_client_status "redshift" fresh_manager = (StatusUnknown, fresh_manager).
Proof.
  destruct (status_is_what_is_cached "redshift" fresh_manager) as (_ & Hunknown & _).
  apply Hunknown. reflexivity.
Defined.

(** *** Reset *)

(** X16. A reset re-admits a service: whatever the state of its breaker,
    OPEN included, after [reset_circuit_breakers] of that service or of all
    services the accessor of an enabled service with nothing cached and a
    free slot in the pool builds the client again.  The reset itself touches
    only breakers. *)
Theorem reset_readmits (sel : option string) (service_name : string)
    (method : Accessor) (m : AWSClientManager) :
  sel = None \/ sel = Some service_name ->
  lookup_method service_name client_methods = Some method ->
  _is_service_enabled service_name m = true ->
  _clients m !! service_name = None ->
  _active_connections (connection_pool m) < max_connections (connection_pool m) ->
  exists (service_type : string) (m' : AWSClientManager),
    method (reset_circuit_breakers sel m)
    = (Retry.Returned (handle_of (boto3 (world m) 0%nat)), m')
    /\ journal (world m')
       = journal (world m) ++ [CallAcquire; CallConstruct service_type; CallRelease]
    /\ _clients m' !! service_name = Some (handle_of (boto3 (world m) 0%nat)).
Proof.
  intros Hsel Hs Hen Hc Hfree.
  destruct (reset_keeps sel m) as (He & Hcl & Hh & Hp & Hw).
  assert (Hclosed : breaker_is_open service_name (reset_circuit_breakers sel m) = false).
  { unfold breaker_is_open. rewrite reset_breakers_lookup.
    assert (Htarget : match sel with
                      | None => true
                      | Some name => String.eqb name "" || String.eqb name service_name
                      end = true).
    { destruct Hsel as [-> | ->]; [reflexivity|].
      rewrite String.eqb_refl. apply orb_true_r. }
    rewrite Htarget. destruct (circuit_breakers m !! service_name); reflexivity. }
  destruct (accessor_attempt service_name method (reset_circuit_breakers sel m) Hs)
    as (ty & m' & Hcall & _ & Hcl' & _ & Hj & _); auto.
  { rewrite Hcl. exact Hc. }
  { unfold _is_service_enabled. rewrite He. exact Hen. }
  { rewrite Hp. exact Hfree. }
  rewrite Hw in Hcall, Hj, Hcl'. exists ty, m'.
  split_and!; [exact Hcall | exact Hj |].
  rewrite Hcl'. apply lookup_insert_eq.
Qed.

Lemma reset_readmits_witness :
  exists m' : AWSClientManager,
    get_dynamodb_resource (reset_circuit_breakers (Some "dynamodb") dynamodb_down)
    = (Retry.Returned None, m')
    /\ journal (world m')
       = journal (world dynamodb_down)
         ++ [CallAcquire; CallConstruct "dynamodb"; CallRelease].
Proof.
  assert (Hc : _clients dynamodb_down !! "dynamodb" = None) by (vm_compute; reflexivity).
  assert (Hen : _is_service_enabled "dynamodb" dynamodb_down = true)
    by (vm_compute; reflexivity).
  assert (Hfree : _active_connections (connection_pool dynamodb_down)
                  < max_connections (connection_pool dynamodb_down))
    by (vm_compute; reflexivity).
  destruct (reset_readmits (Some "dynamodb") "dynamodb" get_dynamodb_resource
              dynamodb_down (or_intror eq_refl) eq_refl Hen Hc Hfree)
    as (ty & m' & Hcall & Hj & _).
  exists m'. split; [exact Hcall|].
  apply (f_equal snd) in Hcall. cbn [snd] in Hcall. rewrite <- Hcall.
  vm_compute. reflexivity.
Defined.

(** *** A service that stays down *)

Lemma failing_rounds_S (service_name : string) (k : nat) :
  failing_rounds service_name (S k)
  = failing_rounds service_name k ++ [OpGetClient service_name; OpRefreshClients].
Proof.
  unfold failing_rounds. rewrite replicate_S_end, concat_app. reflexivity.
Qed.

Lemma run_ops_app (l1 l2 : list Op) (m : AWSClientManager) :
  run_ops (l1 ++ l2) m = run_ops l2 (run_ops l1 m).
Proof. unfold run_ops. apply fold_left_app. Qed.

(** The state after [k] failed rounds, while the breaker has not opened. *)
Lemma failing_rounds_state (service_name : string) (method : Accessor)
    (m : AWSClientManager) (cb : CircuitBreaker) (k : nat) :
  lookup_method service_name client_methods = Some method ->
  _is_service_enabled service_name m = true ->
  0 <= _active_connections (connection_pool m) < max_connections (connection_pool m) ->
  always_fails m ->
  _clients m !! service_name = None ->
  circuit_breakers m !! service_name = Some cb ->
  state cb = CLOSED ->
  failure_count cb + Z.of_nat k <= failure_threshold cb ->
  failure_count cb < failure_threshold cb ->
  let m' := run_ops (failing_rounds service_name k) m in
  services_enabled m' = services_enabled m
  /\ connection_pool m' = connection_pool m
  /\ always_fails m'
  /\ _clients m' !! service_name = None
  /\ constructions m' = (constructions m + k)%nat
  /\ exists cb' : CircuitBreaker,
       circuit_breakers m' !! service_name = Some cb'
       /\ failure_count cb' = failure_count cb + Z.of_nat k
       /\ failure_threshold cb' = failure_threshold cb
       /\ state cb' = if failure_count cb + Z.of_nat k >=? failure_threshold cb
                      then OPEN else CLOSED.
Proof.
  intros Hs Hen Hpool Hdown Hc Hcb Hclosed Hk Hbelow.
  induction k as [|k IH].
  - cbn. split_and!; auto. exists cb. split_and!; auto; [lia|].
    destruct (Z.geb_spec (failure_count cb + Z.of_nat 0) (failure_threshold cb));
      [lia | exact Hclosed].
  - destruct IH as (He & Hp & Hdown' & Hc' & Hn & cb' & Hcb' & Hcount & Hthr & Hstate);
      [lia|].
    rewrite failing_rounds_S, run_ops_app.
    set (mk := run_ops (failing_rounds service_name k) m) in *.
    cbn [run_ops fold_left run_op]. rewrite Hs.
    destruct (Z.geb_spec (failure_count cb + Z.of_nat k) (failure_threshold cb));
      [lia|].
    destruct (Hdown' 0%nat) as [e Hboto].
    destruct (accessor_attempt service_name method mk Hs Hc')
      as (ty & m1 & Hcall & He1 & Hcl1 & Hp1 & Hj1 & Hb1 & _ & Hbr1).
    { unfold _is_service_enabled. rewrite He. exact Hen. }
    { unfold breaker_is_open. rewrite Hcb', Hstate. reflexivity. }
    { rewrite Hp. lia. }
    rewrite Hboto in *. rewrite Hcall. cbn [snd].
    unfold refresh_clients. cbn.
    split_and!.
    + congruence.
    + rewrite Hp1 by (rewrite Hp; lia). exact Hp.
    + intros n. unfold always_fails in Hdown'. cbn. rewrite Hb1. apply Hdown'.
    + apply lookup_empty.
    + change (constructions (set_clients ∅ m1)) with (constructions m1).
      rewrite (constructions_after_attempt ty mk m1 Hj1), Hn. lia.
    + exists (_on_failure (datetime_now (world mk) 1%nat) cb').
      rewrite Hbr1. unfold breakers_after_failure. rewrite Hcb', lookup_insert_eq.
      split_and!; [reflexivity | cbn; lia | exact Hthr |].
      cbn. rewrite Hcount, Hthr, Hstate.
      replace (failure_count cb + Z.of_nat (S k)) with (failure_count cb + Z.of_nat k + 1)
        by lia.
      destruct (_ >=? _); reflexivity.
Qed.

(** X17. A service that stays down is cut off after [failure_threshold]
    failures.  Starting with a CLOSED breaker below its threshold, each
    round made of a call of the accessor and of [refresh_clients] builds the
    client once and fails; after as many rounds as the count was short of
    the threshold the breaker is OPEN, and the next call of the accessor
    returns [None] without building anything. *)
Theorem breaker_trips (service_name : string) (method : Accessor)
    (m : AWSClientManager) (cb : CircuitBreaker) :
  lookup_method service_name client_methods = Some method ->
  _is_service_enabled service_name m = true ->
  0 <= _active_connections (connection_pool m) < max_connections (connection_pool m) ->
  always_fails m ->
  _clients m !! service_name = None ->
  circuit_breakers m !! service_name = Some cb ->
  state cb = CLOSED ->
  0 <= failure_count cb < failure_threshold cb ->
  exists (cb' : CircuitBreaker) (m'' : AWSClientManager),
    let k := Z.to_nat (failure_threshold cb - failure_count cb) in
    let m' := run_ops (failing_rounds service_name k) m in
    circuit_breakers m' !! service_name = Some cb'
    /\ state cb' = OPEN
    /\ failure_count cb' = failure_threshold cb
    /\ constructions m' = (constructions m + k)%nat
    /\ method m' = (Retry.Returned None, m'')
    /\ constructions m'' = constructions m'.
Proof.
  intros Hs Hen Hpool Hdown Hc Hcb Hclosed [Hnn Hbelow].
  set (k := Z.to_nat (failure_threshold cb - failure_count cb)).
  destruct (failing_rounds_state service_name method m cb k Hs Hen Hpool Hdown Hc Hcb
              Hclosed ltac:(lia) Hbelow)
    as (_ & _ & _ & Hc' & Hn & cb' & Hcb' & Hcount & _ & Hstate).
  destruct (Z.geb_spec (failure_count cb + Z.of_nat k) (failure_threshold cb));
    [|lia].
  set (m' := run_ops (failing_rounds service_name k) m) in *.
  assert (Hopen : breaker_is_open service_name m' = true).
  { unfold breaker_is_open. rewrite Hcb', Hstate. reflexivity. }
  destruct (accessor_refused service_name method m' Hs Hc' (or_intror Hopen))
    as (m'' & Hcall & Hm'').
  exists cb', m''. cbn zeta. fold k. fold m'.
  split_and!; [exact Hcb' | exact Hstate | lia | exact Hn | exact Hcall |].
  destruct Hm'' as [-> | ->]; reflexivity.
Qed.

Lemma breaker_trips_witness :
  exists (cb' : CircuitBreaker) (m'' : AWSClientManager),
    circuit_breakers dynamodb_down !! "dynamodb" = Some cb'
    /\ state cb' = OPEN
    /\ get_dynamodb_resource dynamodb_down = (Retry.Returned None, m'')
    /\ constructions m'' = 3%nat.
Proof.
  assert (Hdown : always_fails (init example_config 50 10 30 down_world)).
  { intros n. eexists. reflexivity. }
  assert (Hpool : 0 <= _active_connections
                         (connection_pool (init example_config 50 10 30 down_world))
                  < max_connections
                      (connection_pool (init example_config 50 10 30 down_world)))
    by (cbn; lia).
  destruct (breaker_trips "dynamodb" get_dynamodb_resource
              (init example_config 50 10 30 down_world) (Breaker.init 3 30)
              eq_refl eq_refl Hpool Hdown eq_refl eq_refl eq_refl ltac:(cbn; lia))
    as (cb' & m'' & Hcb' & Hstate & _ & Hn & Hcall & Hn'').
  exists cb', m''. split_and!; [exact Hcb' | exact Hstate | exact Hcall |].
  rewrite Hn''. exact Hn.
Defined.

(** *** The report of the health check *)

Lemma report_step_inv (m : AWSClientManager) (acc : Report * AWSClientManager)
    (service : string) :
  report_inv m acc ->
  report_inv m (report_step acc service)
  /\ map fst (service_statuses (fst (report_step acc service)))
     = map fst (service_statuses (fst acc)) ++ [service]
  /\ snd (report_step acc service) = snd (get_client_status service (snd acc)).
Proof.
  destruct acc as [rep mc]. intros (He & Hen & Hh & Hc). cbn [fst snd] in *.
  unfold report_step.
  destruct (status_frame service mc) as (He1 & _).
  destruct (get_client_status service mc) as [st m1]. cbn [snd] in He1.
  assert (Henabled : _is_service_enabled service m1 = _is_service_enabled service m).
  { unfold _is_service_enabled. rewrite He1, He. reflexivity. }
  rewrite Henabled.
  set (status := Health.status_of _).
  unfold report_inv.
  destruct (_is_service_enabled service m) eqn:Hs; cbn [fst snd service_statuses
    enabled_services healthy_services critical_services];
    rewrite map_app, !List.filter_app, !length_app; cbn [map fst List.filter];
    unfold counts_as at 2 4; cbn [fst snd]; rewrite Hs; cbn [andb].
  - split_and!; try reflexivity; try congruence.
    + rewrite Hh. destruct status; cbn; lia.
    + rewrite Hc. destruct status; cbn; lia.
  - split_and!; try reflexivity; try congruence.
    + rewrite app_nil_r. exact Hen.
    + rewrite Hh. cbn. lia.
    + rewrite Hc. cbn. lia.
Qed.

Lemma report_loop_inv (m : AWSClientManager) (l : list string)
    (acc : Report * AWSClientManager) (acc' : list (string * ClientStatus) * AWSClientManager) :
  report_inv m acc ->
  snd acc = snd acc' ->
  report_inv m (report_loop l acc)
  /\ map fst (service_statuses (fst (report_loop l acc)))
     = map fst (service_statuses (fst acc)) ++ l
  /\ snd (report_loop l acc) = snd (fold_left health_check_step l acc').
Proof.
  revert acc acc'. induction l as [|s l IH]; intros acc acc' Hinv Hsnd.
  - cbn. rewrite app_nil_r. auto.
  - cbn [report_loop fold_left].
    destruct (report_step_inv m acc s Hinv) as (Hinv1 & Hnames1 & Hsnd1).
    destruct (IH (report_step acc s) (health_check_step acc' s) Hinv1)
      as (Hinv2 & Hnames2 & Hsnd2).
    { rewrite Hsnd1, Hsnd. unfold health_check_step.
      destruct (get_client_status s (snd acc')); reflexivity. }
    split_and!; [exact Hinv2 | | exact Hsnd2].
    unfold report_loop in Hnames2. rewrite Hnames2, Hnames1, <- app_assoc. reflexivity.
Qed.

Lemma counted_at_most_enabled (m : AWSClientManager)
    (rep : list (string * Health.HealthStatus)) :
  (length (List.filter (counts_as m Health.Healthy) rep)
   + length (List.filter (counts_as m Health.Critical) rep)
   <= length (List.filter (fun s => _is_service_enabled s m) (map fst rep)))%nat.
Proof.
  unfold counts_as. induction rep as [|[s st] rep IH]; [reflexivity|].
  cbn [List.filter map fst snd].
  destruct (_is_service_enabled s m); cbn [andb]; [|exact IH].
  destruct st; cbn; lia.
Qed.

(** X18. The summary of [health_check] counts what the report lists: the
    report has one status per service of the list, in order; the enabled
    services are those of the configuration; "healthy" and "critical" count
    the enabled services the monitor classifies so; so both counts are
    non-negative, their sum is at most the number of enabled services, and
    that number is at most 13.  The state after the report is that of the
    loop of calls. *)
Theorem report_summary_counts (m : AWSClientManager) :
  map fst (service_statuses (fst (fst (health_report m)))) = services
  /\ enabled_services (fst (fst (health_report m)))
     = List.filter (fun s => _is_service_enabled s m) services
  /\ healthy_services (fst (fst (health_report m)))
     = Z.of_nat (length (List.filter (counts_as m Health.Healthy)
                           (service_statuses (fst (fst (health_report m))))))
  /\ critical_services (fst (fst (health_report m)))
     = Z.of_nat (length (List.filter (counts_as m Health.Critical)
                           (service_statuses (fst (fst (health_report m))))))
  /\ healthy_services (fst (fst (health_report m)))
     + critical_services (fst (fst (health_report m)))
     <= Z.of_nat (length (enabled_services (fst (fst (health_report m))))) <= 13
  /\ snd (health_report m) = snd (health_check_loop m).
Proof.
  destruct (report_loop_inv m services (empty_report, m) ([], m))
    as ((_ & Hen & Hh & Hc) & Hnames & Hsnd).
  { unfold report_inv. cbn. auto. }
  { reflexivity. }
  unfold health_report, health_check_loop.
  destruct (report_loop services (empty_report, m)) as [rep m1].
  cbn [fst snd] in *.
  change (map fst (service_statuses empty_report) ++ services) with services in Hnames.
  rewrite Hnames in Hen.
  split_and!; try assumption.
  - rewrite Hh, Hc, Hen.
    pose proof (counted_at_most_enabled m (service_statuses rep)) as Hle.
    rewrite Hnames in Hle. apply Nat2Z.inj_le in Hle.
    rewrite Nat2Z.inj_add in Hle. exact Hle.
  - rewrite Hen.
    pose proof (List.filter_length_le (fun s => _is_service_enabled s m) services) as Hle.
    change (length services) with 13%nat in Hle.
    apply Nat2Z.inj_le in Hle. exact Hle.
Qed.

Lemma overall_test (e h : Z) :
  negb (Qle_bool (inject_Z e * (8 # 10)) (inject_Z h)) = (5 * h <? 4 * e).
Proof.
  unfold Qle_bool, Qmult, inject_Z. cbn.
  match goal with |- negb (?a <=? ?b) = _ => destruct (Z.leb_spec a b) end;
    destruct (Z.ltb_spec (5 * h) (4 * e)); cbn; try reflexivity; lia.
Qed.

(** X19. The overall status of the summary, for counts as the report
    makes them: it is "unknown" exactly when no service is enabled,
    "critical" exactly when some enabled service is critical, "healthy"
    exactly when every enabled service is healthy, "degraded" when fewer
    than four in five are, and "warning" needs at least five enabled
    services, none of them critical. *)
Theorem overall_status_cases (enabled healthy critical : Z) :
  0 <= healthy -> 0 <= critical -> healthy + critical <= enabled ->
  (overall_status enabled healthy critical = OverallUnknown <-> enabled = 0)
  /\ (overall_status enabled healthy critical = OverallCritical
      <-> 0 < enabled /\ 0 < critical)
  /\ (overall_status enabled healthy critical = OverallHealthy
      <-> 0 < enabled /\ healthy = enabled)
  /\ (overall_status enabled healthy critical = OverallDegraded
      <-> critical = 0 /\ 5 * healthy < 4 * enabled)
  /\ (overall_status enabled healthy critical = OverallWarning ->
      5 <= enabled /\ critical = 0 /\ healthy < enabled).
Proof.
  intros Hh Hc Hsum. unfold overall_status. rewrite overall_test.
  destruct (Z.eqb_spec enabled 0) as [He|He];
    [intuition (discriminate || lia)|].
  destruct (Z.gtb_spec critical 0) as [Hcrit|Hcrit];
    [intuition (discriminate || lia)|].
  destruct (Z.ltb_spec (5 * healthy) (4 * enabled)) as [Hdeg|Hdeg];
    [intuition (discriminate || lia)|].
  destruct (Z.eqb_spec healthy enabled) as [Hall|Hall];
    intuition (discriminate || lia).
Qed.

Lemma overall_status_cases_witness :
  overall_status 4 3 0 = OverallDegraded.
Proof.
  apply (overall_status_cases 4 3 0); lia.
Defined.

(** *** No configuration *)

Lemma all_disabled_step (j : list Call) (b : nat -> Outcome ClientHandle)
    (p : ConnectionPool) (h : gmap string Health.HealthRecord)
    (op : Op) (m : AWSClientManager) :
  all_disabled j b p h m -> all_disabled j b p h (run_op op m).
Proof.
  revert op m. apply run_op_preserves.
  - intros s method m Hs (Hoff & Hcache & Hj & Hb & Hp & Hh).
    destruct (_clients m !! s) as [c|] eqn:Hc.
    + rewrite (accessor_cached _ _ _ _ Hs Hc). cbn [snd].
      unfold all_disabled. split_and!; assumption.
    + destruct (accessor_refused _ _ _ Hs Hc (or_introl (Hoff s)))
        as (m' & -> & [-> | ->]); cbn [snd]; unfold all_disabled;
        [split_and!; assumption|].
      split_and!; auto. intros n c. cbn.
      destruct (decide (n = s)) as [->|Hne].
      * rewrite lookup_insert_eq. discriminate.
      * rewrite lookup_insert_ne by congruence. apply Hcache.
  - intros m m' (He & Hcl & _ & Hh' & Hp' & Hj' & Hb') (Hoff & Hcache & Hj & Hb & Hp & Hh).
    unfold all_disabled, _is_service_enabled in *.
    rewrite He, Hcl, Hh', Hp', Hj', Hb'. split_and!; assumption.
  - intros m (Hoff & Hcache & Hj & Hb & Hp & Hh). unfold all_disabled.
    split_and!; try assumption.
    intros n c. cbn. rewrite lookup_empty. discriminate.
  - intros s m (Hoff & Hcache & Hj & Hb & Hp & Hh).
    destruct (force_refresh_keeps s m) as (He & Hh' & Hp' & Hw').
    destruct (force_refresh_clients s m) as [Hcl _].
    unfold all_disabled, _is_service_enabled in *. rewrite He, Hh', Hp', Hw', Hcl.
    split_and!; auto. intros n c.
    destruct (_clients m !! s); [|apply Hcache].
    intros [_ Hn]%lookup_delete_Some. exact (Hcache n c Hn).
  - intros s m (Hoff & Hcache & Hj & Hb & Hp & Hh).
    destruct (reset_keeps s m) as (He & Hcl & Hh' & Hp' & Hw').
    unfold all_disabled, _is_service_enabled in *. rewrite He, Hh', Hp', Hw', Hcl.
    split_and!; assumption.
Qed.

(** X20. Without a readable [aws/config.json] nothing is ever built: a
    manager started from a missing file, from a file that is not JSON, from
    a file that cannot be read, or from one with no ['aws'] section, has a
    pool of 50 and no service enabled, and whatever is called on it
    afterwards, every accessor returns [None], the outside is never called,
    and pool and monitor stay as they were at the start. *)
Theorem no_config_no_clients (f : ConfigFile) (w : World) (ops : list Op)
    (service_name : string) (method : Accessor) :
  load_aws_config f = empty_section ->
  lookup_method service_name client_methods = Some method ->
  fst (method (run_ops ops (new_manager f w))) = Retry.Returned None
  /\ journal (world (run_ops ops (new_manager f w))) = journal w
  /\ boto3 (world (run_ops ops (new_manager f w))) = boto3 w
  /\ connection_pool (run_ops ops (new_manager f w)) = Pool.init 50 10 30
  /\ health_monitor (run_ops ops (new_manager f w)) = ∅.
Proof.
  intros Hload Hs. unfold new_manager. rewrite Hload. cbn [section_services
    max_pool_connections connect_timeout section_read_timeout empty_section default].
  assert (Hinv : all_disabled (journal w) (boto3 w) (Pool.init 50 10 30) ∅
                   (run_ops ops (init ∅ 50 10 30 w))).
  { assert (Hinit : all_disabled (journal w) (boto3 w) (Pool.init 50 10 30) ∅
                      (init ∅ 50 10 30 w)).
    { unfold all_disabled. split_and!; try reflexivity.
      intros n c. cbn. rewrite lookup_empty. discriminate. }
    revert Hinit. generalize (init ∅ 50 10 30 w).
    induction ops as [|op ops IH]; intros m0 Hm0; [exact Hm0|].
    cbn. apply IH, all_disabled_step, Hm0. }
  destruct Hinv as (Hoff & Hcache & Hj & Hb & Hp & Hh).
  split_and!; auto.
  set (m := run_ops ops (init ∅ 50 10 30 w)) in *.
  destruct (_clients m !! service_name) as [[c|]|] eqn:Hc.
  - destruct (Hcache _ _ Hc).
  - rewrite (accessor_cached _ _ _ _ Hs Hc). reflexivity.
  - destruct (accessor_refused _ _ _ Hs Hc (or_introl (Hoff service_name)))
      as (m' & -> & _). reflexivity.
Qed.

Lemma no_config_no_clients_witness :
  fst (get_bedrock_client (run_ops [OpHealthCheck; OpRefreshClients]
                                   (new_manager FileNotFoundError flaky_world)))
  = Retry.Returned None
  /\ journal (world (run_ops [OpHealthCheck; OpRefreshClients]
                             (new_manager FileNotFoundError flaky_world))) = [].
Proof.
  destruct (no_config_no_clients FileNotFoundError flaky_world
              [OpHealthCheck; OpRefreshClients] "bedrock" get_bedrock_client
              eq_refl eq_refl) as (Hnone & Hj & _).
  split; [exact Hnone | exact Hj].
Defined.

(** *** A pool with no room *)

Lemma constructions_unchanged (m m' : AWSClientManager) :
  journal (world m') = journal (world m) ++ [CallAcquire] ->
  constructions m' = constructions m.
Proof.
  intros Hj. unfold constructions. rewrite Hj, List.filter_app, length_app. cbn. lia.
Qed.

(** X21. A full pool counts against the service: when no slot is free, the
    accessor of an enabled service with nothing cached and a breaker that is
    not open returns [None] and caches it without calling the outside, and
    yet records a failure "Connection pool exhausted" in the monitor and one
    more failure on the breaker of the service. *)
Theorem pool_exhaustion_counts_as_failure (service_name : string) (method : Accessor)
    (m : AWSClientManager) :
  lookup_method service_name client_methods = Some method ->
  _clients m !! service_name = None ->
  _is_service_enabled service_name m = true ->
  breaker_is_open service_name m = false ->
  max_connections (connection_pool m) <= _active_connections (connection_pool m) ->
  exists m' : AWSClientManager,
    method m = (Retry.Returned None, m')
    /\ _clients m' !! service_name = Some None
    /\ constructions m' = constructions m
    /\ boto3 (world m') = boto3 (world m)
    /\ Health.failure_count (Health.entry service_name (health_monitor m'))
       = Health.failure_count (Health.entry service_name (health_monitor m)) + 1
    /\ Health.last_error (Health.entry service_name (health_monitor m'))
       = Some "Connection pool exhausted"
    /\ circuit_breakers m' !! service_name
       = _on_failure (datetime_now (world m) 1%nat) <$> circuit_breakers m !! service_name.
Proof.
  intros Hs Hc Hen Hopen Hfull.
  destruct (accessor_as_generic _ _ _ Hs Hc Hen Hopen) as (ty & Hgen).
  destruct (create_exhausted service_name ty m Hen Hopen Hfull)
    as (m1 & Hcreate & _ & Hcl & _ & Hj & Hb & Hh & Hbr).
  eexists. split; [apply Hgen, Hcreate|]. cbn [_clients set_clients health_monitor
    circuit_breakers world].
  split_and!.
  - apply lookup_insert_eq.
  - apply constructions_unchanged. exact Hj.
  - exact Hb.
  - rewrite Hh. apply failure_count_after_failure.
  - rewrite Hh. unfold Health.entry at 1, Health.record_failure.
    rewrite lookup_insert_eq. reflexivity.
  - rewrite Hbr. unfold breakers_after_failure.
    destruct (circuit_breakers m !! service_name) as [cb|] eqn:Hcb; cbn;
      [apply lookup_insert_eq | exact Hcb].
Qed.

Lemma pool_exhaustion_counts_as_failure_witness :
  exists m' : AWSClientManager,
    get_bedrock_client (init example_config 0 10 30 flaky_world)
    = (Retry.Returned None, m')
    /\ constructions m' = 0%nat
    /\ Health.last_error (Health.entry "bedrock" (health_monitor m'))
       = Some "Connection pool exhausted".
Proof.
  destruct (pool_exhaustion_counts_as_failure "bedrock" get_bedrock_client
              (init example_config 0 10 30 flaky_world)
              eq_refl eq_refl eq_refl eq_refl ltac:(cbn; lia))
    as (m' & Hcall & _ & Hn & _ & _ & Herr & _).
  exists m'. split_and!; [exact Hcall | exact Hn | exact Herr].
Defined.

(** *** The health check of a pool of no connection *)

Lemma health_loop_keeps_pool (m : AWSClientManager) :
  0 <= _active_connections (connection_pool m) ->
  connection_pool (snd (health_check_loop m)) = connection_pool m.
Proof.
  intros Hnn. unfold health_check_loop.
  apply (health_steps_ind (fun m' => connection_pool m' = connection_pool m));
    [|reflexivity].
  intros s m' _ Hp. destruct (status_frame s m') as (_ & _ & Hp' & _).
  rewrite Hp' by (rewrite Hp; exact Hnn). exact Hp.
Qed.

Lemma health_check_raises (m : AWSClientManager) :
  max_connections (connection_pool (snd (health_check_loop m))) = 0 ->
  health_check m
  = (Raise (OtherException "division by zero"), snd (health_check_loop m)).
Proof.
  unfold health_check. destruct (health_check_loop m) as [statuses m1]. cbn [snd].
  intros ->. reflexivity.
Qed.

(** With no free slot an accessor builds nothing. *)
Lemma accessor_full_pool (service_name : string) (method : Accessor)
    (m : AWSClientManager) :
  lookup_method service_name client_methods = Some method ->
  max_connections (connection_pool m) <= _active_connections (connection_pool m) ->
  connection_pool (snd (method m)) = connection_pool m
  /\ constructions (snd (method m)) = constructions m
  /\ boto3 (world (snd (method m))) = boto3 (world m).
Proof.
  intros Hs Hfull.
  destruct (_clients m !! service_name) as [c|] eqn:Hc.
  { rewrite (accessor_cached _ _ _ _ Hs Hc). split_and!; reflexivity. }
  assert (Hrefused :
            _is_service_enabled service_name m = false
            \/ breaker_is_open service_name m = true ->
            connection_pool (snd (method m)) = connection_pool m
            /\ constructions (snd (method m)) = constructions m
            /\ boto3 (world (snd (method m))) = boto3 (world m)).
  { intros Href.
    destruct (accessor_refused _ _ _ Hs Hc Href) as (m' & -> & [-> | ->]);
      split_and!; reflexivity. }
  destruct (_is_service_enabled service_name m) eqn:Hen; [|auto].
  destruct (breaker_is_open service_name m) eqn:Hopen; [auto|].
  destruct (accessor_as_generic _ _ _ Hs Hc Hen Hopen) as (ty & Hgen).
  destruct (create_exhausted service_name ty m Hen Hopen Hfull)
    as (m1 & Hcreate & _ & _ & Hp & Hj & Hb & _).
  rewrite (Hgen _ _ Hcreate). cbn [snd].
  split_and!; [exact Hp | | exact Hb].
  apply (constructions_unchanged m). exact Hj.
Qed.

(** X22. A pool configured with [max_connections = 0] makes [health_check]
    useless: the call builds no client, every acquisition of a connection
    failing, and it does not return a report: it raises, the pool
    utilisation being a division by [max_connections]. *)
Theorem health_check_without_pool (m : AWSClientManager) :
  0 <= _active_connections (connection_pool m) ->
  max_connections (connection_pool m) = 0 ->
  (exists e : PyException, fst (health_check m) = Raise e)
  /\ constructions (snd (health_check m)) = constructions m
  /\ boto3 (world (snd (health_check m))) = boto3 (world m)
  /\ connection_pool (snd (health_check m)) = connection_pool m.
Proof.
  intros Hnn Hmax.
  assert (Hloop : connection_pool (snd (health_check_loop m)) = connection_pool m
                  /\ constructions (snd (health_check_loop m)) = constructions m
                  /\ boto3 (world (snd (health_check_loop m))) = boto3 (world m)).
  { unfold health_check_loop.
    apply (health_steps_ind
             (fun m' => connection_pool m' = connection_pool m
                        /\ constructions m' = constructions m
                        /\ boto3 (world m') = boto3 (world m)));
      [|split_and!; reflexivity].
    intros s m' _ (Hp & Hn & Hb).
    apply (status_preserves
             (fun m'' => connection_pool m'' = connection_pool m
                         /\ constructions m'' = constructions m
                         /\ boto3 (world m'') = boto3 (world m)));
      [|split_and!; assumption].
    intros s' method m0 Hs' (Hp0 & Hn0 & Hb0).
    destruct (accessor_full_pool s' method m0 Hs') as (Hp1 & Hn1 & Hb1).
    { rewrite Hp0, Hmax. exact Hnn. }
    rewrite Hp1, Hn1, Hb1. split_and!; assumption. }
  destruct Hloop as (Hp & Hn & Hb).
  destruct (health_check_after_loop m) as (_ & _ & _ & _ & Hp' & Hj' & Hb').
  split_and!.
  - exists (OtherException "division by zero").
    rewrite health_check_raises; [reflexivity|]. rewrite Hp. exact Hmax.
  - rewrite <- Hn. unfold constructions. rewrite Hj'. reflexivity.
  - rewrite Hb'. exact Hb.
  - rewrite Hp'. exact Hp.
Qed.

Lemma health_check_without_pool_witness :
  fst (health_check (init example_config 0 10 30 flaky_world))
  = Raise (OtherException "division by zero")
  /\ constructions (snd (health_check (init example_config 0 10 30 flaky_world)))
     = 0%nat.
Proof.
  destruct (health_check_without_pool (init example_config 0 10 30 flaky_world))
    as ((e & He) & Hn & _); [cbn; lia | reflexivity |].
  split; [|exact Hn]. vm_compute. reflexivity.
Defined.

(** *** Forced refresh, then the accessor *)

(** X23. A forced refresh re-admits a service that has an entry in the
    cache, a cached [None] and an OPEN breaker included: the next call of
    the accessor of an enabled service builds the client again when a slot
    is free in the pool. *)
Theorem force_refresh_readmits (service_name : string) (method : Accessor)
    (m : AWSClientManager) :
  lookup_method service_name client_methods = Some method ->
  is_Some (_clients m !! service_name) ->
  _is_service_enabled service_name m = true ->
  _active_connections (connection_pool m) < max_connections (connection_pool m) ->
  exists (service_type : string) (m' : AWSClientManager),
    method (force_refresh_client service_name m)
    = (Retry.Returned (handle_of (boto3 (world m) 0%nat)), m')
    /\ journal (world m')
       = journal (world m) ++ [CallAcquire; CallConstruct service_type; CallRelease]
    /\ _clients m' !! service_name = Some (handle_of (boto3 (world m) 0%nat)).
Proof.
  intros Hs [c Hc] Hen Hfree.
  destruct (force_refresh_keeps service_name m) as (He & Hh & Hp & Hw).
  destruct (force_refresh_clients service_name m) as [Hcl _]. rewrite Hc in Hcl.
  assert (Hclosed : breaker_is_open service_name (force_refresh_client service_name m)
                    = false).
  { unfold breaker_is_open, force_refresh_client. rewrite Hc.
    set (m1 := set_clients (delete service_name (_clients m)) m).
    destruct (circuit_breakers m1 !! service_name) as [cb|] eqn:Hcb.
    - rewrite reset_breakers_lookup. cbv beta iota.
      rewrite String.eqb_refl, orb_true_r, Hcb. reflexivity.
    - rewrite Hcb. reflexivity. }
  destruct (accessor_attempt service_name method (force_refresh_client service_name m) Hs)
    as (ty & m' & Hcall & _ & Hcl' & _ & Hj & _); auto.
  { rewrite Hcl. apply lookup_delete_eq. }
  { unfold _is_service_enabled. rewrite He. exact Hen. }
  { rewrite Hp. exact Hfree. }
  rewrite Hw in Hcall, Hj, Hcl'. exists ty, m'.
  split_and!; [exact Hcall | exact Hj |].
  rewrite Hcl'. apply lookup_insert_eq.
Qed.

Lemma force_refresh_readmits_witness :
  exists m' : AWSClientManager,
    get_bedrock_client (force_refresh_client "bedrock" tripped_manager)
    = (Retry.Returned None, m')
    /\ journal (world m') = [CallAcquire; CallConstruct "bedrock-runtime"; CallRelease].
Proof.
  destruct (force_refresh_readmits "bedrock" get_bedrock_client tripped_manager
              eq_refl ltac:(exists None; reflexivity) eq_refl ltac:(cbn; lia))
    as (ty & m' & Hcall & _).
  exists m'. split; [exact Hcall|].
  apply (f_equal snd) in Hcall. cbn [snd] in Hcall. rewrite <- Hcall.
  vm_compute. reflexivity.
Defined.

End manager_more_facts.
